(** * SupportRouter: the conversation controller and its session registry

    A shallow embedding of [enhanced_chatbot.py] (class
    [EnhancedDepartmentRouterChatbot]) and of the request handlers of
    [enhanced_backend_api.py] that own the session registry.

    Conventions of the embedding.
    - A Python [str] is the [string] of the bytes of its UTF-8 encoding (a
      lone surrogate taking its three bytes); a character is a byte that
      starts an encoding together with the continuation bytes that follow it
      ([Text.chars]).  [str.strip] removes
      the characters Python counts as whitespace, the ones above U+007F
      included.  [str.lower] and the regex class [\w] are those of Python on
      ASCII text; above U+007F they follow the Unicode tables of the
      interpreter, which are part of the environment [env].
    - A Python value whose type the code does not fix (what [json.loads]
      returns for a field of a model reply) is a [pyval].
    - A method of the controller is a computation over the controller object
      that may return or raise; what it has assigned before raising stays
      assigned.
    - The behaviour of the three remote services, of the process
      environment and of the interpreter's Unicode tables during one call is
      an [env] record, chosen freely. *)

From Stdlib Require Import Ascii NArith ZArith Bool Lia.
From stdpp Require Import base option list gmap strings pretty.

(** ** Text primitives *)

Module Text.

Definition nl : string := String "010"%char "".

(** A byte of the form 10xxxxxx: inside the encoding of a character, never at
    its start. *)
Definition is_continuation (c : ascii) : bool :=
  let n := nat_of_ascii c in (128 <=? n) && (n <? 192).

Definition continues (s : string) : bool :=
  match s with
  | String c _ => is_continuation c
  | EmptyString => false
  end.

(** The characters of [s], in order: each is a byte with the continuation
    bytes that follow it. *)
Fixpoint chars (s : string) : list string :=
  match s with
  | EmptyString => []
  | String c s' =>
      if continues s' then
        match chars s' with
        | ch :: rest => String c ch :: rest
        | [] => [String c ""]
        end
      else String c "" :: chars s'
  end.

(** [''.join(parts)] *)
Fixpoint cat (parts : list string) : string :=
  match parts with
  | [] => ""
  | x :: rest => x +:+ cat rest
  end.

(** The encoding of the code point [cp]. *)
Definition utf8 (cp : N) : string :=
  let byte (n : N) := ascii_of_N n in
  let tail (n : N) := byte (128 + n mod 64)%N in
  if (cp <? 0x80)%N then String (byte cp) ""
  else if (cp <? 0x800)%N then String (byte (192 + cp / 64)%N) (String (tail cp) "")
  else if (cp <? 0x10000)%N then
    String (byte (224 + cp / 4096)%N) (String (tail (cp / 64)%N) (String (tail cp) ""))
  else
    String (byte (240 + cp / 262144)%N)
      (String (tail (cp / 4096)%N) (String (tail (cp / 64)%N) (String (tail cp) ""))).

(** The code points [c] with [chr(c).isspace()]: the characters [str.strip]
    removes. *)
Definition space_code_points : list N :=
  [ 0x09; 0x0A; 0x0B; 0x0C; 0x0D; 0x1C; 0x1D; 0x1E; 0x1F; 0x20; 0x85; 0xA0;
    0x1680; 0x2000; 0x2001; 0x2002; 0x2003; 0x2004; 0x2005; 0x2006; 0x2007;
    0x2008; 0x2009; 0x200A; 0x2028; 0x2029; 0x202F; 0x205F; 0x3000 ]%N.

Definition spaces : list string := map utf8 space_code_points.

(** [ch.isspace()] for one character *)
Definition is_space (ch : string) : bool := existsb (String.eqb ch) spaces.

Definition is_ascii (c : ascii) : bool := nat_of_ascii c <? 128.

Definition is_upper (c : ascii) : bool :=
  let n := nat_of_ascii c in (65 <=? n) && (n <=? 90).

Definition is_lower (c : ascii) : bool :=
  let n := nat_of_ascii c in (97 <=? n) && (n <=? 122).

Definition is_digit (c : ascii) : bool :=
  let n := nat_of_ascii c in (48 <=? n) && (n <=? 57).

(** The regex class [\w] of a [str] pattern, for one character: a letter or
    digit of any script, or the underscore.  Above U+007F the answer is
    [ch.isalnum()], taken from the interpreter's tables [alnum]. *)
Definition is_word (alnum : string -> bool) (ch : string) : bool :=
  match ch with
  | String c EmptyString =>
      if is_ascii c then is_upper c || is_lower c || is_digit c || Ascii.eqb c "_"
      else alnum ch
  | _ => alnum ch
  end.

Definition lower_char (c : ascii) : ascii :=
  if is_upper c then ascii_of_nat (nat_of_ascii c + 32) else c.

Fixpoint all_ascii (s : string) : bool :=
  match s with
  | EmptyString => true
  | String c s' => is_ascii c && all_ascii s'
  end.

Fixpoint lower_ascii (s : string) : string :=
  match s with
  | EmptyString => EmptyString
  | String c s' => String (lower_char c) (lower_ascii s')
  end.

(** [s.lower()]: in a text of ASCII characters the letters A to Z are
    replaced; a text with a character above U+007F is lowered by the
    interpreter's tables [table]. *)
Definition lower (table : string -> string) (s : string) : string :=
  if all_ascii s then lower_ascii s else table s.

(** [s] without the prefix [p], when it starts with [p]. *)
Fixpoint without_prefix (p s : string) : option string :=
  match p, s with
  | EmptyString, _ => Some s
  | String a p', String b s' => if Ascii.eqb a b then without_prefix p' s' else None
  | String _ _, EmptyString => None
  end.

(** [s] without the whitespace character it starts with, when it starts with
    one. *)
Definition after_space (s : string) : option string :=
  head (omap (fun ch => without_prefix ch s) spaces).

Fixpoint lstrip_upto (n : nat) (s : string) : string :=
  match n with
  | 0 => s
  | S n' =>
      match after_space s with
      | Some rest => lstrip_upto n' rest
      | None => s
      end
  end.

(** [s.lstrip()]: whitespace characters are taken from the front as long as
    there is one; there are at most as many as [s] has bytes. *)
Definition lstrip (s : string) : string := lstrip_upto (String.length s) s.

(** [s.rstrip()], from the right: what is left of [s] once its tail is
    stripped is dropped when it is one whitespace character. *)
Fixpoint rstrip (s : string) : string :=
  match s with
  | EmptyString => EmptyString
  | String c s' =>
      let kept := String c (rstrip s') in
      if is_space kept then EmptyString else kept
  end.

(** [s.strip()] *)
Definition strip (s : string) : string := lstrip (rstrip s).

(** [s.startswith(p)] *)
Fixpoint starts_with (p s : string) : bool :=
  match p, s with
  | EmptyString, _ => true
  | String a p', String b s' => Ascii.eqb a b && starts_with p' s'
  | String _ _, EmptyString => false
  end.

(** [p in s] for two strings: [p] occurs in [s] as a run of consecutive
    characters. *)
Fixpoint contains (p s : string) : bool :=
  starts_with p s ||
  match s with
  | EmptyString => false
  | String _ s' => contains p s'
  end.

(** [sep.join(parts)] *)
Fixpoint join (sep : string) (parts : list string) : string :=
  match parts with
  | [] => ""
  | [x] => x
  | x :: rest => x +:+ sep +:+ join sep rest
  end.

(** [s[:n]] for [n >= 0]: the first [n] characters *)
Definition take_chars (n : nat) (s : string) : string := cat (take n (chars s)).

(** [s] with a final line feed removed, when it ends in one. *)
Fixpoint chomp (s : string) : option string :=
  match s with
  | EmptyString => None
  | String c s' =>
      match s' with
      | EmptyString => if Ascii.eqb c "010" then Some EmptyString else None
      | _ => String c <$> chomp s'
      end
  end.

End Text.

(** ** Regular expressions, as far as the email pattern needs them *)

Module Re.

(** A pattern over characters; [Cls p] is a class, [p] its test. *)
Inductive regex :=
| Nul
| Eps
| Cls (p : string -> bool)
| Cat (r1 r2 : regex)
| Alt (r1 r2 : regex)
| Star (r : regex).

(** [r+] *)
Definition Plus (r : regex) : regex := Cat r (Star r).

Definition Chr (c : ascii) : regex := Cls (String.eqb (String c "")).

Fixpoint nullable (r : regex) : bool :=
  match r with
  | Nul => false
  | Eps => true
  | Cls _ => false
  | Cat r1 r2 => nullable r1 && nullable r2
  | Alt r1 r2 => nullable r1 || nullable r2
  | Star _ => true
  end.

(** What is left of [r] once the character [ch] has been read. *)
Fixpoint deriv (ch : string) (r : regex) : regex :=
  match r with
  | Nul => Nul
  | Eps => Nul
  | Cls p => if p ch then Eps else Nul
  | Cat r1 r2 =>
      if nullable r1
      then Alt (Cat (deriv ch r1) r2) (deriv ch r2)
      else Cat (deriv ch r1) r2
  | Alt r1 r2 => Alt (deriv ch r1) (deriv ch r2)
  | Star r1 => Cat (deriv ch r1) (Star r1)
  end.

Fixpoint matches (r : regex) (text : list string) : bool :=
  match text with
  | [] => nullable r
  | ch :: rest => matches (deriv ch r) rest
  end.

(** [re.fullmatch(r, s) is not None] *)
Definition fullmatch (r : regex) (s : string) : bool := matches r (Text.chars s).

(** The runs of characters a pattern denotes. *)
Inductive lang : regex -> list string -> Prop :=
| lang_eps : lang Eps []
| lang_cls p ch : p ch = true -> lang (Cls p) [ch]
| lang_cat r1 r2 s1 s2 : lang r1 s1 -> lang r2 s2 -> lang (Cat r1 r2) (s1 ++ s2)
| lang_alt_l r1 r2 s : lang r1 s -> lang (Alt r1 r2) s
| lang_alt_r r1 r2 s : lang r2 s -> lang (Alt r1 r2) s
| lang_star_nil r : lang (Star r) []
| lang_star_cons r ch s1 s2 :
    lang r (ch :: s1) -> lang (Star r) s2 -> lang (Star r) ((ch :: s1) ++ s2).

(** [re.search(r'^' + r + r'$', s)]: the pattern is anchored at both ends, and
    without [re.MULTILINE] the [$] also matches just before a line feed that
    ends the string.  The result is [group(0)]. *)
Definition search_anchored (r : regex) (s : string) : option string :=
  if fullmatch r s then Some s
  else match Text.chomp s with
       | Some m => if fullmatch r m then Some m else None
       | None => None
       end.

End Re.

(** ** Python values, exceptions and computations *)

(** A value of a type the code does not fix.  [VOther] stands for a float, a
    list or a dict, known by the text [str] gives for it and by its truth
    value. *)
Inductive pyval :=
| VNone
| VBool (b : bool)
| VInt (n : Z)
| VStr (s : string)
| VOther (shown : string) (truth : bool).

(** [str(v)], as an f-string field renders it. *)
Definition py_str (v : pyval) : string :=
  match v with
  | VNone => "None"
  | VBool true => "True"
  | VBool false => "False"
  | VInt n => pretty n
  | VStr s => s
  | VOther shown _ => shown
  end.

(** [bool(v)] *)
Definition truthy (v : pyval) : bool :=
  match v with
  | VNone => false
  | VBool b => b
  | VInt n => negb (n =? 0)%Z
  | VStr s => negb (String.eqb s "")
  | VOther _ t => t
  end.

Inductive exn :=
| KeyError (key : pyval)
| TypeError
| AttributeError
| IndexError
| ValueError (msg : string)
| PlainException (msg : string)
| ServiceError (service : string).

Inductive outcome (A : Type) :=
| Returned (a : A)
| Raised (e : exn).
Arguments Returned {A} a.
Arguments Raised {A} e.

(** A computation over a mutable object of type [S]: it returns or raises,
    and leaves the object as its assignments made it in both cases. *)
Definition M (S A : Type) : Type := S -> outcome A * S.

Definition ret {S A} (a : A) : M S A := fun s => (Returned a, s).

Definition bind {S A B} (m : M S A) (k : A -> M S B) : M S B :=
  fun s =>
    match m s with
    | (Returned a, s') => k a s'
    | (Raised e, s') => (Raised e, s')
    end.

Definition raise {S A} (e : exn) : M S A := fun s => (Raised e, s).

Definition get {S} : M S S := fun s => (Returned s, s).

Definition modify {S} (f : S -> S) : M S unit := fun s => (Returned tt, f s).

(** [try: body  except Exception as e: handler(e)] *)
Definition try_except {S A} (body : M S A) (handler : exn -> M S A) : M S A :=
  fun s =>
    match body s with
    | (Returned a, s') => (Returned a, s')
    | (Raised e, s') => handler e s'
    end.

Notation "'do' x <- m ; k" := (bind m (fun x => k))
  (at level 10, x name, m at level 100, k at level 200).
Notation "'run' m ; k" := (bind m (fun _ => k))
  (at level 10, m at level 100, k at level 200).

(** [d[k]] for a dict with string keys.  A key of another hashable type is
    not found; [VOther] is taken as unhashable (a list or a dict), which is a
    [TypeError].  Both are exceptions to every caller. *)
Definition getitem {S} (d : gmap string pyval) (k : pyval) : M S pyval :=
  match k with
  | VStr s =>
      match d !! s with
      | Some v => ret v
      | None => raise (KeyError k)
      end
  | VOther _ _ => raise TypeError
  | _ => raise (KeyError k)
  end.

(** [d.get(k, default)] *)
Definition get_or (d : gmap string pyval) (k : string) (default : pyval) : pyval :=
  match d !! k with
  | Some v => v
  | None => default
  end.

(** [d.get(k)] *)
Definition get_opt (d : gmap string pyval) (k : string) : pyval :=
  get_or d k VNone.

(** [v.strip()] *)
Definition py_strip {S} (v : pyval) : M S string :=
  match v with
  | VStr s => ret (Text.strip s)
  | _ => raise AttributeError
  end.

(** [v.lower()], with the interpreter's tables [table] *)
Definition py_lower {S} (table : string -> string) (v : pyval) : M S string :=
  match v with
  | VStr s => ret (Text.lower table s)
  | _ => raise AttributeError
  end.

(** [v + s] for a string [s] *)
Definition py_add_str {S} (v : pyval) (s : string) : M S string :=
  match v with
  | VStr a => ret (a +:+ s)
  | _ => raise TypeError
  end.

(** The check ['\n'.join(parts)] makes before it joins: every part is a
    [str]. *)
Fixpoint py_join_lines {S} (parts : list pyval) : M S (list string) :=
  match parts with
  | [] => ret []
  | VStr s :: rest => do l <- py_join_lines rest; ret (s :: l)
  | _ :: _ => raise TypeError
  end.

(** ** The controller object *)

Inductive role := User | Assistant.

Record turn := {
  turn_role : role;
  content : string;
  timestamp : string
}.

Record controller := {
  chat_history : list turn;
  session_id : string;
  identified_department : pyval;
  department_confidence : pyval;
  email_workflow_active : bool;
  email_confirmation_pending : bool;
  original_user_question : string;
  bot_response_to_question : string;
  email_data : gmap string pyval;
  current_step : nat;
  (** department name to destination address; the descriptions only feed the
      classifier prompt and are left out *)
  departments : gmap string pyval
}.

Definition workflow_steps : list string :=
  ["name"; "email"; "company"; "additional_details"].

(** Field assignments, [self.f = v]. *)
Definition set_chat_history (v : list turn) (c : controller) : controller :=
  {| chat_history := v; session_id := session_id c;
     identified_department := identified_department c;
     department_confidence := department_confidence c;
     email_workflow_active := email_workflow_active c;
     email_confirmation_pending := email_confirmation_pending c;
     original_user_question := original_user_question c;
     bot_response_to_question := bot_response_to_question c;
     email_data := email_data c; current_step := current_step c;
     departments := departments c |}.

Definition set_session_id (v : string) (c : controller) : controller :=
  {| chat_history := chat_history c; session_id := v;
     identified_department := identified_department c;
     department_confidence := department_confidence c;
     email_workflow_active := email_workflow_active c;
     email_confirmation_pending := email_confirmation_pending c;
     original_user_question := original_user_question c;
     bot_response_to_question := bot_response_to_question c;
     email_data := email_data c; current_step := current_step c;
     departments := departments c |}.

Definition set_identified_department (v : pyval) (c : controller) : controller :=
  {| chat_history := chat_history c; session_id := session_id c;
     identified_department := v;
     department_confidence := department_confidence c;
     email_workflow_active := email_workflow_active c;
     email_confirmation_pending := email_confirmation_pending c;
     original_user_question := original_user_question c;
     bot_response_to_question := bot_response_to_question c;
     email_data := email_data c; current_step := current_step c;
     departments := departments c |}.

Definition set_department_confidence (v : pyval) (c : controller) : controller :=
  {| chat_history := chat_history c; session_id := session_id c;
     identified_department := identified_department c;
     department_confidence := v;
     email_workflow_active := email_workflow_active c;
     email_confirmation_pending := email_confirmation_pending c;
     original_user_question := original_user_question c;
     bot_response_to_question := bot_response_to_question c;
     email_data := email_data c; current_step := current_step c;
     departments := departments c |}.

Definition set_email_workflow_active (v : bool) (c : controller) : controller :=
  {| chat_history := chat_history c; session_id := session_id c;
     identified_department := identified_department c;
     department_confidence := department_confidence c;
     email_workflow_active := v;
     email_confirmation_pending := email_confirmation_pending c;
     original_user_question := original_user_question c;
     bot_response_to_question := bot_response_to_question c;
     email_data := email_data c; current_step := current_step c;
     departments := departments c |}.

Definition set_email_confirmation_pending (v : bool) (c : controller) : controller :=
  {| chat_history := chat_history c; session_id := session_id c;
     identified_department := identified_department c;
     department_confidence := department_confidence c;
     email_workflow_active := email_workflow_active c;
     email_confirmation_pending := v;
     original_user_question := original_user_question c;
     bot_response_to_question := bot_response_to_question c;
     email_data := email_data c; current_step := current_step c;
     departments := departments c |}.

Definition set_original_user_question (v : string) (c : controller) : controller :=
  {| chat_history := chat_history c; session_id := session_id c;
     identified_department := identified_department c;
     department_confidence := department_confidence c;
     email_workflow_active := email_workflow_active c;
     email_confirmation_pending := email_confirmation_pending c;
     original_user_question := v;
     bot_response_to_question := bot_response_to_question c;
     email_data := email_data c; current_step := current_step c;
     departments := departments c |}.

Definition set_bot_response_to_question (v : string) (c : controller) : controller :=
  {| chat_history := chat_history c; session_id := session_id c;
     identified_department := identified_department c;
     department_confidence := department_confidence c;
     email_workflow_active := email_workflow_active c;
     email_confirmation_pending := email_confirmation_pending c;
     original_user_question := original_user_question c;
     bot_response_to_question := v;
     email_data := email_data c; current_step := current_step c;
     departments := departments c |}.

Definition set_email_data (v : gmap string pyval) (c : controller) : controller :=
  {| chat_history := chat_history c; session_id := session_id c;
     identified_department := identified_department c;
     department_confidence := department_confidence c;
     email_workflow_active := email_workflow_active c;
     email_confirmation_pending := email_confirmation_pending c;
     original_user_question := original_user_question c;
     bot_response_to_question := bot_response_to_question c;
     email_data := v; current_step := current_step c;
     departments := departments c |}.

Definition set_current_step (v : nat) (c : controller) : controller :=
  {| chat_history := chat_history c; session_id := session_id c;
     identified_department := identified_department c;
     department_confidence := department_confidence c;
     email_workflow_active := email_workflow_active c;
     email_confirmation_pending := email_confirmation_pending c;
     original_user_question := original_user_question c;
     bot_response_to_question := bot_response_to_question c;
     email_data := email_data c; current_step := v;
     departments := departments c |}.

(** ** The outside world during one call *)

(** What [self.model.generate_content(prompt)] followed by the extraction of
    a JSON object gives: the call (or reading [response.text]) raises; the
    text holds no [{ ... }] span, so [re.search] finds nothing; [json.loads]
    raises on the span; or [json.loads] returns a dict. *)
Inductive llm_reply :=
| LlmRaises (err : string)
| LlmNoObject
| LlmBadJson (err : string)
| LlmObject (d : gmap string pyval).

(** [knowledge_base_collection.query]: it raises, or returns documents. *)
Inductive kb_result :=
| KbRaises
| KbDocs (docs : list string).

(** [requests.post] followed by [raise_for_status]. *)
Inductive post_result :=
| PostOk
| PostRaises
| PostStatusError.

Record env := {
  getenv : string -> option string;
  knowledge_base : kb_result;
  (** [conversations_collection.add] returns ([true]) or raises *)
  conversation_add : role -> bool;
  classifier : llm_reply;
  composer : llm_reply;
  resend_post : post_result;
  (** [datetime.now().isoformat()] when the turn of that role is appended *)
  now_iso : role -> string;
  (** [datetime.now().strftime(...)] in the department template *)
  now_text : string;
  (** [str(uuid.uuid4())] *)
  uuid4 : string;
  (** the Gemini and ChromaDB clients can be set up in [__init__] *)
  clients_connect : bool;
  (** the Unicode tables of the interpreter: [s.lower()] for a text [s] with
      a character above U+007F, and [ch.isalnum()] for one character [ch]
      above U+007F *)
  unicode_lower : string -> string;
  unicode_alnum : string -> bool
}.

(** The remote calls a computation makes, oldest first, with what they are
    given. *)
Inductive call :=
| KnowledgeQuery (query : string)
| ConversationAdd (r : role) (document : string)
| Classify (user_message conversation_context knowledge_context : string)
| Compose (department name email company : pyval) (question : string)
    (additional_details importance : pyval)
| ResendPost (recipient subject html reply_to : pyval).

Record world := {
  self : controller;
  calls : list call
}.

Definition this : M world controller := do w <- get; ret (self w).

Definition assign (f : controller -> controller) : M world unit :=
  modify (fun w => {| self := f (self w); calls := calls w |}).

Definition emit (c : call) : M world unit :=
  modify (fun w => {| self := self w; calls := calls w ++ [c] |}).

(** [self.chat_history.append({"role": r, "content": text, "timestamp": ...})] *)
Definition append_turn (E : env) (r : role) (text : string) : M world unit :=
  assign (fun c =>
    set_chat_history
      (chat_history c ++ [{| turn_role := r; content := text; timestamp := now_iso E r |}]) c).

(** [self.email_data[k] = v] *)
Definition store_email_data (k : string) (v : pyval) : M world unit :=
  assign (fun c => set_email_data (<[k := v]> (email_data c)) c).

Definition role_name (r : role) : string :=
  match r with
  | User => "user"
  | Assistant => "assistant"
  end.

Definition dq : string := String "034"%char "".

(** ** [analyze_with_gemini] *)

(** [str(e)] for an exception that carries its message.  Only
    [analyze_with_gemini] asks for this text, of what the call to the
    classifier or [json.loads] raised; the built-in errors, whose messages
    are not followed here, do not reach it, and the name of their class
    stands in their cases. *)
Definition exn_text (e : exn) : string :=
  match e with
  | KeyError k => py_str k
  | TypeError => "TypeError"
  | AttributeError => "AttributeError"
  | IndexError => "IndexError"
  | ValueError msg => msg
  | PlainException msg => msg
  | ServiceError msg => msg
  end.

Definition fallback_unparsed : gmap string pyval :=
  list_to_map [
    ("department", VStr "General Inquiry");
    ("confidence", VInt 50);
    ("importance", VStr "Medium");
    ("user_response",
     VStr "I'll help you with your inquiry. Let me route this to the appropriate team.");
    ("reason", VStr "Unable to parse AI response") ].

Definition fallback_error (e : exn) : gmap string pyval :=
  list_to_map [
    ("department", VStr "General Inquiry");
    ("confidence", VInt 50);
    ("importance", VStr "Medium");
    ("user_response",
     VStr "Thank you for your message. I'll make sure the right team looks into this.");
    ("reason", VStr ("Error: " +:+ exn_text e)) ].

Definition analyze_with_gemini (E : env)
    (user_message conversation_context knowledge_context : string)
  : M world (gmap string pyval) :=
  try_except
    (run emit (Classify user_message conversation_context knowledge_context);
     match classifier E with
     | LlmRaises err => raise (ServiceError err)
     | LlmNoObject => ret fallback_unparsed
     | LlmBadJson err => raise (ValueError err)
     | LlmObject analysis => ret analysis
     end)
    (fun e => ret (fallback_error e)).

(** ** [save_to_chroma] and [search_knowledge_base] *)

(** The document id and the metadata only reach the store and are left out. *)
Definition save_to_chroma (E : env) (message : string) (r : role) : M world unit :=
  run emit (ConversationAdd r message);
  if conversation_add E r then ret tt else raise (ServiceError "chromadb").

Definition search_knowledge_base (E : env) (query : string) : M world (list string) :=
  try_except
    (run emit (KnowledgeQuery query);
     match knowledge_base E with
     | KbRaises => raise (ServiceError "chromadb")
     | KbDocs docs => ret docs
     end)
    (fun _ => ret []).

(** ** [send_email_to_department] *)

Definition send_email_to_department (E : env) (email_html : string) : M world bool :=
  try_except
    (match getenv E "RESEND_API_KEY" with
     | None | Some "" => raise (PlainException "RESEND_API_KEY not configured")
     | Some _ =>
         do c <- this;
         do recipient_email <- getitem (departments c) (identified_department c);
         let subject :=
           get_or (email_data c) "subject"
             (VStr ("New Request - " +:+ py_str (identified_department c))) in
         let department_html := get_or (email_data c) "department_email" (VStr email_html) in
         run emit (ResendPost recipient_email subject department_html
                     (get_opt (email_data c) "email"));
         match resend_post E with
         | PostOk => ret true
         | PostRaises => raise (ServiceError "requests")
         | PostStatusError => raise (ServiceError "HTTPError")
         end
     end)
    (fun _ => ret false).

(** ** The composer and the workflow steps *)

(** The text of the two HTML templates and the rewriting of [**x**] into
    [<strong>x</strong>] do not steer the controller; the development holds
    for any such text. *)
Record renderer := {
  (** [re.sub(r'\*\*(.*?)\*\*', r'<strong>\1</strong>', text)] *)
  bold_to_strong : string -> string;
  (** [_create_department_email_html]: department, name, email, company,
      session id, date and body fill the template; the subject is not used *)
  department_email_html :
    forall (department name email company session date body : string), string;
  (** [_create_user_preview_html]: subject, body *)
  user_preview_html : forall (subject body : string), string
}.

(** The three leading glyph sequences of the reply texts, as the source file
    spells them. *)
Definition glyph_done : string := "‚úÖ".
Definition glyph_warn : string := "‚ö†Ô∏è".
Definition glyph_mail : string := "üìß".

Record step_result := {
  response : string;
  step_email_html : option string;
  complete : bool;
  step_email_sent : option bool
}.

Definition prompt_only (text : string) : step_result :=
  {| response := text; step_email_html := None; complete := false;
     step_email_sent := None |}.

(** [^[\w\.-]+@[\w\.-]+\.\w+$] between its anchors *)
Definition addr_char (E : env) (ch : string) : bool :=
  Text.is_word (unicode_alnum E) ch || String.eqb ch "." || String.eqb ch "-".

Definition email_pattern (E : env) : Re.regex :=
  Re.Cat (Re.Plus (Re.Cls (addr_char E)))
    (Re.Cat (Re.Chr "@")
       (Re.Cat (Re.Plus (Re.Cls (addr_char E)))
          (Re.Cat (Re.Chr ".") (Re.Plus (Re.Cls (Text.is_word (unicode_alnum E))))))).

(** [user_input.strip() if user_input.lower() not in ['none', 'n/a', 'no'] else ""] *)
Definition additional_details_of (E : env) (user_input : string) : string :=
  if bool_decide (Text.lower (unicode_lower E) user_input ∈ ["none"; "n/a"; "no"])
  then "" else Text.strip user_input.

(** The replies of [process_workflow_step]. *)
Definition email_prompt : string :=
  "Thank you! Now, please provide your **email address**:".

Definition company_prompt : string :=
  "Great! Please provide your **company name** (or type 'individual' if personal):".

Definition email_reprompt : string :=
  "Please provide a valid email address (e.g., name@company.com):".

Definition details_prompt (original_user_question : string) : string :=
  "Perfect! Do you have any **additional details** you'd like to add regarding your question?"
  +:+ Text.nl +:+ Text.nl +:+ "**Your original question:** " +:+ dq
  +:+ original_user_question +:+ dq +:+ Text.nl +:+ Text.nl
  +:+ "(Type any additional information, or type 'none' if you don't have any)".

(** [response_msg] of the last step: the heading, then one of two sentences. *)
Definition completion_message (email_sent : bool) (c : controller) : string :=
  glyph_done +:+ " **Email Generated and Sent Successfully!**" +:+ Text.nl +:+ Text.nl
  +:+ (if email_sent
       then "Your request has been forwarded to our **"
            +:+ py_str (identified_department c)
            +:+ "** team. They will contact you at **"
            +:+ py_str (get_opt (email_data c) "email") +:+ "** shortly."
       else glyph_warn
            +:+ " Email generated but could not be sent automatically (SMTP not configured)."
            +:+ Text.nl +:+ Text.nl
            +:+ "The email has been prepared and will be sent to the **"
            +:+ py_str (identified_department c) +:+ "** department.").

(** The prompt of the composer is built from these values. *)
Definition compose_call (c : controller) : call :=
  Compose (identified_department c)
    (get_opt (email_data c) "name") (get_opt (email_data c) "email")
    (get_opt (email_data c) "company") (original_user_question c)
    (get_or (email_data c) "additional_details" (VStr "None provided"))
    (get_or (email_data c) "importance" (VStr "Medium")).

Section Controller.

Variable R : renderer.

(** The dict both fallback branches of [generate_intelligent_email] build. *)
Definition fallback_email_parts (c : controller) : gmap string pyval :=
  list_to_map [
    ("subject", VStr ("Support Request: " +:+ Text.take_chars 50 (original_user_question c)));
    ("greeting", VStr ("Dear " +:+ py_str (identified_department c) +:+ " Team,"));
    ("paragraph1", VStr "I am reaching out regarding the following matter:");
    ("paragraph2", VStr (original_user_question c));
    ("paragraph3",
     VStr (if truthy (get_opt (email_data c) "additional_details")
           then "Additional details: "
                +:+ py_str (get_or (email_data c) "additional_details" (VStr "N/A"))
           else ""));
    ("closing", VStr "Thank you for your assistance,") ].

(** One round of [for i in range(1, 4)]. *)
Definition paragraph (email_parts : gmap string pyval) (key : string)
  : M world (list pyval) :=
  do para <- py_strip (get_or email_parts key (VStr ""));
  ret (if String.eqb para "" then [] else [VStr para; VStr ""]).

Definition signature (E : env) (email_parts : gmap string pyval) (c : controller)
  : M world (list pyval) :=
  match email_parts !! "signature_name" with
  | Some signature_name =>
      ret (signature_name ::
           match email_parts !! "signature_contact" with
           | Some contact => [contact]
           | None => []
           end)
  | None =>
      let name := get_or (email_data c) "name" (VStr "User") in
      if truthy (get_opt (email_data c) "company") then
        do company <- getitem (email_data c) (VStr "company");
        do lowered <- py_lower (unicode_lower E) company;
        ret (if String.eqb lowered "individual" then [name] else [name; company])
      else ret [name]
  end.

Definition generate_intelligent_email (E : env) : M world string :=
  do c <- this;
  do email_parts <-
    try_except
      (run emit (compose_call c);
       match composer E with
       | LlmRaises err => raise (ServiceError err)
       | LlmNoObject => ret (fallback_email_parts c)
       | LlmBadJson err => raise (ValueError err)
       | LlmObject d => ret d
       end)
      (fun _ => ret (fallback_email_parts c));
  do p1 <- paragraph email_parts "paragraph1";
  do p2 <- paragraph email_parts "paragraph2";
  do p3 <- paragraph email_parts "paragraph3";
  do sig <- signature E email_parts c;
  let body_paragraphs :=
    [get_or email_parts "greeting" (VStr "Dear Team,"); VStr ""] ++ p1 ++ p2 ++ p3
    ++ [get_or email_parts "closing" (VStr "Best regards,")] ++ sig in
  do lines <- py_join_lines body_paragraphs;
  let email_body_text := bold_to_strong R (Text.join Text.nl lines) in
  let subject := get_or email_parts "subject" (VStr "New Inquiry") in
  let department_email :=
    department_email_html R (py_str (identified_department c))
      (py_str (get_or (email_data c) "name" (VStr "Anonymous User")))
      (py_str (get_or (email_data c) "email" (VStr "not_provided@email.com")))
      (py_str (get_or (email_data c) "company" (VStr "Not provided")))
      (session_id c) (now_text E) email_body_text in
  let user_preview := user_preview_html R (py_str subject) email_body_text in
  run store_email_data "department_email" (VStr department_email);
  run store_email_data "user_preview" (VStr user_preview);
  run store_email_data "subject" subject;
  ret user_preview.

Definition process_workflow_step (E : env) (user_input : string) : M world step_result :=
  do c <- this;
  match workflow_steps !! current_step c with
  | None => raise IndexError
  | Some current_step_name =>
      if String.eqb current_step_name "name" then
        run store_email_data "name" (VStr (Text.strip user_input));
        run assign (fun c => set_current_step (current_step c + 1) c);
        ret (prompt_only email_prompt)
      else if String.eqb current_step_name "email" then
        match Re.search_anchored (email_pattern E) (Text.strip user_input) with
        | Some matched =>
            run store_email_data "email" (VStr matched);
            run assign (fun c => set_current_step (current_step c + 1) c);
            ret (prompt_only company_prompt)
        | None => ret (prompt_only email_reprompt)
        end
      else if String.eqb current_step_name "company" then
        run store_email_data "company" (VStr (Text.strip user_input));
        run assign (fun c => set_current_step (current_step c + 1) c);
        ret (prompt_only (details_prompt (original_user_question c)))
      else if String.eqb current_step_name "additional_details" then
        run store_email_data "additional_details"
          (VStr (additional_details_of E user_input));
        do email_html <- generate_intelligent_email E;
        do email_sent <- send_email_to_department E email_html;
        run assign (set_email_workflow_active false);
        do c <- this;
        let response_msg := completion_message email_sent c in
        ret {| response := response_msg; step_email_html := Some email_html;
               complete := true; step_email_sent := Some email_sent |}
      else
        ret (prompt_only "Something went wrong. Please try again.")
  end.

End Controller.

(** ** [process_message] and [reset_conversation] *)

(** The dict [process_message] returns.  [reply_current_step],
    [reply_email_html] and [reply_email_sent] are the keys only some branches
    set. *)
Record reply := {
  bot_response : string;
  status : string;
  workflow_active : bool;
  reply_current_step : option nat;
  reply_session_id : string;
  reply_email_html : option string;
  reply_email_sent : option bool;
  analysis_department : pyval;
  analysis_confidence : pyval;
  analysis_reason : pyval;
  reply_department : pyval
}.

Definition affirmative_words : list string :=
  ["yes"; "yeah"; "sure"; "ok"; "okay"; "please"; "send"].

(** [any(word in user_message.lower() for word in [...])] *)
Definition affirmative (E : env) (user_message : string) : bool :=
  existsb (fun word => Text.contains word (Text.lower (unicode_lower E) user_message))
    affirmative_words.

Definition name_prompt : string :=
  "Great! Let's collect some information to send your request to our team."
  +:+ Text.nl +:+ Text.nl +:+ "**Please provide your full name:**".

Definition decline_acknowledgment : string :=
  "No problem! Is there anything else I can help you with?".

Definition email_offer (department : pyval) : string :=
  Text.nl +:+ Text.nl +:+ glyph_mail
  +:+ " Would you like me to forward this question to our **" +:+ py_str department
  +:+ "** team via email for a detailed response?".

(** [chat_history[-5:]] *)
Definition last5 (h : list turn) : list turn := drop (length h - 5) h.

Section Messages.

Variable R : renderer.

Definition process_message (E : env) (user_message : string) : M world reply :=
  do c <- this;
  if email_workflow_active c then
    do result <- process_workflow_step R E user_message;
    run append_turn E User user_message;
    run append_turn E Assistant (response result);
    do c <- this;
    ret {| bot_response := response result;
           status := if complete result then "email_complete" else "collecting_info";
           workflow_active := negb (complete result);
           reply_current_step := Some (current_step c);
           reply_session_id := session_id c;
           reply_email_html := step_email_html result;
           reply_email_sent := Some (default false (step_email_sent result));
           analysis_department := identified_department c;
           analysis_confidence := department_confidence c;
           analysis_reason := VStr "Email workflow in progress";
           reply_department := identified_department c |}
  else if email_confirmation_pending c then
    if affirmative E user_message then
      run assign (set_email_workflow_active true);
      run assign (set_email_confirmation_pending false);
      run assign (set_current_step 0);
      run append_turn E User user_message;
      run append_turn E Assistant name_prompt;
      do c <- this;
      ret {| bot_response := name_prompt;
             status := "workflow_started";
             workflow_active := true;
             reply_current_step := Some 0;
             reply_session_id := session_id c;
             reply_email_html := None;
             reply_email_sent := None;
             analysis_department := identified_department c;
             analysis_confidence := department_confidence c;
             analysis_reason := VStr "User confirmed email sending";
             reply_department := identified_department c |}
    else
      run assign (set_email_confirmation_pending false);
      run append_turn E User user_message;
      run append_turn E Assistant decline_acknowledgment;
      do c <- this;
      ret {| bot_response := decline_acknowledgment;
             status := "normal";
             workflow_active := false;
             reply_current_step := None;
             reply_session_id := session_id c;
             reply_email_html := None;
             reply_email_sent := None;
             analysis_department := identified_department c;
             analysis_confidence := department_confidence c;
             analysis_reason := VStr "User declined email sending";
             reply_department := identified_department c |}
  else
    do knowledge_results <- search_knowledge_base E user_message;
    let knowledge_context :=
      match knowledge_results with
      | [] => "No relevant knowledge base entries found."
      | _ => Text.join Text.nl (map (fun doc => "- " +:+ doc) knowledge_results)
      end in
    run append_turn E User user_message;
    run save_to_chroma E user_message User;
    do c <- this;
    let conversation_context :=
      Text.join Text.nl
        (map (fun msg => role_name (turn_role msg) +:+ ": " +:+ content msg)
             (last5 (chat_history c))) in
    do analysis <- analyze_with_gemini E user_message conversation_context knowledge_context;
    do department <- getitem analysis (VStr "department");
    run assign (set_identified_department department);
    do confidence <- getitem analysis (VStr "confidence");
    run assign (set_department_confidence confidence);
    run assign (set_original_user_question user_message);
    run store_email_data "importance" (get_or analysis "importance" (VStr "Medium"));
    let bot_response := get_or analysis "user_response" (VStr "I'll help you with that.") in
    do full_response <- py_add_str bot_response (email_offer department);
    run assign (set_bot_response_to_question (py_str bot_response));
    run assign (set_email_confirmation_pending true);
    run append_turn E Assistant full_response;
    run save_to_chroma E full_response Assistant;
    do c <- this;
    ret {| bot_response := full_response;
           status := "awaiting_confirmation";
           workflow_active := false;
           reply_current_step := None;
           reply_session_id := session_id c;
           reply_email_html := None;
           reply_email_sent := None;
           analysis_department := department;
           analysis_confidence := confidence;
           analysis_reason := get_or analysis "reason" (VStr "");
           reply_department := department |}.

End Messages.

Definition reset_conversation (E : env) : M world unit :=
  run assign (set_chat_history []);
  run assign (set_session_id (uuid4 E));
  run assign (set_identified_department VNone);
  run assign (set_department_confidence (VInt 0));
  run assign (set_email_workflow_active false);
  run assign (set_email_confirmation_pending false);
  run assign (set_original_user_question "");
  run assign (set_bot_response_to_question "");
  run assign (set_email_data ∅);
  assign (set_current_step 0).

(** ** The phases of the specification, read off the controller's flags *)

Inductive phase :=
| NORMAL
| AWAITING_EMAIL_CONFIRMATION
| COLLECTING_NAME
| COLLECTING_EMAIL
| COLLECTING_COMPANY
| COLLECTING_DETAILS.

(** [process_message] looks at [email_workflow_active] first, then at
    [email_confirmation_pending]; inside the workflow the step counter
    indexes [workflow_steps].  A counter outside the list is no phase, and
    neither is a controller with both flags set. *)
Definition phase_of (c : controller) : option phase :=
  match email_workflow_active c, email_confirmation_pending c with
  | true, false =>
      match current_step c with
      | 0 => Some COLLECTING_NAME
      | 1 => Some COLLECTING_EMAIL
      | 2 => Some COLLECTING_COMPANY
      | 3 => Some COLLECTING_DETAILS
      | _ => None
      end
  | false, true => Some AWAITING_EMAIL_CONFIRMATION
  | false, false => Some NORMAL
  | true, true => None
  end.

(** The four workflow slots. *)
Definition slot (c : controller) (name : string) : option pyval := email_data c !! name.

(** ** The session registry and its request handlers *)

(** [chatbot_sessions]: every controller object is stored under one key and
    reached through the registry only, so the map holds the objects. *)
Record server := {
  chatbot_sessions : gmap string controller;
  server_calls : list call
}.

Definition department_variables : list (string * string) :=
  [ ("Sales", "SALES_EMAIL");
    ("Technical Support", "SUPPORT_EMAIL");
    ("Customer Service", "CUSTOMER_SERVICE_EMAIL");
    ("HR", "HR_EMAIL");
    ("Billing", "BILLING_EMAIL");
    ("General Inquiry", "GENERAL_INQUIRY_EMAIL") ].

Definition env_value (E : env) (variable : string) : pyval :=
  match getenv E variable with
  | Some v => VStr v
  | None => VNone
  end.

(** [EnhancedDepartmentRouterChatbot(api_key)] when the clients connect. *)
Definition new_chatbot (E : env) : controller :=
  {| chat_history := [];
     session_id := uuid4 E;
     identified_department := VNone;
     department_confidence := VInt 0;
     email_workflow_active := false;
     email_confirmation_pending := false;
     original_user_question := "";
     bot_response_to_question := "";
     email_data := ∅;
     current_step := 0;
     departments :=
       list_to_map (map (fun '(name, variable) => (name, env_value E variable))
                        department_variables) |}.

(** [get_chatbot(session_id)]; the object it returns is the registry's entry
    for [session_id].  [check_knowledge_base_status] catches whatever it
    raises and changes nothing. *)
Definition get_chatbot (E : env) (sid : string) : M server unit :=
  do s <- get;
  match chatbot_sessions s !! sid with
  | Some _ => ret tt
  | None =>
      match getenv E "GEMINI_API_KEY" with
      | None | Some "" =>
          raise (ValueError "GEMINI_API_KEY not found in environment variables")
      | Some _ =>
          if clients_connect E then
            let chatbot := set_session_id sid (new_chatbot E) in
            modify (fun s =>
              {| chatbot_sessions := <[sid := chatbot]> (chatbot_sessions s);
                 server_calls := server_calls s |})
          else raise (ServiceError "chromadb")
      end
  end.

(** A method call on the registry's object for [sid]. *)
Definition on_session {A} (sid : string) (method : M world A) : M server A :=
  fun s =>
    match chatbot_sessions s !! sid with
    | None => (Raised (KeyError (VStr sid)), s)
    | Some c =>
        let '(r, w) := method {| self := c; calls := server_calls s |} in
        (r, {| chatbot_sessions := <[sid := self w]> (chatbot_sessions s);
               server_calls := calls w |})
    end.

Inductive body :=
| ErrorBody (error : string)
| FailureBody (error : exn)
| ChatBody (result : reply) (conversation_history : list turn)
| ResetBody (new_session_id : string)
| HistoryBody (history : list turn) (identified : pyval) (session : pyval).

Record response_t := {
  status_code : nat;
  payload : body
}.

(** The JSON body of a request: the two fields the handlers read, each a
    string when it is there. *)
Record request := {
  req_message : option string;
  req_session_id : option string
}.

(** [if not session_id] *)
Definition given (field : option string) : option string :=
  match field with
  | Some "" | None => None
  | Some v => Some v
  end.

(** [except Exception as e: return jsonify({"success": False, ...}), 500] *)
Definition guarded (handler : M server response_t) : M server response_t :=
  try_except handler (fun e => ret {| status_code := 500; payload := FailureBody e |}).

Section Handlers.

Variable R : renderer.

(** [POST /api/chat] *)
Definition chat (E : env) (data : request) : M server response_t :=
  guarded
    (match req_message data with
     | None => ret {| status_code := 400; payload := ErrorBody "Message is required" |}
     | Some raw =>
         let message := Text.strip raw in
         let sid := default (uuid4 E) (given (req_session_id data)) in
         if String.eqb message "" then
           ret {| status_code := 400; payload := ErrorBody "Message cannot be empty" |}
         else
           run get_chatbot E sid;
           do result <- on_session sid (process_message R E message);
           do s <- get;
           match chatbot_sessions s !! sid with
           | Some chatbot =>
               ret {| status_code := 200;
                      payload := ChatBody result (chat_history chatbot) |}
           | None => raise (KeyError (VStr sid))
           end
     end).

End Handlers.

(** [POST /api/reset] *)
Definition reset_endpoint (E : env) (data : request) : M server response_t :=
  guarded
    (match given (req_session_id data) with
     | None => ret {| status_code := 400; payload := ErrorBody "session_id is required" |}
     | Some sid =>
         do s <- get;
         do new_session_id <-
           match chatbot_sessions s !! sid with
           | Some _ =>
               run on_session sid (reset_conversation E);
               do s <- get;
               match chatbot_sessions s !! sid with
               | Some chatbot => ret (session_id chatbot)
               | None => raise (KeyError (VStr sid))
               end
           | None => ret (uuid4 E)
           end;
         ret {| status_code := 200; payload := ResetBody new_session_id |}
     end).

(** [POST /api/history] *)
Definition get_history (data : request) : M server response_t :=
  guarded
    (match given (req_session_id data) with
     | None => ret {| status_code := 400; payload := ErrorBody "session_id is required" |}
     | Some sid =>
         do s <- get;
         match chatbot_sessions s !! sid with
         | Some chatbot =>
             ret {| status_code := 200;
                    payload := HistoryBody (chat_history chatbot)
                                 (identified_department chatbot)
                                 (VStr (session_id chatbot)) |}
         | None =>
             ret {| status_code := 200; payload := HistoryBody [] VNone VNone |}
         end
     end).

(** A renderer that keeps the text and leaves the markup out, to run the
    model on examples. *)
Definition text_renderer : renderer :=
  {| bold_to_strong := fun text => text;
     department_email_html := fun _ _ _ _ _ _ body => body;
     user_preview_html := fun subject body => subject +:+ Text.nl +:+ body |}.

(** A process environment with every variable set and every service
    answering.  Its Unicode tables are empty (no character above U+007F has
    a lower-case form or is alphanumeric): the sessions below are run on
    ASCII text and whitespace. *)
Definition quiet_env : env :=
  {| getenv := fun variable => Some ("value-of-" +:+ variable);
     knowledge_base := KbDocs [];
     conversation_add := fun _ => true;
     classifier :=
       LlmObject (list_to_map [
         ("department", VStr "Billing"); ("confidence", VInt 90);
         ("importance", VStr "High");
         ("user_response", VStr "Let me look at that invoice.");
         ("reason", VStr "invoice") ]);
     composer := LlmNoObject;
     resend_post := PostOk;
     now_iso := fun _ => "2024-01-01T00:00:00";
     now_text := "January 01, 2024 at 12:00 AM";
     uuid4 := "00000000-0000-4000-8000-000000000001";
     clients_connect := true;
     unicode_lower := fun s => s;
     unicode_alnum := fun _ => false |}.

Definition fresh_world : world := {| self := new_chatbot quiet_env; calls := [] |}.

(** The environment [E] with one answer replaced. *)
Definition with_classifier (reply : llm_reply) (E : env) : env :=
  {| getenv := getenv E; knowledge_base := knowledge_base E;
     conversation_add := conversation_add E; classifier := reply;
     composer := composer E; resend_post := resend_post E; now_iso := now_iso E;
     now_text := now_text E; uuid4 := uuid4 E; clients_connect := clients_connect E;
     unicode_lower := unicode_lower E; unicode_alnum := unicode_alnum E |}.

Definition with_composer (reply : llm_reply) (E : env) : env :=
  {| getenv := getenv E; knowledge_base := knowledge_base E;
     conversation_add := conversation_add E; classifier := classifier E;
     composer := reply; resend_post := resend_post E; now_iso := now_iso E;
     now_text := now_text E; uuid4 := uuid4 E; clients_connect := clients_connect E;
     unicode_lower := unicode_lower E; unicode_alnum := unicode_alnum E |}.

Definition with_conversation_add (answer : role -> bool) (E : env) : env :=
  {| getenv := getenv E; knowledge_base := knowledge_base E;
     conversation_add := answer; classifier := classifier E;
     composer := composer E; resend_post := resend_post E; now_iso := now_iso E;
     now_text := now_text E; uuid4 := uuid4 E; clients_connect := clients_connect E;
     unicode_lower := unicode_lower E; unicode_alnum := unicode_alnum E |}.

Definition with_resend_post (answer : post_result) (E : env) : env :=
  {| getenv := getenv E; knowledge_base := knowledge_base E;
     conversation_add := conversation_add E; classifier := classifier E;
     composer := composer E; resend_post := answer; now_iso := now_iso E;
     now_text := now_text E; uuid4 := uuid4 E; clients_connect := clients_connect E;
     unicode_lower := unicode_lower E; unicode_alnum := unicode_alnum E |}.

Definition with_getenv (variables : string -> option string) (E : env) : env :=
  {| getenv := variables; knowledge_base := knowledge_base E;
     conversation_add := conversation_add E; classifier := classifier E;
     composer := composer E; resend_post := resend_post E; now_iso := now_iso E;
     now_text := now_text E; uuid4 := uuid4 E; clients_connect := clients_connect E;
     unicode_lower := unicode_lower E; unicode_alnum := unicode_alnum E |}.

Definition with_uuid4 (id : string) (E : env) : env :=
  {| getenv := getenv E; knowledge_base := knowledge_base E;
     conversation_add := conversation_add E; classifier := classifier E;
     composer := composer E; resend_post := resend_post E; now_iso := now_iso E;
     now_text := now_text E; uuid4 := id; clients_connect := clients_connect E;
     unicode_lower := unicode_lower E; unicode_alnum := unicode_alnum E |}.

(** ** Vocabulary of the statements *)

(** Every byte of [s] is in the class [p]. *)
Fixpoint all_chars (p : ascii -> bool) (s : string) : bool :=
  match s with
  | EmptyString => true
  | String c s' => p c && all_chars p s'
  end.

(** [word] occurs in [s]. *)
Definition occurs_in (word s : string) : Prop :=
  exists before after, s = before +:+ word +:+ after.

(** Whitespace only: a run of whitespace characters, or nothing. *)
Definition blank (s : string) : Prop :=
  exists spaces, s = Text.cat spaces /\ Forall (fun ch => Text.is_space ch = true) spaces.

(** No whitespace character stands at the start of [s] or at its end. *)
Definition bare (s : string) : Prop :=
  forall ch rest, Text.is_space ch = true -> s <> ch +:+ rest /\ s <> rest +:+ ch.

(** [t] is [s] without the whitespace around it. *)
Definition trimmed (s t : string) : Prop :=
  exists before after,
    s = before +:+ t +:+ after /\ blank before /\ blank after /\ bare t.

(** U+00A0 NO-BREAK SPACE and U+2003 EM SPACE. *)
Definition nbsp : string := Text.utf8 0xA0.

Definition em_space : string := Text.utf8 0x2003.

(** A message that, lowered, holds one of the affirmative words. *)
Definition holds_affirmative_word (E : env) (user_message : string) : Prop :=
  exists word,
    word ∈ affirmative_words
    /\ occurs_in word (Text.lower (unicode_lower E) user_message).

(** The words of an ASCII text: it is cut at every character that is no
    letter or digit. *)
Fixpoint words_from (current s : string) : list string :=
  match s with
  | EmptyString => [current]
  | String c s' =>
      if Text.is_upper c || Text.is_lower c || Text.is_digit c
      then words_from (current +:+ String c "") s'
      else current :: words_from "" s'
  end.

Definition message_words (s : string) : list string :=
  List.filter (fun word => negb (String.eqb word "")) (words_from "" s).

(** An affirmative answer as the specification words it: the message
    matches one of the words, whatever its case.  Read at its widest, one of
    the words of the lowered message is one of the seven. *)
Definition spec_affirmative (E : env) (user_message : string) : bool :=
  existsb (fun word => bool_decide (word ∈ affirmative_words))
    (message_words (Text.lower (unicode_lower E) user_message)).

(** local part, [@], domain, [.], top-level domain, as runs of characters:
    the first two made of word characters, dots and hyphens, the last of word
    characters, none of them empty. *)
Definition email_shaped (E : env) (s : string) : Prop :=
  exists local domain tld,
    Text.chars s = local ++ ["@"] ++ domain ++ ["."] ++ tld
    /\ local <> [] /\ forallb (addr_char E) local = true
    /\ domain <> [] /\ forallb (addr_char E) domain = true
    /\ tld <> [] /\ forallb (Text.is_word (unicode_alnum E)) tld = true.

(** A run of calls of [process_message], each with its own environment. *)
Fixpoint feed (R : renderer) (inputs : list (env * string)) (w : world) : world :=
  match inputs with
  | [] => w
  | (E, user_message) :: rest => feed R rest (snd (process_message R E user_message w))
  end.

(** Every call of the run returns. *)
Fixpoint completes (R : renderer) (inputs : list (env * string)) (w : world) : Prop :=
  match inputs with
  | [] => True
  | (E, user_message) :: rest =>
      (exists r, (process_message R E user_message w).1 = Returned r)
      /\ completes R rest (process_message R E user_message w).2
  end.

(** Every call of the run returns, and [replies] are the dicts the calls
    return, in order. *)
Fixpoint run_returns (R : renderer) (inputs : list (env * string)) (w : world)
    (replies : list reply) : Prop :=
  match inputs, replies with
  | [], [] => True
  | (E, user_message) :: rest, r :: others =>
      (process_message R E user_message w).1 = Returned r
      /\ run_returns R rest (process_message R E user_message w).2 others
  | _, _ => False
  end.

(** The controller once the composer has stored its three results. *)
Definition composed (subject : pyval) (department_email user_preview : string)
    (c : controller) : controller :=
  set_email_data
    (<["subject" := subject]>
       (<["user_preview" := VStr user_preview]>
          (<["department_email" := VStr department_email]> (email_data c)))) c.

(** What a successful dispatch takes: the API key is set, the identified
    department is one of the configured ones, and the POST is accepted. *)
Definition dispatch_ready (E : env) (c : controller) : Prop :=
  (exists key, getenv E "RESEND_API_KEY" = Some key /\ key <> "")
  /\ (exists name address,
        identified_department c = VStr name /\ departments c !! name = Some address)
  /\ resend_post E = PostOk.

(** The fields no step of the workflow assigns. *)
Definition same_session (c c' : controller) : Prop :=
  session_id c' = session_id c
  /\ identified_department c' = identified_department c
  /\ department_confidence c' = department_confidence c
  /\ original_user_question c' = original_user_question c
  /\ departments c' = departments c.

(** The two turns one exchange appends. *)
Definition exchange (E : env) (user_message answer : string) : list turn :=
  [ {| turn_role := User; content := user_message; timestamp := now_iso E User |};
    {| turn_role := Assistant; content := answer; timestamp := now_iso E Assistant |} ].

(** The dict [analyze_with_gemini] returns, by what the classifier gave. *)
Definition classified (E : env) : gmap string pyval :=
  match classifier E with
  | LlmRaises err => fallback_error (ServiceError err)
  | LlmNoObject => fallback_unparsed
  | LlmBadJson err => fallback_error (ValueError err)
  | LlmObject analysis => analysis
  end.

(** The classifier gave no dict: the call raised, the text held no JSON
    object, or the object could not be decoded. *)
Definition classifier_failed (E : env) : Prop :=
  match classifier E with
  | LlmObject _ => False
  | _ => True
  end.

(** The knowledge lines handed to the classifier. *)
Definition knowledge_context (E : env) : string :=
  match knowledge_base E with
  | KbDocs (doc :: docs) => Text.join Text.nl (map (fun d => "- " +:+ d) (doc :: docs))
  | _ => "No relevant knowledge base entries found."
  end.

(** The session after a first message, after the offer was accepted, and
    after name, email and company were given. *)
Definition awaiting_world : world :=
  feed text_renderer [(quiet_env, "My invoice amount looks wrong")] fresh_world.

Definition naming_world : world := feed text_renderer [(quiet_env, "yes")] awaiting_world.

Definition details_world : world :=
  feed text_renderer
    [(quiet_env, "Jane"); (quiet_env, "jane@acme.com"); (quiet_env, "Acme")] naming_world.

Definition emailing_world : world := feed text_renderer [(quiet_env, "Jane")] naming_world.

(** [details_world] once the last answer has been stored. *)
Definition stored_world (user_message : string) : world :=
  {| self := set_email_data
               (<["additional_details" := VStr (additional_details_of quiet_env user_message)]>
                  (email_data (self details_world))) (self details_world);
     calls := calls details_world |}.

Definition composed_preview (E : env) (user_message : string) : string :=
  match (generate_intelligent_email text_renderer E (stored_world user_message)).1 with
  | Returned preview => preview
  | Raised _ => ""
  end.

(** No [RESEND_API_KEY] in the environment. *)
Definition keyless_env : env :=
  with_getenv (fun variable =>
                 if String.eqb variable "RESEND_API_KEY" then None
                 else Some ("value-of-" +:+ variable)) quiet_env.

(** A registry holding the session of [awaiting_world] under its identifier. *)
Definition one_session : server :=
  {| chatbot_sessions := {[ session_id (self awaiting_world) := self awaiting_world ]};
     server_calls := calls awaiting_world |}.

Definition second_id : string := "00000000-0000-4000-8000-000000000002".

(** ** Vocabulary of the further properties *)

(** One step of a session: a message, or a reset. *)
Inductive action :=
| Message (E : env) (user_message : string)
| Reset (E : env).

(** A session as a run of steps; whatever a step raises is dropped, as the
    request handlers do. *)
Fixpoint perform (R : renderer) (steps : list action) (w : world) : world :=
  match steps with
  | [] => w
  | Message E user_message :: rest =>
      perform R rest (process_message R E user_message w).2
  | Reset E :: rest => perform R rest (reset_conversation E w).2
  end.

(** A remote call of the email step: to the composer or to the dispatcher. *)
Definition is_mail_call (k : call) : bool :=
  match k with
  | Compose _ _ _ _ _ _ _ => true
  | ResendPost _ _ _ _ => true
  | _ => false
  end.

(** A Python [str]. *)
Definition textual (v : pyval) : bool :=
  match v with
  | VStr _ => true
  | _ => false
  end.

(** The keys of the composer's reply whose values become lines of the body. *)
Definition body_keys : list string :=
  ["greeting"; "paragraph1"; "paragraph2"; "paragraph3"; "closing";
   "signature_name"; "signature_contact"].

(** The composer gave no dict, or a dict in which every value that becomes a
    line of the body is a string. *)
Definition reply_textual (E : env) : Prop :=
  match composer E with
  | LlmObject d =>
      forall key v, key ∈ body_keys -> d !! key = Some v -> textual v = true
  | _ => True
  end.

(** The name and the company, when they are stored, are strings (as the
    workflow stores them). *)
Definition slots_textual (c : controller) : Prop :=
  forall key v, key ∈ ["name"; "company"] -> email_data c !! key = Some v ->
                textual v = true.

(** How often the character [ch] stands in [s]. *)
Definition count_char (ch s : string) : nat :=
  length (List.filter (String.eqb ch) (Text.chars s)).

Definition with_knowledge_base (answer : kb_result) (E : env) : env :=
  {| getenv := getenv E; knowledge_base := answer;
     conversation_add := conversation_add E; classifier := classifier E;
     composer := composer E; resend_post := resend_post E; now_iso := now_iso E;
     now_text := now_text E; uuid4 := uuid4 E; clients_connect := clients_connect E;
     unicode_lower := unicode_lower E; unicode_alnum := unicode_alnum E |}.

(** The lines of context the classifier is given: [chat_history[-5:]], one
    line per turn. *)
Definition conversation_context (h : list turn) : string :=
  Text.join Text.nl
    (map (fun msg => role_name (turn_role msg) +:+ ": " +:+ content msg) (last5 h)).

(** The user's turn as [process_message] appends it. *)
Definition user_turn (E : env) (user_message : string) : turn :=
  {| turn_role := User; content := user_message; timestamp := now_iso E User |}.

(** The controller of the last workflow step once the answer is stored. *)
Definition with_details (E : env) (user_message : string) (w : world) : world :=
  {| self := set_email_data
               (<["additional_details" := VStr (additional_details_of E user_message)]>
                  (email_data (self w))) (self w);
     calls := calls w |}.

(** The dict the composer step works on: the decoded reply, or the fallback
    when the call raised or gave no JSON object. *)
Definition composer_parts (E : env) (c : controller) : gmap string pyval :=
  match composer E with
  | LlmObject d => d
  | _ => fallback_email_parts c
  end.

(** The dispatcher finds what it needs to post: the API key is set and the
    identified department [name] has the entry [address] in the table. *)
Definition dispatch_configured (E : env) (c : controller) (name : string)
    (address : pyval) : Prop :=
  (exists key, getenv E "RESEND_API_KEY" = Some key /\ key <> "")
  /\ identified_department c = VStr name
  /\ departments c !! name = Some address.

(** The request the dispatcher posts for the controller [c]. *)
Definition dispatch_call (c : controller) (name : string) (address : pyval)
    (email_html : string) : call :=
  ResendPost address
    (get_or (email_data c) "subject" (VStr ("New Request - " +:+ name)))
    (get_or (email_data c) "department_email" (VStr email_html))
    (get_opt (email_data c) "email").

(** The answer of [POST /api/chat] once the controller of the session has
    processed the message: [ran] is what [process_message] gave. *)
Definition chat_answer (ran : outcome reply * world) : response_t :=
  match ran.1 with
  | Returned result =>
      {| status_code := 200; payload := ChatBody result (chat_history (self ran.2)) |}
  | Raised e => {| status_code := 500; payload := FailureBody e |}
  end.

(** The session a chat request names, or the identifier drawn for it. *)
Definition chat_session (E : env) (data : request) : string :=
  default (uuid4 E) (given (req_session_id data)).

(** A registry with one new session, registered under its identifier. *)
Definition new_session : server :=
  {| chatbot_sessions := {[ session_id (self fresh_world) := self fresh_world ]};
     server_calls := [] |}.

(** ** The statistics *)










(** ** Loading the knowledge file *)

(** What [json.load] returns.  A number is known by its text; the items of
    an object are those of the dict, in order, under distinct keys. *)
#[warnings="-register-all"] Inductive json :=
| JNull
| JBool (b : bool)
| JNumber (shown : string)
| JString (s : string)
| JArray (items : list json)
| JObject (items : list (string * json)).

(** The knowledge collection: the documents with their metadata, oldest
    first.  The identifiers, drawn at random, are left out. *)
Definition knowledge := list (json * json).

Record files := {
  (** [os.path.exists(filepath)] *)
  path_exists : bool;
  (** [json.load(f)]; nothing when [open] or [json.load] raises *)
  file_data : option json;
  (** [knowledge_base_collection.add] takes the document, or raises *)
  add_accepts : json -> json -> bool
}.

(** [for entry in v] *)
Definition iterate {S} (v : json) : M S (list json) :=
  match v with
  | JArray items => ret items
  | JObject items => ret (map (fun item => JString item.1) items)
  | JString s => ret (map JString (Text.chars s))
  | _ => raise TypeError
  end.

(** [key in entry] for a string [key] *)
Definition has_key {S} (key : string) (entry : json) : M S bool :=
  match entry with
  | JObject items => ret (bool_decide (key ∈ items.*1))
  | JString s => ret (Text.contains key s)
  | JArray items =>
      ret (existsb (fun item => match item with
                                | JString s => String.eqb s key
                                | _ => false
                                end) items)
  | _ => raise TypeError
  end.

(** [entry[key]] for a string [key] *)
Definition item_of {S} (entry : json) (key : string) : M S json :=
  match entry with
  | JObject items =>
      match list_find (fun item => item.1 = key) items with
      | Some (_, (_, v)) => ret v
      | None => raise (KeyError (VStr key))
      end
  | _ => raise TypeError
  end.

Definition add_to_knowledge_base (F : files) (content metadata : json) : M knowledge unit :=
  if add_accepts F content metadata
  then modify (fun docs => docs ++ [(content, metadata)])
  else raise (ServiceError "chromadb").

(** The loop of [load_knowledge_from_file]. *)
Fixpoint load_entries (F : files) (entries : list json) (loaded_count : nat)
  : M knowledge nat :=
  match entries with
  | [] => ret loaded_count
  | entry :: rest =>
      do has_content <- has_key "content" entry;
      do has_both <- (if has_content then has_key "metadata" entry else ret false);
      if has_both then
        do content <- item_of entry "content";
        do metadata <- item_of entry "metadata";
        run add_to_knowledge_base F content metadata;
        load_entries F rest (loaded_count + 1)
      else load_entries F rest loaded_count
  end.

Record load_report := {
  load_status : string;
  loaded : nat;
  (** the exception whose message is reported *)
  load_error : option exn
}.

Definition load_knowledge_from_file (F : files) : M knowledge load_report :=
  try_except
    (if path_exists F then
       do knowledge_data <-
         match file_data F with
         | Some v => ret v
         | None => raise (ValueError "knowledge_base_data.json")
         end;
       do entries <- iterate knowledge_data;
       do loaded_count <- load_entries F entries 0;
       ret {| load_status := "success"; loaded := loaded_count; load_error := None |}
     else
       ret {| load_status := "file_not_found"; loaded := 0; load_error := None |})
    (fun e =>
       ret {| load_status := "error"; loaded := 0; load_error := Some e |}).

(** An entry the loop adds: a JSON object with both keys. *)
Definition loadable (entry : json) : option (json * json) :=
  match entry with
  | JObject items =>
      match list_find (fun item => item.1 = "content") items,
            list_find (fun item => item.1 = "metadata") items with
      | Some (_, (_, content)), Some (_, (_, metadata)) => Some (content, metadata)
      | _, _ => None
      end
  | _ => None
  end.

Definition is_object (entry : json) : bool :=
  match entry with
  | JObject _ => true
  | _ => false
  end.

(** ** Markdown bold *)

(** [s[n:]] for [n >= 0] *)
Fixpoint skip_chars (n : nat) (s : string) : string :=
  match n, s with
  | S n', String _ s' => skip_chars n' s'
  | _, _ => s
  end.

(** What [(.*?)\*\*] matches at the start of [s]: the shortest [inner]
    without a line feed that two asterisks follow, and the [rest] after
    them. *)
Fixpoint closing (s : string) : option (string * string) :=
  match s with
  | EmptyString => None
  | String c s' =>
      if Text.starts_with "**" s then Some (EmptyString, skip_chars 2 s)
      else if Ascii.eqb c "010" then None
      else match closing s' with
           | Some (inner, rest) => Some (String c inner, rest)
           | None => None
           end
  end.

(** What the whole pattern matches at the start of [s]. *)
Definition marked (s : string) : option (string * string) :=
  if Text.starts_with "**" s then closing (skip_chars 2 s) else None.

(** [re.sub(r'\*\*(.*?)\*\*', r'<strong>\1</strong>', s)], scanning from the
    left; [fuel] bounds the number of steps, and the length of [s] is
    enough. *)
Fixpoint sub_bold (fuel : nat) (s : string) : string :=
  match fuel with
  | 0 => s
  | S fuel' =>
      match s with
      | EmptyString => EmptyString
      | String c s' =>
          match marked s with
          | Some (inner, rest) =>
              "<strong>" +:+ inner +:+ "</strong>" +:+ sub_bold fuel' rest
          | None => String c (sub_bold fuel' s')
          end
      end
  end.

Definition markdown_bold (s : string) : string := sub_bold (String.length s) s.

(** ** Sample sessions, registries and files *)

(** A registry holding the session of [naming_world] under its identifier. *)
Definition naming_session : server :=
  {| chatbot_sessions := {[ session_id (self naming_world) := self naming_world ]};
     server_calls := calls naming_world |}.

(** No variable is set in the environment. *)
Definition bare_env : env := with_getenv (fun _ => None) quiet_env.

(** A knowledge file of three entries, the second without metadata, and a
    collection that takes every document. *)
Definition sample_entries : list json :=
  [ JObject [("content", JString "Refunds take five days.");
             ("metadata", JObject [("department", JString "Billing")])];
    JObject [("content", JString "No metadata here.")];
    JObject [("metadata", JObject []); ("content", JString "Offices open at nine.")] ].

Definition sample_file : files :=
  {| path_exists := true;
     file_data := Some (JArray sample_entries);
     add_accepts := fun _ _ => true |}.

(** The same file with a collection that refuses a document whose metadata
    is an empty dict. *)
Definition strict_file : files :=
  {| path_exists := true;
     file_data := Some (JArray sample_entries);
     add_accepts := fun _ metadata =>
       match metadata with
       | JObject [] => false
       | _ => true
       end |}.

(** ** Strings *)

Section TextFacts.

Lemma app_cons (c : ascii) (s t : string) : String c s +:+ t = String c (s +:+ t).
Proof. reflexivity. Qed.

Lemma app_empty_l (s : string) : "" +:+ s = s.
Proof. reflexivity. Qed.

Lemma app_empty_r (s : string) : s +:+ "" = s.
Proof. induction s as [|c s IH]; [done|]. by rewrite app_cons, IH. Qed.

Lemma app_assoc_s (s t u : string) : (s +:+ t) +:+ u = s +:+ (t +:+ u).
Proof. induction s as [|c s IH]; [done|]. by rewrite !app_cons, IH. Qed.

Lemma app_eq_empty (s t : string) : s +:+ t = "" -> s = "" /\ t = "".
Proof. destruct s; [by rewrite app_empty_l|by rewrite app_cons]. Qed.

Lemma app_length (s t : string) :
  String.length (s +:+ t) = String.length s + String.length t.
Proof. induction s as [|c s IH]; [done|]. rewrite app_cons. simpl. by rewrite IH. Qed.

Lemma starts_with_spec (p s : string) :
  Text.starts_with p s = true <-> exists t, s = p +:+ t.
Proof.
  revert s. induction p as [|a p IH]; intros s; simpl.
  - split; [intros _; by exists s|done].
  - destruct s as [|b s].
    + split; [done|]. intros [t Ht]. by rewrite app_cons in Ht.
    + rewrite andb_true_iff, IH. split.
      * intros [Hab [t ->]]. apply Ascii.eqb_eq in Hab as ->. by exists t.
      * intros [t Ht]. rewrite app_cons in Ht. injection Ht as -> ->.
        split; [apply Ascii.eqb_refl|by exists t].
Qed.

Lemma contains_spec (p s : string) : Text.contains p s = true <-> occurs_in p s.
Proof.
  unfold occurs_in. induction s as [|c s IH].
  - simpl. rewrite orb_false_r, starts_with_spec. split.
    + intros [t Ht]. by exists "", t.
    + intros (a & b & Hab). symmetry in Hab.
      apply app_eq_empty in Hab as [-> Hab]. apply app_eq_empty in Hab as [-> ->].
      by exists "".
  - cbn [Text.contains]. rewrite orb_true_iff, IH, starts_with_spec. split.
    + intros [[t Ht]|(a & b & Hab)].
      * by exists "", t.
      * exists (String c a), b. by rewrite app_cons, Hab.
    + intros (a & b & Hab). destruct a as [|c' a].
      * left. by exists b.
      * right. rewrite app_cons in Hab. injection Hab as -> ->. by exists a, b.
Qed.

(** *** Whitespace at the two ends *)

Lemma is_space_listed (ch : string) : Text.is_space ch = true <-> ch ∈ Text.spaces.
Proof.
  unfold Text.is_space. rewrite existsb_exists. split.
  - intros (x & Hin & Heq). apply String.eqb_eq in Heq as ->. by apply list_elem_of_In.
  - intros Hin. exists ch. split; [by apply list_elem_of_In|apply String.eqb_refl].
Qed.

Lemma space_not_empty (ch : string) : Text.is_space ch = true -> ch <> "".
Proof. intros Hch ->. vm_compute in Hch. discriminate Hch. Qed.

Lemma without_prefix_spec (p s t : string) :
  Text.without_prefix p s = Some t <-> s = p +:+ t.
Proof.
  revert s. induction p as [|a p IH]; intros s; simpl.
  - split; [by intros [= ->]|by intros ->].
  - destruct s as [|b s]; [done|]. rewrite app_cons.
    destruct (Ascii.eqb a b) eqn:Hab.
    + apply Ascii.eqb_eq in Hab as ->. rewrite IH. split; [by intros ->|by intros [= ->]].
    + apply Ascii.eqb_neq in Hab. split; [done|]. intros [= -> _]. done.
Qed.

Lemma after_space_some (s rest : string) :
  Text.after_space s = Some rest ->
  exists ch, Text.is_space ch = true /\ s = ch +:+ rest.
Proof.
  unfold Text.after_space. intros Hhead.
  assert (Hin : rest ∈ omap (fun ch => Text.without_prefix ch s) Text.spaces).
  { destruct (omap _ Text.spaces) as [|x l]; [done|]. injection Hhead as ->. by left. }
  apply list_elem_of_omap in Hin as (ch & Hch & Hrest).
  exists ch. split; [by apply is_space_listed|by apply without_prefix_spec].
Qed.

Lemma after_space_none (s : string) :
  Text.after_space s = None ->
  forall ch rest, Text.is_space ch = true -> s <> ch +:+ rest.
Proof.
  unfold Text.after_space. intros Hhead ch rest Hch Hs.
  assert (Hin : rest ∈ omap (fun ch => Text.without_prefix ch s) Text.spaces).
  { apply list_elem_of_omap. exists ch. split; [by apply is_space_listed|].
    by apply without_prefix_spec. }
  destruct (omap _ Text.spaces); [by apply elem_of_nil in Hin|done].
Qed.

Lemma blank_empty : blank "".
Proof. exists []. by split. Qed.

Lemma blank_cons (ch s : string) : Text.is_space ch = true -> blank s -> blank (ch +:+ s).
Proof. intros Hch (l & -> & Hl). exists (ch :: l). split; [done|by constructor]. Qed.

Lemma cat_app (l r : list string) : Text.cat (l ++ r) = Text.cat l +:+ Text.cat r.
Proof. induction l as [|x l IH]; [done|]. simpl. by rewrite IH, app_assoc_s. Qed.

Lemma blank_app (s t : string) : blank s -> blank t -> blank (s +:+ t).
Proof.
  intros (l & -> & Hl) (r & -> & Hr). exists (l ++ r).
  split; [by rewrite cat_app|by apply Forall_app].
Qed.

Lemma lstrip_upto_spec (n : nat) (s : string) :
  String.length s <= n ->
  exists before,
    s = before +:+ Text.lstrip_upto n s /\ blank before
    /\ forall ch rest, Text.is_space ch = true -> Text.lstrip_upto n s <> ch +:+ rest.
Proof.
  revert s. induction n as [|n IH]; intros s Hn.
  - destruct s; [|simpl in Hn; lia]. exists "". split; [done|]. split; [apply blank_empty|].
    intros ch rest Hch Hs. symmetry in Hs. apply app_eq_empty in Hs as [-> _].
    by apply (space_not_empty "").
  - cbn [Text.lstrip_upto]. destruct (Text.after_space s) as [rest|] eqn:Hafter.
    + apply after_space_some in Hafter as (ch & Hch & ->).
      assert (Hlen : String.length rest <= n).
      { rewrite app_length in Hn. pose proof (space_not_empty ch Hch).
        destruct ch; [done|]. simpl in Hn. lia. }
      destruct (IH rest Hlen) as (before & Hrest & Hblank & Hbare).
      exists (ch +:+ before). split; [by rewrite app_assoc_s, <- Hrest|].
      split; [by apply blank_cons|done].
    + exists "". split; [done|]. split; [apply blank_empty|]. by apply after_space_none.
Qed.

Lemma lstrip_spec (s : string) :
  exists before,
    s = before +:+ Text.lstrip s /\ blank before
    /\ forall ch rest, Text.is_space ch = true -> Text.lstrip s <> ch +:+ rest.
Proof. by apply lstrip_upto_spec. Qed.

Lemma rstrip_spec (s : string) :
  exists after,
    s = Text.rstrip s +:+ after /\ blank after
    /\ forall ch rest, Text.is_space ch = true -> Text.rstrip s <> rest +:+ ch.
Proof.
  induction s as [|c s (after & Hs & Hblank & Hbare)].
  - exists "". split; [done|]. split; [apply blank_empty|].
    intros ch rest Hch Hs. symmetry in Hs. apply app_eq_empty in Hs as [_ ->].
    by apply (space_not_empty "").
  - cbn [Text.rstrip]. cbv zeta.
    destruct (Text.is_space (String c (Text.rstrip s))) eqn:Hkept.
    + exists (String c (Text.rstrip s) +:+ after).
      split; [by rewrite app_empty_l, app_cons, <- Hs|].
      split; [by apply blank_cons|].
      intros ch rest Hch Hempty. symmetry in Hempty.
      apply app_eq_empty in Hempty as [_ ->]. by apply (space_not_empty "").
    + exists after. split; [by rewrite app_cons, <- Hs|]. split; [done|].
      intros ch rest Hch Heq. destruct rest as [|d rest].
      * rewrite app_empty_l in Heq. rewrite Heq in Hkept. congruence.
      * rewrite app_cons in Heq. injection Heq as -> Heq. by apply (Hbare ch rest).
Qed.

(** [s.strip()] is [s] without the whitespace around it. *)
Lemma strip_trimmed (s : string) : trimmed s (Text.strip s).
Proof.
  unfold Text.strip.
  destruct (rstrip_spec s) as (after & Hs & Hafter & Hright).
  destruct (lstrip_spec (Text.rstrip s)) as (before & Hr & Hbefore & Hleft).
  exists before, after. split; [by rewrite <- app_assoc_s, <- Hr|].
  split; [done|]. split; [done|].
  intros ch rest Hch. split; [by apply Hleft|].
  intros Heq. apply (Hright ch (before +:+ rest) Hch).
  by rewrite app_assoc_s, <- Heq.
Qed.

Lemma rstrip_bare (s : string) :
  (forall ch rest, Text.is_space ch = true -> s <> rest +:+ ch) -> Text.rstrip s = s.
Proof.
  induction s as [|c s IH]; [done|]. intros Hbare. cbn [Text.rstrip]. cbv zeta.
  rewrite IH.
  - destruct (Text.is_space (String c s)) eqn:Hc; [|done].
    by destruct (Hbare (String c s) "" Hc).
  - intros ch rest Hch ->. by apply (Hbare ch (String c rest) Hch).
Qed.

Lemma lstrip_bare (s : string) :
  (forall ch rest, Text.is_space ch = true -> s <> ch +:+ rest) -> Text.lstrip s = s.
Proof.
  intros Hbare. unfold Text.lstrip. destruct (String.length s); [done|].
  cbn [Text.lstrip_upto]. destruct (Text.after_space s) as [rest|] eqn:Hafter; [|done].
  apply after_space_some in Hafter as (ch & Hch & Hs). by destruct (Hbare ch rest Hch).
Qed.

(** A text without whitespace around it is left as it is. *)
Lemma strip_bare (s : string) : bare s -> Text.strip s = s.
Proof.
  intros Hbare. unfold Text.strip.
  rewrite rstrip_bare by (intros ch rest Hch; exact (proj2 (Hbare ch rest Hch))).
  apply lstrip_bare. intros ch rest Hch. exact (proj1 (Hbare ch rest Hch)).
Qed.

Lemma strip_is_bare (s : string) : bare (Text.strip s).
Proof. by destruct (strip_trimmed s) as (before & after & _ & _ & _ & Hbare). Qed.

(** [s.strip().strip() == s.strip()] *)
Lemma strip_fixed (s : string) : Text.strip (Text.strip s) = Text.strip s.
Proof. apply strip_bare, strip_is_bare. Qed.

Lemma rstrip_app_empty (p s : string) :
  Text.rstrip s = "" -> Text.rstrip (p +:+ s) = Text.rstrip p.
Proof.
  intros Hs. induction p as [|c p IH]; [done|].
  rewrite app_cons. cbn [Text.rstrip]. by rewrite IH.
Qed.

Lemma rstrip_space (ch : string) : Text.is_space ch = true -> Text.rstrip ch = "".
Proof.
  intros Hch. apply is_space_listed in Hch. revert ch Hch. apply Forall_forall.
  vm_compute. repeat constructor.
Qed.

(** A text of whitespace only is stripped to the empty text. *)
Lemma strip_blank (s : string) : blank s -> Text.strip s = "".
Proof.
  intros (l & -> & Hl). unfold Text.strip.
  assert (Hr : Text.rstrip (Text.cat l) = "").
  { induction Hl as [|ch l Hch _ IH]; [done|]. simpl.
    rewrite rstrip_app_empty by done. by apply rstrip_space. }
  by rewrite Hr.
Qed.

Lemma chomp_spec (s m : string) : Text.chomp s = Some m -> s = m +:+ Text.nl.
Proof.
  revert m. induction s as [|c s IH]; [done|]. intros m.
  destruct s as [|d s].
  - simpl. destruct (Ascii.eqb c "010") eqn:Hc; [|done].
    apply Ascii.eqb_eq in Hc as ->. by intros [= <-].
  - change (Text.chomp (String c (String d s)))
      with (String c <$> Text.chomp (String d s)).
    destruct (Text.chomp (String d s)) as [m'|]; [|done].
    intros [= <-]. by rewrite app_cons, <- (IH m').
Qed.

(** A stripped string does not end in a line feed. *)
Lemma chomp_strip (s : string) : Text.chomp (Text.strip s) = None.
Proof.
  destruct (Text.chomp (Text.strip s)) as [m|] eqn:Hm; [|done].
  apply chomp_spec in Hm. by destruct (strip_is_bare s Text.nl m eq_refl) as [_ []].
Qed.

End TextFacts.

(** ** The matcher decides the language of a pattern *)

Section RegexFacts.

Lemma lang_empty_nullable (r : Re.regex) (s : list string) :
  Re.lang r s -> s = [] -> Re.nullable r = true.
Proof.
  induction 1 as [|p c Hp|r1 r2 s1 s2 _ IH1 _ IH2|r1 r2 s _ IH|r1 r2 s _ IH| |r c s1 s2 _ _ _ _];
    intros Hs; simpl; try done.
  - apply app_eq_nil in Hs as [-> ->]. by rewrite IH1, IH2.
  - by rewrite IH.
  - rewrite IH by done. apply orb_true_r.
Qed.

Lemma nullable_lang_empty (r : Re.regex) : Re.nullable r = true -> Re.lang r [].
Proof.
  induction r as [| |p|r1 IH1 r2 IH2|r1 IH1 r2 IH2|r IH]; simpl; intros H; try done.
  - constructor.
  - apply andb_true_iff in H as [H1 H2].
    exact (Re.lang_cat r1 r2 [] [] (IH1 H1) (IH2 H2)).
  - apply orb_true_iff in H as [H|H]; [apply Re.lang_alt_l|apply Re.lang_alt_r]; auto.
  - constructor.
Qed.

Lemma deriv_sound (ch : string) (r : Re.regex) (s : list string) :
  Re.lang (Re.deriv ch r) s -> Re.lang r (ch :: s).
Proof.
  revert s. induction r as [| |p|r1 IH1 r2 IH2|r1 IH1 r2 IH2|r IH]; simpl; intros s H.
  - inversion H.
  - inversion H.
  - destruct (p ch) eqn:Hp; inversion H; subst. by constructor.
  - assert (Hcat : forall t, Re.lang (Re.Cat (Re.deriv ch r1) r2) t ->
                             Re.lang (Re.Cat r1 r2) (ch :: t)).
    { intros t Ht. inversion Ht as [| |? ? s1 s2 H1 H2| | | |]; subst.
      rewrite app_comm_cons. constructor; auto. }
    destruct (Re.nullable r1) eqn:Hn; [|by apply Hcat].
    inversion H as [| | |? ? ? Hl|? ? ? Hr| |]; subst; [by apply Hcat|].
    exact (Re.lang_cat r1 r2 [] (ch :: s) (nullable_lang_empty r1 Hn) (IH2 _ Hr)).
  - inversion H; subst; [apply Re.lang_alt_l|apply Re.lang_alt_r]; auto.
  - inversion H as [| |? ? s1 s2 H1 H2| | | |]; subst.
    rewrite app_comm_cons. constructor; auto.
Qed.

Lemma deriv_complete (r : Re.regex) (w : list string) :
  Re.lang r w -> forall ch s, w = ch :: s -> Re.lang (Re.deriv ch r) s.
Proof.
  induction 1 as [|p c0 Hp|r1 r2 s1 s2 H1 IH1 H2 IH2|r1 r2 s0 _ IH|r1 r2 s0 _ IH|
                  |r c0 s1 s2 H1 IH1 H2 _]; intros ch s Hw; simpl.
  - done.
  - injection Hw as -> <-. rewrite Hp. constructor.
  - destruct s1 as [|c1 s1].
    + simpl in Hw. rewrite (lang_empty_nullable r1 [] H1 eq_refl).
      apply Re.lang_alt_r. by apply IH2.
    + simpl in Hw. injection Hw as -> <-.
      assert (Hcat : Re.lang (Re.Cat (Re.deriv ch r1) r2) (s1 ++ s2)).
      { constructor; [by apply IH1|done]. }
      destruct (Re.nullable r1); [by apply Re.lang_alt_l|done].
  - apply Re.lang_alt_l. by apply IH.
  - apply Re.lang_alt_r. by apply IH.
  - done.
  - simpl in Hw. injection Hw as -> <-.
    constructor; [by apply IH1|done].
Qed.

Lemma matches_spec (r : Re.regex) (text : list string) :
  Re.matches r text = true <-> Re.lang r text.
Proof.
  revert r. induction text as [|ch text IH]; intros r; simpl.
  - split; [apply nullable_lang_empty|intros H; by apply (lang_empty_nullable r [])].
  - rewrite IH. split; [apply deriv_sound|intros H; by apply (deriv_complete r (ch :: text))].
Qed.

Lemma lang_star_cls (p : string -> bool) (s : list string) :
  Re.lang (Re.Star (Re.Cls p)) s <-> forallb p s = true.
Proof.
  split.
  - remember (Re.Star (Re.Cls p)) as r eqn:Hr. intros H.
    induction H as [| | | | | |r c s1 s2 H1 _ H2 IH2]; try discriminate Hr; [done|].
    injection Hr as ->. inversion H1; subst. simpl.
    rewrite IH2 by done. by rewrite andb_true_r.
  - induction s as [|c s IH]; simpl; intros H; [constructor|].
    apply andb_true_iff in H as [Hc Hs].
    change (c :: s) with ([c] ++ s).
    constructor; [by constructor|by apply IH].
Qed.

Lemma lang_plus_cls (p : string -> bool) (s : list string) :
  Re.lang (Re.Plus (Re.Cls p)) s <-> s <> [] /\ forallb p s = true.
Proof.
  unfold Re.Plus. split.
  - intros H. inversion H as [| |? ? s1 s2 H1 H2| | | |]; subst.
    inversion H1; subst. split; [done|]. simpl.
    apply lang_star_cls in H2. by rewrite H2, andb_true_r.
  - intros [Hne H]. destruct s as [|c s]; [done|]. simpl in H.
    apply andb_true_iff in H as [Hc Hs].
    change (c :: s) with ([c] ++ s).
    constructor; [by constructor|by apply lang_star_cls].
Qed.

Lemma lang_chr (c : ascii) (s : list string) :
  Re.lang (Re.Chr c) s <-> s = [String c ""].
Proof.
  unfold Re.Chr. split.
  - intros H. inversion H as [|p ch Hp| | | | |]; subst.
    change ((String c "" =? ch)%string = true) in Hp.
    apply String.eqb_eq in Hp. by subst.
  - intros ->. constructor. apply String.eqb_refl.
Qed.

(** The pattern of the email step denotes the strings of the stated shape. *)
Lemma email_pattern_spec (E : env) (s : string) :
  Re.fullmatch (email_pattern E) s = true <-> email_shaped E s.
Proof.
  unfold Re.fullmatch. rewrite matches_spec. unfold email_pattern, email_shaped. split.
  - intros H.
    inversion H as [| |? ? local s1 Hl Hrest1| | | |]; subst.
    inversion Hrest1 as [| |? ? at_ s2 Ha Hrest2| | | |]; subst.
    inversion Hrest2 as [| |? ? domain s3 Hd Hrest3| | | |]; subst.
    inversion Hrest3 as [| |? ? dot tld Hdot Ht| | | |]; subst.
    apply lang_chr in Ha as ->. apply lang_chr in Hdot as ->.
    apply lang_plus_cls in Hl as [? ?]. apply lang_plus_cls in Hd as [? ?].
    apply lang_plus_cls in Ht as [? ?].
    by exists local, domain, tld.
  - intros (local & domain & tld & -> & ? & ? & ? & ? & ? & ?).
    constructor; [by apply lang_plus_cls|].
    constructor; [by apply lang_chr|].
    constructor; [by apply lang_plus_cls|].
    constructor; [by apply lang_chr|by apply lang_plus_cls].
Qed.

(** On a stripped input the search returns the whole input or nothing: the
    [$] has no final line feed to stop before. *)
Lemma search_stripped (E : env) (user_input : string) :
  Re.search_anchored (email_pattern E) (Text.strip user_input)
  = if Re.fullmatch (email_pattern E) (Text.strip user_input)
    then Some (Text.strip user_input) else None.
Proof. unfold Re.search_anchored. by rewrite chomp_strip. Qed.

Lemma ascii_word_no_space (c : ascii) :
  Text.is_ascii c = true ->
  Text.is_upper c || Text.is_lower c || Text.is_digit c || Ascii.eqb c "_" = true ->
  Text.is_space (String c "") = false.
Proof. destruct c as [[] [] [] [] [] [] [] []]; vm_compute; intros H1 H2; done. Qed.

(** No character of an address is whitespace, as long as the interpreter's
    tables hold no whitespace character to be alphanumeric. *)
Lemma addr_char_no_space (E : env) (ch : string) :
  (forall x, unicode_alnum E x = true -> Text.is_space x = false) ->
  addr_char E ch || String.eqb ch "@" = true -> Text.is_space ch = false.
Proof.
  intros Hlaw. unfold addr_char. rewrite !orb_true_iff.
  intros [[[Hw|Hdot]|Hdash]|Hat].
  - unfold Text.is_word in Hw. destruct ch as [|c [|d ch]]; try by apply Hlaw.
    destruct (Text.is_ascii c) eqn:Hc; [by apply ascii_word_no_space|by apply Hlaw].
  - by apply String.eqb_eq in Hdot as ->.
  - by apply String.eqb_eq in Hdash as ->.
  - by apply String.eqb_eq in Hat as ->.
Qed.

Lemma forallb_impl (p q : string -> bool) (l : list string) :
  (forall x, p x = true -> q x = true) -> forallb p l = true -> forallb q l = true.
Proof.
  intros Hpq. rewrite !forallb_forall. intros Hp x Hx. by apply Hpq, Hp.
Qed.

(** The characters of a text of the accepted shape are address characters,
    but for one [@]. *)
Lemma email_shaped_chars (E : env) (s : string) :
  email_shaped E s ->
  forallb (fun ch => addr_char E ch || String.eqb ch "@") (Text.chars s) = true
  /\ length (List.filter (String.eqb "@") (Text.chars s)) = 1.
Proof.
  intros (local & domain & tld & -> & _ & Hl & _ & Hd & _ & Ht).
  assert (Hw : forallb (addr_char E) tld = true).
  { eapply forallb_impl; [|exact Ht]. intros c Hc. unfold addr_char. by rewrite Hc. }
  assert (Hok : forall t, forallb (addr_char E) t = true ->
            forallb (fun ch => addr_char E ch || String.eqb ch "@") t = true).
  { intros t. apply forallb_impl. intros c Hc. by rewrite Hc. }
  assert (Hnone : forall t, forallb (addr_char E) t = true ->
            List.filter (String.eqb "@") t = []).
  { intros t. induction t as [|c t IH]; [done|]. cbn [List.filter forallb].
    rewrite andb_true_iff. intros [Hc Hall].
    destruct (String.eqb "@" c) eqn:Hat; [|by apply IH].
    apply String.eqb_eq in Hat as <-. by vm_compute in Hc. }
  split.
  - rewrite !forallb_app, (Hok _ Hl), (Hok _ Hd), (Hok _ Hw). reflexivity.
  - rewrite !List.filter_app, (Hnone _ Hl), (Hnone _ Hd), (Hnone _ Hw). reflexivity.
Qed.

(** No whitespace inside a text of that shape. *)
Lemma email_shaped_no_space (E : env) (s : string) :
  (forall x, unicode_alnum E x = true -> Text.is_space x = false) ->
  email_shaped E s ->
  forallb (fun ch => negb (Text.is_space ch)) (Text.chars s) = true.
Proof.
  intros Hlaw Hs. apply email_shaped_chars in Hs as [Hs _].
  eapply forallb_impl; [|exact Hs]. intros ch Hch. cbv beta in Hch.
  by rewrite (addr_char_no_space E ch Hlaw Hch).
Qed.

End RegexFacts.

(** ** Running the controller symbolically *)

Arguments affirmative : simpl never.
Arguments additional_details_of : simpl never.
Arguments Text.strip : simpl never.
Arguments Text.lower : simpl never.
Arguments Text.chars : simpl never.
Arguments Re.search_anchored : simpl never.
Arguments name_prompt : simpl never.
Arguments decline_acknowledgment : simpl never.
Arguments email_offer : simpl never.
Arguments fallback_unparsed : simpl never.
Arguments fallback_error : simpl never.
Arguments fallback_email_parts : simpl never.

Ltac monad_red :=
  cbv [bind ret raise get modify try_except this assign emit append_turn
       store_email_data].

(** Name the fields of the controller of [w] and settle its flags from the
    phase it is in. *)
Ltac open_world w :=
  let h := fresh "h" in let sid := fresh "sid" in let dept := fresh "dept" in
  let conf := fresh "conf" in let act := fresh "act" in let pend := fresh "pend" in
  let q := fresh "q" in let b := fresh "b" in let data := fresh "data" in
  let step := fresh "step" in let depts := fresh "depts" in let cs := fresh "cs" in
  destruct w as [[h sid dept conf act pend q b data step depts] cs];
  cbv [phase_of self email_workflow_active email_confirmation_pending current_step] in *;
  destruct act, pend; try discriminate;
  try match goal with
      | H : match ?n with O => _ | S _ => _ end = _ |- _ =>
          destruct n as [|[|[|[|n]]]]; try discriminate
      end.

Section ControllerFacts.

Variable R : renderer.

Lemma affirmative_spec (E : env) (user_message : string) :
  affirmative E user_message = true <-> holds_affirmative_word E user_message.
Proof.
  unfold affirmative, holds_affirmative_word. rewrite existsb_exists. split.
  - intros (word & Hin & Hc). exists word. split; [by apply list_elem_of_In|].
    by apply contains_spec.
  - intros (word & Hin & Hc). exists word. split; [by apply list_elem_of_In|].
    by apply contains_spec.
Qed.

(** *** The confirmation question *)

Lemma confirm_yes (E : env) (w : world) (user_message : string) :
  phase_of (self w) = Some AWAITING_EMAIL_CONFIRMATION ->
  affirmative E user_message = true ->
  exists r w',
    process_message R E user_message w = (Returned r, w')
    /\ bot_response r = name_prompt /\ status r = "workflow_started"
    /\ workflow_active r = true
    /\ email_workflow_active (self w') = true
    /\ email_confirmation_pending (self w') = false
    /\ current_step (self w') = 0
    /\ email_data (self w') = email_data (self w)
    /\ chat_history (self w') = chat_history (self w) ++ exchange E user_message name_prompt
    /\ calls w' = calls w.
Proof.
  intros Hp Ha. open_world w. unfold process_message. monad_red. simpl.
  rewrite Ha. simpl. eexists _, _. split; [reflexivity|]. simpl.
  by rewrite <- app_assoc.
Qed.

Lemma confirm_no (E : env) (w : world) (user_message : string) :
  phase_of (self w) = Some AWAITING_EMAIL_CONFIRMATION ->
  affirmative E user_message = false ->
  exists r w',
    process_message R E user_message w = (Returned r, w')
    /\ bot_response r = decline_acknowledgment /\ status r = "normal"
    /\ workflow_active r = false
    /\ email_workflow_active (self w') = false
    /\ email_confirmation_pending (self w') = false
    /\ email_data (self w') = email_data (self w)
    /\ identified_department (self w') = identified_department (self w)
    /\ department_confidence (self w') = department_confidence (self w)
    /\ chat_history (self w')
       = chat_history (self w) ++ exchange E user_message decline_acknowledgment
    /\ calls w' = calls w.
Proof.
  intros Hp Ha. open_world w. unfold process_message. monad_red. simpl.
  rewrite Ha. simpl. eexists _, _. split; [reflexivity|]. simpl.
  by rewrite <- app_assoc.
Qed.

(** *** Sequencing *)

Lemma bind_returned {S A B} (m : M S A) (k : A -> M S B) (a : A) (s s' : S) :
  m s = (Returned a, s') -> bind m k s = k a s'.
Proof. intros H. unfold bind. by rewrite H. Qed.

Lemma bind_raised {S A B} (m : M S A) (k : A -> M S B) (e : exn) (s s' : S) :
  m s = (Raised e, s') -> bind m k s = (Raised e, s').
Proof. intros H. unfold bind. by rewrite H. Qed.

(** *** The composer *)

Lemma paragraph_pure (parts : gmap string pyval) (key : string) :
  exists o, forall w, paragraph parts key w = (o, w).
Proof.
  unfold paragraph, py_strip. destruct (get_or parts key (VStr "")); monad_red; eauto.
Qed.

Lemma join_lines_pure (parts : list pyval) :
  exists o, forall w : world, py_join_lines parts w = (o, w).
Proof.
  induction parts as [|v parts [o IH]]; simpl; [by eexists|].
  destruct v; monad_red; eauto.
  destruct o; eexists; intros w; rewrite IH; reflexivity.
Qed.

Lemma signature_pure (E : env) (parts : gmap string pyval) (c : controller) :
  exists o, forall w, signature E parts c w = (o, w).
Proof.
  unfold signature, getitem, py_lower.
  destruct (parts !! "signature_name"); [monad_red; eauto|].
  destruct (truthy _); [|monad_red; eauto].
  destruct (email_data c !! "company") as [[]|]; monad_red; eauto.
Qed.

Lemma compose_reply (E : env) (w : world) :
  exists parts,
    try_except
      (run emit (compose_call (self w));
       match composer E with
       | LlmRaises err => raise (ServiceError err)
       | LlmNoObject => ret (fallback_email_parts (self w))
       | LlmBadJson err => raise (ValueError err)
       | LlmObject d => ret d
       end)
      (fun _ => ret (fallback_email_parts (self w))) w
    = (Returned parts, {| self := self w; calls := calls w ++ [compose_call (self w)] |}).
Proof. destruct w as [c cs]. destruct (composer E); monad_red; simpl; eauto. Qed.

(** The composer is called once.  Then either an exception leaves the
    method, with nothing assigned, or the three results are stored and the
    preview is returned. *)
Lemma generate_cases (E : env) (w : world) :
  let c := self w in
  let called := calls w ++ [compose_call c] in
  (exists e, generate_intelligent_email R E w = (Raised e, {| self := c; calls := called |}))
  \/ (exists subject department_email user_preview,
        generate_intelligent_email R E w
        = (Returned user_preview,
           {| self := composed subject department_email user_preview c;
              calls := called |})).
Proof.
  intros c called. unfold generate_intelligent_email.
  destruct (compose_reply E w) as [parts Hparts].
  destruct (paragraph_pure parts "paragraph1") as [o1 H1].
  destruct (paragraph_pure parts "paragraph2") as [o2 H2].
  destruct (paragraph_pure parts "paragraph3") as [o3 H3].
  destruct (signature_pure E parts c) as [o4 H4].
  rewrite (bind_returned this _ c w w) by reflexivity.
  erewrite bind_returned by exact Hparts.
  destruct o1 as [p1|e]; [|left; exists e; by erewrite bind_raised by apply H1].
  erewrite bind_returned by apply H1.
  destruct o2 as [p2|e]; [|left; exists e; by erewrite bind_raised by apply H2].
  erewrite bind_returned by apply H2.
  destruct o3 as [p3|e]; [|left; exists e; by erewrite bind_raised by apply H3].
  erewrite bind_returned by apply H3.
  destruct o4 as [p4|e]; [|left; exists e; by erewrite bind_raised by apply H4].
  erewrite bind_returned by apply H4.
  match goal with
  | |- context [py_join_lines ?l] => destruct (join_lines_pure l) as [o5 H5]
  end.
  destruct o5 as [p5|e]; [|left; exists e; by erewrite bind_raised by apply H5].
  erewrite bind_returned by apply H5.
  right. monad_red. simpl. eexists _, _, _. reflexivity.
Qed.

(** *** The dispatcher *)

(** [send_email_to_department] never raises; it posts at most once, assigns
    nothing, and answers [true] exactly when the dispatch was ready. *)
Lemma send_cases (E : env) (email_html : string) (w : world) :
  exists sent posts,
    send_email_to_department E email_html w
    = (Returned sent, {| self := self w; calls := calls w ++ posts |})
    /\ length posts <= 1
    /\ (sent = true <-> dispatch_ready E (self w)).
Proof.
  destruct w as [c cs]. unfold send_email_to_department, dispatch_ready, getitem.
  monad_red. simpl.
  destruct (getenv E "RESEND_API_KEY") as [[|k0 key]|] eqn:Hkey; simpl.
  1,3: exists false, []; rewrite app_nil_r; split; [done|]; split; [simpl; lia|];
    split; [done|]; intros [(key' & Hk & Hne) _]; congruence.
  destruct (identified_department c) as [| | |name|] eqn:Hdept; simpl.
  1-3,5: exists false, []; rewrite app_nil_r; split; [done|]; split; [simpl; lia|];
    split; [done|]; intros (_ & (dn & da & Hn & _) & _); congruence.
  destruct (departments c !! name) as [address|] eqn:Haddr; simpl.
  2: { exists false, []. rewrite app_nil_r. split; [done|]. split; [simpl; lia|].
       split; [done|]. intros (_ & (dn & da & Hn & Ha) & _). congruence. }
  destruct (resend_post E) eqn:Hpost; simpl.
  - eexists true, [_]. split; [reflexivity|]. split; [simpl; lia|]. split; [|done].
    intros _. split; [by exists (String k0 key)|]. split; [by exists name, address|done].
  - eexists false, [_]. split; [reflexivity|]. split; [simpl; lia|]. split; [done|].
    intros (_ & _ & Hp). congruence.
  - eexists false, [_]. split; [reflexivity|]. split; [simpl; lia|]. split; [done|].
    intros (_ & _ & Hp). congruence.
Qed.

(** *** The steps of the workflow, seen from [process_message] *)

Lemma name_step (E : env) (w : world) (user_message : string) :
  phase_of (self w) = Some COLLECTING_NAME ->
  exists r w',
    process_message R E user_message w = (Returned r, w')
    /\ bot_response r = email_prompt /\ status r = "collecting_info"
    /\ email_data (self w') = <["name" := VStr (Text.strip user_message)]> (email_data (self w))
    /\ phase_of (self w') = Some COLLECTING_EMAIL
    /\ chat_history (self w') = chat_history (self w) ++ exchange E user_message email_prompt
    /\ same_session (self w) (self w')
    /\ calls w' = calls w.
Proof.
  intros Hp. open_world w. unfold process_message, process_workflow_step, same_session.
  monad_red. simpl. eexists _, _. split; [reflexivity|]. simpl.
  by rewrite <- app_assoc.
Qed.

Lemma email_step (E : env) (w : world) (user_message : string) :
  phase_of (self w) = Some COLLECTING_EMAIL ->
  exists r w',
    process_message R E user_message w = (Returned r, w')
    /\ status r = "collecting_info"
    /\ chat_history (self w') = chat_history (self w) ++ exchange E user_message (bot_response r)
    /\ same_session (self w) (self w')
    /\ calls w' = calls w
    /\ if Re.fullmatch (email_pattern E) (Text.strip user_message)
       then bot_response r = company_prompt
            /\ email_data (self w')
               = <["email" := VStr (Text.strip user_message)]> (email_data (self w))
            /\ phase_of (self w') = Some COLLECTING_COMPANY
       else bot_response r = email_reprompt
            /\ email_data (self w') = email_data (self w)
            /\ phase_of (self w') = Some COLLECTING_EMAIL.
Proof.
  intros Hp. open_world w. unfold process_message, process_workflow_step, same_session.
  monad_red. simpl. rewrite search_stripped.
  destruct (Re.fullmatch (email_pattern E) (Text.strip user_message));
    simpl; eexists _, _; (split; [reflexivity|]); simpl; by rewrite <- app_assoc.
Qed.

Lemma company_step (E : env) (w : world) (user_message : string) :
  phase_of (self w) = Some COLLECTING_COMPANY ->
  exists r w',
    process_message R E user_message w = (Returned r, w')
    /\ bot_response r = details_prompt (original_user_question (self w))
    /\ status r = "collecting_info"
    /\ email_data (self w')
       = <["company" := VStr (Text.strip user_message)]> (email_data (self w))
    /\ phase_of (self w') = Some COLLECTING_DETAILS
    /\ chat_history (self w')
       = chat_history (self w)
         ++ exchange E user_message (details_prompt (original_user_question (self w)))
    /\ same_session (self w) (self w')
    /\ calls w' = calls w.
Proof.
  intros Hp. open_world w. unfold process_message, process_workflow_step, same_session.
  monad_red. simpl. eexists _, _. split; [reflexivity|]. simpl.
  by rewrite <- app_assoc.
Qed.

(** The last step: the slot is stored, the composer runs, and unless an
    exception leaves it the dispatcher runs and the workflow is closed. *)
Lemma details_step (E : env) (w : world) (user_message : string) :
  phase_of (self w) = Some COLLECTING_DETAILS ->
  let stored :=
    {| self := set_email_data
                 (<["additional_details" := VStr (additional_details_of E user_message)]>
                    (email_data (self w))) (self w);
       calls := calls w |} in
  match generate_intelligent_email R E stored with
  | (Raised e, w1) => process_message R E user_message w = (Raised e, w1)
  | (Returned email_html, w1) =>
      exists email_sent w2 r w',
        send_email_to_department E email_html w1 = (Returned email_sent, w2)
        /\ process_message R E user_message w = (Returned r, w')
        /\ status r = "email_complete" /\ workflow_active r = false
        /\ reply_email_html r = Some email_html
        /\ reply_email_sent r = Some email_sent
        /\ bot_response r = completion_message email_sent (self w2)
        /\ email_workflow_active (self w') = false
        /\ email_confirmation_pending (self w') = email_confirmation_pending (self w)
        /\ email_data (self w') = email_data (self w2)
        /\ chat_history (self w')
           = chat_history (self w) ++ exchange E user_message (bot_response r)
        /\ calls w' = calls w2
  end.
Proof.
  intros Hp. open_world w. unfold process_message, process_workflow_step.
  monad_red. simpl.
  match goal with
  | |- context [generate_intelligent_email R E ?w0] =>
      pose proof (generate_cases E w0) as Hgen;
      destruct (generate_intelligent_email R E w0) as [[email_html|e] w1]
  end; [|reflexivity].
  destruct (send_cases E email_html w1) as (sent & posts & Hsend & _ & _).
  rewrite Hsend. simpl.
  destruct Hgen as [[e He]|(subject & de & up & Heq)]; [discriminate He|].
  injection Heq as -> ->. simpl.
  eexists _, _, _, _. split; [reflexivity|]. split; [reflexivity|]. simpl.
  by rewrite <- app_assoc.
Qed.

(** *** An ordinary message *)

Lemma analyze_result (E : env) (user_message context knowledge : string) (w : world) :
  analyze_with_gemini E user_message context knowledge w
  = (Returned (classified E),
     {| self := self w; calls := calls w ++ [Classify user_message context knowledge] |}).
Proof.
  destruct w as [c cs]. unfold analyze_with_gemini, classified.
  destruct (classifier E); monad_red; reflexivity.
Qed.

Lemma search_result (E : env) (query : string) (w : world) :
  exists docs,
    search_knowledge_base E query w
    = (Returned docs, {| self := self w; calls := calls w ++ [KnowledgeQuery query] |})
    /\ match docs with
       | [] => "No relevant knowledge base entries found."
       | _ => Text.join Text.nl (map (fun doc => "- " +:+ doc) docs)
       end = knowledge_context E.
Proof.
  destruct w as [c cs]. unfold search_knowledge_base, knowledge_context.
  destruct (knowledge_base E) as [|[|doc docs]]; monad_red; eauto.
Qed.

(** The state an ordinary message leaves behind once the classifier has
    answered with a department, a confidence and a text reply. *)
Lemma normal_step (E : env) (w : world) (user_message : string)
    (department confidence : pyval) (answer : string) :
  phase_of (self w) = Some NORMAL ->
  conversation_add E User = true ->
  classified E !! "department" = Some department ->
  classified E !! "confidence" = Some confidence ->
  get_or (classified E) "user_response" (VStr "I'll help you with that.") = VStr answer ->
  exists o w',
    process_message R E user_message w = (o, w')
    /\ identified_department (self w') = department
    /\ department_confidence (self w') = confidence
    /\ original_user_question (self w') = user_message
    /\ email_data (self w')
       = <["importance" := get_or (classified E) "importance" (VStr "Medium")]>
           (email_data (self w))
    /\ phase_of (self w') = Some AWAITING_EMAIL_CONFIRMATION
    /\ chat_history (self w')
       = chat_history (self w)
         ++ exchange E user_message (answer +:+ email_offer department)
    /\ match o with
       | Returned r =>
           conversation_add E Assistant = true
           /\ bot_response r = answer +:+ email_offer department
           /\ status r = "awaiting_confirmation"
           /\ analysis_department r = department
           /\ analysis_confidence r = confidence
           /\ reply_department r = department
       | Raised e => conversation_add E Assistant = false
       end.
Proof.
  intros Hp Hadd Hd Hc Ha. open_world w.
  unfold process_message, save_to_chroma, getitem. monad_red. simpl.
  match goal with
  | |- context [search_knowledge_base E user_message ?w0] =>
      destruct (search_result E user_message w0) as (docs & Hsearch & _)
  end.
  simpl in Hsearch. rewrite Hsearch. simpl. rewrite Hadd. simpl.
  rewrite analyze_result. simpl. rewrite Hd, Hc. simpl. rewrite Ha. simpl.
  destruct (conversation_add E Assistant); simpl; eexists _, _;
    (split; [reflexivity|]); simpl; rewrite <- app_assoc; done.
Qed.

(** *** Every call that returns has logged one exchange *)

Lemma returned_exchange (E : env) (w : world) (user_message : string)
    (r : reply) (w' : world) :
  process_message R E user_message w = (Returned r, w') ->
  chat_history (self w') = chat_history (self w) ++ exchange E user_message (bot_response r).
Proof.
  destruct w as [[h sid dept conf act pend q b data step depts] cs].
  destruct act.
  - destruct step as [|[|[|[|step]]]];
      unfold process_message, process_workflow_step; monad_red; simpl.
    + intros [= <- <-]. simpl. by rewrite <- app_assoc.
    + destruct (Re.search_anchored (email_pattern E) (Text.strip user_message));
        simpl; intros [= <- <-]; simpl; by rewrite <- app_assoc.
    + intros [= <- <-]. simpl. by rewrite <- app_assoc.
    + match goal with
      | |- context [generate_intelligent_email R E ?w0] =>
          destruct (generate_cases E w0) as [[e He]|(subject & de & up & He)]; rewrite He
      end; [done|].
      match goal with
      | |- context [send_email_to_department E ?html ?w1] =>
          destruct (send_cases E html w1) as (sent & posts & Hsend & _ & _); rewrite Hsend
      end.
      simpl. intros [= <- <-]. simpl. by rewrite <- app_assoc.
    + done.
  - destruct pend; unfold process_message.
    + monad_red. simpl. destruct (affirmative E user_message); simpl;
        intros [= <- <-]; simpl; by rewrite <- app_assoc.
    + unfold save_to_chroma, getitem, py_add_str. monad_red. simpl.
      match goal with
      | |- context [search_knowledge_base E user_message ?w0] =>
          destruct (search_result E user_message w0) as (docs & Hsearch & _)
      end.
      simpl in Hsearch. rewrite Hsearch. simpl.
      destruct (conversation_add E User); simpl; [|done].
      rewrite analyze_result. simpl.
      destruct (classified E !! "department") as [department|]; simpl; [|done].
      destruct (classified E !! "confidence") as [confidence|]; simpl; [|done].
      destruct (get_or (classified E) "user_response" _) as [| | |answer|]; simpl; try done.
      destruct (conversation_add E Assistant); simpl; [|done].
      intros [= <- <-]. simpl. by rewrite <- app_assoc.
Qed.

(** A new controller is in NORMAL, and a controller that is in a phase stays
    in one, whether the call returns or raises: the phases cover every state
    a session reaches. *)
Lemma phase_initial (E : env) (sid : string) :
  phase_of (set_session_id sid (new_chatbot E)) = Some NORMAL.
Proof. reflexivity. Qed.

Lemma phase_kept (E : env) (w : world) (user_message : string) :
  is_Some (phase_of (self w)) ->
  is_Some (phase_of (self (process_message R E user_message w).2)).
Proof.
  intros [p Hp]. open_world w;
    unfold process_message, process_workflow_step; monad_red; simpl.
  - done.
  - destruct (Re.search_anchored (email_pattern E) (Text.strip user_message)); simpl; done.
  - done.
  - match goal with
    | |- context [generate_intelligent_email R E ?w0] =>
        destruct (generate_cases E w0) as [[e He]|(subject & de & up & He)]; rewrite He
    end; [done|].
    match goal with
    | |- context [send_email_to_department E ?html ?w1] =>
        destruct (send_cases E html w1) as (sent & posts & Hsend & _ & _); rewrite Hsend
    end.
    simpl. done.
  - destruct (affirmative E user_message); simpl; done.
  - unfold save_to_chroma, getitem, py_add_str. monad_red. simpl.
    match goal with
    | |- context [search_knowledge_base E user_message ?w0] =>
        destruct (search_result E user_message w0) as (docs & Hsearch & _)
    end.
    simpl in Hsearch. rewrite Hsearch. simpl.
    destruct (conversation_add E User); simpl; [|done].
    rewrite analyze_result. simpl.
    destruct (classified E !! "department") as [department|]; simpl; [|done].
    destruct (classified E !! "confidence") as [confidence|]; simpl; [|done].
    destruct (get_or (classified E) "user_response" _) as [| | |answer|]; simpl; try done.
    destruct (conversation_add E Assistant); simpl; done.
Qed.

Lemma completed_exchanges (inputs : list (env * string)) (w : world) :
  completes R inputs w ->
  length (chat_history (self (feed R inputs w)))
  = length (chat_history (self w)) + 2 * length inputs.
Proof.
  revert w. induction inputs as [|[E user_message] rest IH]; intros w; simpl.
  - intros _. lia.
  - intros [[r Hr] Hrest].
    destruct (process_message R E user_message w) as [o w'] eqn:Hcall.
    simpl in *. subst o. rewrite (IH w' Hrest).
    rewrite (returned_exchange E w user_message r w' Hcall), length_app. simpl. lia.
Qed.

End ControllerFacts.

(** ** The claims about the controller *)

Section Claims.

Variable R : renderer.

(** C1.  In the AWAITING_EMAIL_CONFIRMATION phase [process_message] returns,
    and the session moves to COLLECTING_NAME exactly when the lowered message
    holds one of yes, yeah, sure, ok, okay, please, send as a run of
    consecutive characters: the code tests [word in user_message.lower()],
    so the word may stand anywhere in the message, inside a longer word too.
    Such a message leaves the workflow active at step 0 and is answered by
    the prompt for the name; any other message leaves the session in NORMAL
    and is answered by the neutral acknowledgment.  In both cases the
    collected data is untouched. *)
Theorem confirmation_transition (E : env) (w : world) (user_message : string) :
  phase_of (self w) = Some AWAITING_EMAIL_CONFIRMATION ->
  exists r w',
    process_message R E user_message w = (Returned r, w')
    /\ (phase_of (self w') = Some COLLECTING_NAME <-> holds_affirmative_word E user_message)
    /\ (holds_affirmative_word E user_message ->
          phase_of (self w') = Some COLLECTING_NAME
          /\ email_workflow_active (self w') = true
          /\ current_step (self w') = 0
          /\ bot_response r = name_prompt)
    /\ (~ holds_affirmative_word E user_message ->
          phase_of (self w') = Some NORMAL
          /\ bot_response r = decline_acknowledgment)
    /\ email_data (self w') = email_data (self w).
Proof.
  intros Hp. destruct (affirmative E user_message) eqn:Ha.
  - destruct (confirm_yes R E w user_message Hp Ha)
      as (r & w' & Hcall & Hr & _ & _ & Hact & Hpend & Hstep & Hdata & _).
    assert (Hyes : holds_affirmative_word E user_message) by by apply affirmative_spec.
    assert (Hphase : phase_of (self w') = Some COLLECTING_NAME).
    { unfold phase_of. by rewrite Hact, Hpend, Hstep. }
    exists r, w'. split; [done|]. split; [done|]. split; [done|].
    split; [intros Hno; by destruct Hno|done].
  - destruct (confirm_no R E w user_message Hp Ha)
      as (r & w' & Hcall & Hr & _ & _ & Hact & Hpend & Hdata & _).
    assert (Hno : ~ holds_affirmative_word E user_message).
    { rewrite <- affirmative_spec, Ha. discriminate. }
    assert (Hphase : phase_of (self w') = Some NORMAL).
    { unfold phase_of. by rewrite Hact, Hpend. }
    exists r, w'. split; [done|]. split.
    { rewrite Hphase. split; [discriminate|]. intros Hyes. by destruct Hno. }
    split; [intros Hyes; by destruct Hno|done].
Qed.

(** The message O followed by U+212A KELVIN SIGN: with tables that lower it
    to "ok", as Python's do, it is an affirmative answer. *)
Lemma kelvin_sign_confirms (E : env) (w : world) :
  unicode_lower E ("O" +:+ Text.utf8 0x212A) = "ok" ->
  phase_of (self w) = Some AWAITING_EMAIL_CONFIRMATION ->
  exists r w',
    process_message R E ("O" +:+ Text.utf8 0x212A) w = (Returned r, w')
    /\ status r = "workflow_started"
    /\ phase_of (self w') = Some COLLECTING_NAME.
Proof.
  intros Htable Hp.
  assert (Ha : affirmative E ("O" +:+ Text.utf8 0x212A) = true).
  { unfold affirmative, Text.lower.
    change (Text.all_ascii ("O" +:+ Text.utf8 0x212A)) with false. cbv iota.
    rewrite Htable. reflexivity. }
  destruct (confirm_yes R E w _ Hp Ha)
    as (r & w' & Hcall & _ & Hs & _ & Hact & Hpend & Hstep & _).
  exists r, w'. split; [done|]. split; [done|].
  unfold phase_of. by rewrite Hact, Hpend, Hstep.
Qed.

Lemma invalid_emails_stay (inputs : list (env * string)) (w : world) :
  phase_of (self w) = Some COLLECTING_EMAIL ->
  Forall (fun input => Re.fullmatch (email_pattern input.1) (Text.strip input.2) = false) inputs ->
  phase_of (self (feed R inputs w)) = Some COLLECTING_EMAIL
  /\ email_data (self (feed R inputs w)) = email_data (self w)
  /\ chat_history (self (feed R inputs w))
     = chat_history (self w)
       ++ concat (map (fun input => exchange input.1 input.2 email_reprompt) inputs).
Proof.
  revert w. induction inputs as [|[E user_message] rest IH]; intros w Hp Hall; simpl.
  - by rewrite app_nil_r.
  - apply Forall_cons in Hall as [Hbad Hrest]. simpl in Hbad.
    destruct (email_step R E w user_message Hp) as (r & w' & Hcall & _ & Hh & _ & _ & Hm).
    rewrite Hbad in Hm. destruct Hm as (Hr & Hdata & Hp').
    rewrite Hcall. simpl.
    destruct (IH w' Hp' Hrest) as (IHp & IHd & IHh).
    rewrite IHp, IHd, IHh, Hh, Hdata, Hr, <- app_assoc. done.
Qed.

(** C2.  In the COLLECTING_EMAIL phase the input is stripped of the whitespace
    around it.  When what is left has the shape local part, [@], domain,
    [.], top-level domain, it is what the pattern search returns; that text
    is stored in the email slot and the session moves to
    COLLECTING_COMPANY.  It holds no whitespace character (no alphanumeric
    character of the Unicode tables being whitespace).  Any run of inputs
    that do not have that shape leaves the phase and the collected data as
    they were and is answered by the reprompt, once per input. *)
Theorem email_validation (E : env) (w : world) (user_message : string) :
  phase_of (self w) = Some COLLECTING_EMAIL ->
  trimmed user_message (Text.strip user_message)
  /\ (email_shaped E (Text.strip user_message) ->
       exists r w',
         process_message R E user_message w = (Returned r, w')
         /\ Re.search_anchored (email_pattern E) (Text.strip user_message)
            = Some (Text.strip user_message)
         /\ ((forall ch, unicode_alnum E ch = true -> Text.is_space ch = false) ->
             forallb (fun ch => negb (Text.is_space ch))
               (Text.chars (Text.strip user_message)) = true)
         /\ bot_response r = company_prompt
         /\ slot (self w') "email" = Some (VStr (Text.strip user_message))
         /\ phase_of (self w') = Some COLLECTING_COMPANY)
  /\ (forall inputs : list (env * string),
        Forall (fun input => ~ email_shaped input.1 (Text.strip input.2)) inputs ->
        phase_of (self (feed R inputs w)) = Some COLLECTING_EMAIL
        /\ email_data (self (feed R inputs w)) = email_data (self w)
        /\ slot (self (feed R inputs w)) "email" = slot (self w) "email"
        /\ chat_history (self (feed R inputs w))
           = chat_history (self w)
             ++ concat (map (fun input => exchange input.1 input.2 email_reprompt) inputs)).
Proof.
  intros Hp. split; [apply strip_trimmed|]. split.
  - intros Hshape.
    assert (Hm : Re.fullmatch (email_pattern E) (Text.strip user_message) = true)
      by by apply email_pattern_spec.
    destruct (email_step R E w user_message Hp) as (r & w' & Hcall & _ & _ & _ & _ & Hcase).
    rewrite Hm in Hcase. destruct Hcase as (Hr & Hdata & Hp').
    exists r, w'. split; [done|]. split; [by rewrite search_stripped, Hm|].
    split; [intros Hlaw; by apply (email_shaped_no_space E)|]. split; [done|].
    split; [|done]. unfold slot. rewrite Hdata. apply lookup_insert_eq.
  - intros inputs Hall.
    assert (Hbad : Forall (fun input =>
              Re.fullmatch (email_pattern input.1) (Text.strip input.2) = false) inputs).
    { eapply Forall_impl; [exact Hall|]. intros input Hno. simpl in Hno.
      destruct (Re.fullmatch (email_pattern input.1) (Text.strip input.2)) eqn:Hm; [|done].
      destruct Hno. by apply email_pattern_spec. }
    destruct (invalid_emails_stay inputs w Hp Hbad) as (Hp' & Hdata & Hh).
    repeat split; auto. unfold slot. by rewrite Hdata.
Qed.

(** An address with the letter U+00E9 in its local part, between
    whitespace of three kinds: with tables that hold the letter to be
    alphanumeric, as Python's do, the address is stored without the
    whitespace and the session moves on. *)
Lemma accented_address_accepted (E : env) (w : world) :
  unicode_alnum E (Text.utf8 0xE9) = true ->
  phase_of (self w) = Some COLLECTING_EMAIL ->
  let address := "jos" +:+ Text.utf8 0xE9 +:+ "@example.com" in
  exists r w',
    process_message R E (nbsp +:+ address +:+ em_space +:+ " ") w = (Returned r, w')
    /\ bot_response r = company_prompt
    /\ slot (self w') "email" = Some (VStr address)
    /\ phase_of (self w') = Some COLLECTING_COMPANY.
Proof.
  intros Htable Hp address.
  assert (Hstrip : Text.strip (nbsp +:+ address +:+ em_space +:+ " ") = address)
    by (vm_compute; reflexivity).
  assert (Hm : Re.fullmatch (email_pattern E) address = true).
  { apply email_pattern_spec.
    exists ["j"; "o"; "s"; Text.utf8 0xE9],
      ["e"; "x"; "a"; "m"; "p"; "l"; "e"], ["c"; "o"; "m"].
    split; [vm_compute; reflexivity|].
    split; [done|]. split.
    { cbn [forallb]. unfold addr_char at 4.
      change (Text.is_word (unicode_alnum E) (Text.utf8 233))
        with (unicode_alnum E (Text.utf8 233)).
      rewrite Htable. reflexivity. }
    split; [done|]. split; [reflexivity|]. split; [done|reflexivity]. }
  destruct (email_step R E w (nbsp +:+ address +:+ em_space +:+ " ") Hp)
    as (r & w' & Hcall & _ & _ & _ & _ & Hcase).
  rewrite Hstrip, Hm in Hcase. destruct Hcase as (Hr & Hdata & Hp').
  exists r, w'. split; [done|]. split; [done|]. split; [|done].
  unfold slot. rewrite Hdata. apply lookup_insert_eq.
Qed.

(** The fallback of the classifier: when the call raised, gave no JSON
    object or gave one that could not be decoded, the analysis is General
    Inquiry, 50, Medium and one of two fixed replies, and a message that
    reached the classifier leaves the session in AWAITING_EMAIL_CONFIRMATION
    with that department and confidence. *)
Lemma classifier_fallback (E : env) (w : world) (user_message : string) :
  phase_of (self w) = Some NORMAL ->
  conversation_add E User = true ->
  classifier_failed E ->
  exists answer o w',
    classified E !! "department" = Some (VStr "General Inquiry")
    /\ classified E !! "confidence" = Some (VInt 50)
    /\ classified E !! "importance" = Some (VStr "Medium")
    /\ classified E !! "user_response" = Some (VStr answer)
    /\ process_message R E user_message w = (o, w')
    /\ identified_department (self w') = VStr "General Inquiry"
    /\ department_confidence (self w') = VInt 50
    /\ phase_of (self w') = Some AWAITING_EMAIL_CONFIRMATION
    /\ chat_history (self w')
       = chat_history (self w)
         ++ exchange E user_message (answer +:+ email_offer (VStr "General Inquiry"))
    /\ (conversation_add E Assistant = true ->
          exists r, o = Returned r
                    /\ analysis_department r = VStr "General Inquiry"
                    /\ analysis_confidence r = VInt 50
                    /\ status r = "awaiting_confirmation").
Proof.
  intros Hp Hadd Hfail.
  assert (exists answer,
            classified E !! "department" = Some (VStr "General Inquiry")
            /\ classified E !! "confidence" = Some (VInt 50)
            /\ classified E !! "importance" = Some (VStr "Medium")
            /\ classified E !! "user_response" = Some (VStr answer))
    as (answer & Hd & Hc & Hi & Ha).
  { unfold classifier_failed, classified in *.
    destruct (classifier E); try done; eexists; repeat split; reflexivity. }
  assert (Hget : get_or (classified E) "user_response" (VStr "I'll help you with that.")
                 = VStr answer) by (unfold get_or; by rewrite Ha).
  destruct (normal_step R E w user_message _ _ _ Hp Hadd Hd Hc Hget)
    as (o & w' & Hcall & Hdept & Hconf & _ & _ & Hp' & Hh & Ho).
  exists answer, o, w'. repeat (split; [done|]).
  intros Hsave. destruct o as [r|e]; [|congruence].
  destruct Ho as (_ & _ & Hs & Hrd & Hrc & _). by exists r.
Qed.

(** The last step once the composer has produced the email: the dispatcher
    runs on it and the workflow is closed, whatever the dispatcher answers. *)
Lemma details_returns (E : env) (w : world) (user_message email_html : string)
    (w1 : world) :
  phase_of (self w) = Some COLLECTING_DETAILS ->
  generate_intelligent_email R E
    {| self := set_email_data
                 (<["additional_details" := VStr (additional_details_of E user_message)]>
                    (email_data (self w))) (self w);
       calls := calls w |} = (Returned email_html, w1) ->
  exists email_sent posts r w',
    send_email_to_department E email_html w1
    = (Returned email_sent, {| self := self w1; calls := calls w1 ++ posts |})
    /\ length posts <= 1
    /\ (email_sent = true <-> dispatch_ready E (self w1))
    /\ process_message R E user_message w = (Returned r, w')
    /\ status r = "email_complete"
    /\ reply_email_html r = Some email_html
    /\ reply_email_sent r = Some email_sent
    /\ bot_response r = completion_message email_sent (self w1)
    /\ email_data (self w') = email_data (self w1)
    /\ email_workflow_active (self w') = false
    /\ phase_of (self w') = Some NORMAL
    /\ calls w' = calls w1 ++ posts.
Proof.
  intros Hp Hgen.
  pose proof (details_step R E w user_message Hp) as Hstep. cbv zeta in Hstep.
  rewrite Hgen in Hstep.
  destruct Hstep as (sent & w2 & r & w' & Hsend & Hcall & Hs & _ & Hhtml & Hsent & Hmsg
                     & Hact & Hpend & Hdata & _ & Hcalls).
  destruct (send_cases E email_html w1) as (sent' & posts & Hsend' & Hlen & Hready).
  rewrite Hsend in Hsend'. injection Hsend' as <- ->.
  assert (Hpend0 : email_confirmation_pending (self w) = false).
  { unfold phase_of in Hp.
    destruct (email_workflow_active (self w)), (email_confirmation_pending (self w));
      by try discriminate Hp. }
  exists sent, posts, r, w'. simpl in *.
  repeat (split; [done|]).
  split; [unfold phase_of; by rewrite Hact, Hpend, Hpend0|done].
Qed.

Lemma completion_message_unsent (c : controller) :
  occurs_in "Email generated but could not be sent automatically"
    (completion_message false c).
Proof.
  unfold occurs_in, completion_message.
  exists (glyph_done +:+ " **Email Generated and Sent Successfully!**"
          +:+ Text.nl +:+ Text.nl +:+ glyph_warn +:+ " "),
    (" (SMTP not configured)." +:+ Text.nl +:+ Text.nl
     +:+ "The email has been prepared and will be sent to the **"
     +:+ py_str (identified_department c) +:+ "** department.").
  reflexivity.
Qed.

(** C7.  [send_email_to_department] returns a boolean and never raises: it
    answers [true] only when the API key is set, the department is a
    configured one and the POST is accepted, and [false] in every other case,
    a missing API key included.  When it answers [false] in the last step of
    the workflow, [process_message] still returns: the workflow is closed,
    the reply reports [email_sent] as false and its text says that the email
    was generated but could not be sent. *)
Theorem dispatch_failure_reported :
  (forall (E : env) (email_html : string) (w : world),
     exists sent posts,
       send_email_to_department E email_html w
       = (Returned sent, {| self := self w; calls := calls w ++ posts |})
       /\ length posts <= 1
       /\ (sent = true <-> dispatch_ready E (self w))
       /\ (getenv E "RESEND_API_KEY" = None -> sent = false)
       /\ (resend_post E <> PostOk -> sent = false))
  /\ (forall (E : env) (w : world) (user_message email_html : string) (w1 : world),
        phase_of (self w) = Some COLLECTING_DETAILS ->
        generate_intelligent_email R E
          {| self := set_email_data
                       (<["additional_details" := VStr (additional_details_of E user_message)]>
                          (email_data (self w))) (self w);
             calls := calls w |} = (Returned email_html, w1) ->
        ~ dispatch_ready E (self w1) ->
        exists r w',
          process_message R E user_message w = (Returned r, w')
          /\ status r = "email_complete"
          /\ reply_email_sent r = Some false
          /\ bot_response r = completion_message false (self w1)
          /\ occurs_in "Email generated but could not be sent automatically" (bot_response r)
          /\ email_workflow_active (self w') = false
          /\ phase_of (self w') = Some NORMAL).
Proof.
  split.
  - intros E email_html w.
    destruct (send_cases E email_html w) as (sent & posts & Hsend & Hlen & Hready).
    exists sent, posts. repeat (split; [done|]). split.
    + intros Hkey. destruct sent; [|done].
      destruct Hready as [Hready _]. destruct (Hready eq_refl) as [(key & Hk & _) _].
      congruence.
    + intros Hpost. destruct sent; [|done].
      destruct Hready as [Hready _]. destruct (Hready eq_refl) as (_ & _ & Hok). done.
  - intros E w user_message email_html w1 Hp Hgen Hnot.
    destruct (details_returns E w user_message email_html w1 Hp Hgen)
      as (sent & posts & r & w' & _ & _ & Hready & Hcall & Hs & _ & Hsent & Hmsg & _
          & Hact & Hp' & _).
    destruct sent; [destruct Hnot; by apply Hready|].
    exists r, w'. repeat (split; [done|]). split; [|done].
    rewrite Hmsg. apply completion_message_unsent.
Qed.

(** C9.  In the COLLECTING_NAME and COLLECTING_COMPANY phases every input is
    accepted: what is stored in the slot is the input without the whitespace
    around it, which is the empty text for an empty or whitespace-only
    input, and the workflow moves on.  So a run that answers both questions
    with whitespace (non-breaking and em spaces for the name, spaces for the
    company) reaches the composer with an empty name and an empty company,
    and the email is generated. *)
Theorem name_and_company_unvalidated (E : env) (w : world) (user_message : string) :
  trimmed user_message (Text.strip user_message)
  /\ (blank user_message -> Text.strip user_message = "")
  /\ (phase_of (self w) = Some COLLECTING_NAME ->
       exists r w',
         process_message R E user_message w = (Returned r, w')
         /\ slot (self w') "name" = Some (VStr (Text.strip user_message))
         /\ phase_of (self w') = Some COLLECTING_EMAIL)
  /\ (phase_of (self w) = Some COLLECTING_COMPANY ->
        exists r w',
          process_message R E user_message w = (Returned r, w')
          /\ slot (self w') "company" = Some (VStr (Text.strip user_message))
          /\ phase_of (self w') = Some COLLECTING_DETAILS)
  /\ (let before :=
        feed R [(quiet_env, nbsp +:+ em_space); (quiet_env, "a@b.co"); (quiet_env, "   ")]
          naming_world in
      let last := process_message R quiet_env "none" before in
      phase_of (self naming_world) = Some COLLECTING_NAME
      /\ slot (self before) "name" = Some (VStr "")
      /\ slot (self before) "company" = Some (VStr "")
      /\ calls last.2 !! 4
         = Some (Compose (VStr "Billing") (VStr "") (VStr "a@b.co") (VStr "")
                   "My invoice amount looks wrong" (VStr "") (VStr "High"))
      /\ (exists r, last.1 = Returned r /\ status r = "email_complete"
                    /\ is_Some (reply_email_html r))
      /\ phase_of (self last.2) = Some NORMAL).
Proof.
  split; [apply strip_trimmed|]. split; [apply strip_blank|]. split; [|split].
  - intros Hp.
    destruct (name_step R E w user_message Hp) as (r & w' & Hcall & _ & _ & Hdata & Hp' & _).
    exists r, w'. split; [done|]. split; [|done].
    unfold slot. rewrite Hdata. apply lookup_insert_eq.
  - intros Hp.
    destruct (company_step R E w user_message Hp)
      as (r & w' & Hcall & _ & _ & Hdata & Hp' & _).
    exists r, w'. split; [done|]. split; [|done].
    unfold slot. rewrite Hdata. apply lookup_insert_eq.
  - vm_compute. repeat split; eauto.
Qed.

(** ** The claims about the registry *)

Lemma reset_result (E : env) (w : world) :
  reset_conversation E w
  = (Returned tt,
     {| self :=
          {| chat_history := []; session_id := uuid4 E;
             identified_department := VNone; department_confidence := VInt 0;
             email_workflow_active := false; email_confirmation_pending := false;
             original_user_question := ""; bot_response_to_question := "";
             email_data := ∅; current_step := 0;
             departments := departments (self w) |};
        calls := calls w |}).
Proof. destruct w as [c cs]. reflexivity. Qed.

Lemma on_session_found {A} (sid : string) (method : M world A) (s : server)
    (c : controller) :
  chatbot_sessions s !! sid = Some c ->
  on_session sid method s
  = ((method {| self := c; calls := server_calls s |}).1,
     {| chatbot_sessions :=
          <[sid := self (method {| self := c; calls := server_calls s |}).2]>
            (chatbot_sessions s);
        server_calls := calls (method {| self := c; calls := server_calls s |}).2 |}).
Proof.
  intros Hc. unfold on_session. rewrite Hc.
  by destruct (method {| self := c; calls := server_calls s |}).
Qed.


Lemma given_some (sid : string) : sid <> "" -> given (Some sid) = Some sid.
Proof. by destruct sid. Qed.

Lemma get_chatbot_new (E : env) (sid key : string) (s : server) :
  chatbot_sessions s !! sid = None ->
  getenv E "GEMINI_API_KEY" = Some key -> key <> "" ->
  clients_connect E = true ->
  get_chatbot E sid s
  = (Returned tt,
     {| chatbot_sessions := <[sid := set_session_id sid (new_chatbot E)]> (chatbot_sessions s);
        server_calls := server_calls s |}).
Proof.
  intros Hnone Hkey Hne Hconn. unfold get_chatbot. monad_red.
  rewrite Hnone, Hkey, Hconn. by destruct key.
Qed.

(** [POST /api/chat] for an identifier that is no key yet: the message is
    processed by a controller built for it, and by no other. *)
Lemma chat_new_session (E : env) (sid key message : string) (s : server) :
  sid <> "" -> Text.strip message <> "" ->
  chatbot_sessions s !! sid = None ->
  getenv E "GEMINI_API_KEY" = Some key -> key <> "" ->
  clients_connect E = true ->
  exists answer,
    chat R E {| req_message := Some message; req_session_id := Some sid |} s
    = (Returned answer,
       {| chatbot_sessions :=
            <[sid := self (process_message R E (Text.strip message)
                             {| self := set_session_id sid (new_chatbot E);
                                calls := server_calls s |}).2]> (chatbot_sessions s);
          server_calls :=
            calls (process_message R E (Text.strip message)
                     {| self := set_session_id sid (new_chatbot E);
                        calls := server_calls s |}).2 |}).
Proof.
  intros Hsid Hmsg Hnone Hkey Hne Hconn. unfold chat, guarded.
  cbn [req_message req_session_id]. rewrite (given_some sid Hsid).
  cbn [from_option]. unfold id.
  destruct (String.eqb (Text.strip message) "") eqn:Hempty;
    [by apply String.eqb_eq in Hempty|].
  unfold try_except.
  erewrite bind_returned by (by eapply get_chatbot_new).
  destruct (process_message R E (Text.strip message)
              {| self := set_session_id sid (new_chatbot E); calls := server_calls s |})
    as [[r|e] w'] eqn:Hrun.
  - erewrite bind_returned; cycle 1.
    { erewrite on_session_found by apply lookup_insert_eq.
      cbn [chatbot_sessions server_calls]. rewrite Hrun. reflexivity. }
    erewrite bind_returned by reflexivity.
    cbn [chatbot_sessions snd]. rewrite lookup_insert_eq, insert_insert_eq.
    by eexists.
  - erewrite bind_raised; cycle 1.
    { erewrite on_session_found by apply lookup_insert_eq.
      cbn [chatbot_sessions server_calls]. rewrite Hrun. reflexivity. }
    cbn [snd]. rewrite insert_insert_eq. by eexists.
Qed.

(** C8.  After [POST /api/reset] for a registered identifier, the registry
    has the same keys as before: the old key still leads to the controller,
    now reset and carrying the new identifier, which is not its key, and the
    new identifier is no key.  [get_chatbot] for the new identifier therefore
    builds a controller of its own, with an empty turn log, and
    [POST /api/chat] with the new identifier runs on that controller and
    leaves the entry of the reset one as it was. *)
Theorem reset_keeps_old_key (E : env) (s : server) (data : request) (sid : string)
    (c : controller) :
  given (req_session_id data) = Some sid ->
  chatbot_sessions s !! sid = Some c ->
  chatbot_sessions s !! uuid4 E = None ->
  uuid4 E <> "" ->
  exists s' c',
    reset_endpoint E data s
    = (Returned {| status_code := 200; payload := ResetBody (uuid4 E) |}, s')
    /\ dom (chatbot_sessions s') = dom (chatbot_sessions s)
    /\ chatbot_sessions s' !! sid = Some c'
    /\ chat_history c' = []
    /\ phase_of c' = Some NORMAL
    /\ session_id c' = uuid4 E
    /\ session_id c' <> sid
    /\ chatbot_sessions s' !! uuid4 E = None
    /\ forall (E2 : env) (key message : string),
         getenv E2 "GEMINI_API_KEY" = Some key -> key <> "" ->
         clients_connect E2 = true ->
         Text.strip message <> "" ->
         let built := set_session_id (uuid4 E) (new_chatbot E2) in
         let ran :=
           process_message R E2 (Text.strip message)
             {| self := built; calls := server_calls s' |} in
         chat_history built = []
         /\ (exists s2,
               get_chatbot E2 (uuid4 E) s' = (Returned tt, s2)
               /\ chatbot_sessions s2 !! uuid4 E = Some built
               /\ chatbot_sessions s2 !! sid = Some c')
         /\ (exists answer s3,
               chat R E2 {| req_message := Some message;
                            req_session_id := Some (uuid4 E) |} s'
               = (Returned answer, s3)
               /\ chatbot_sessions s3 !! uuid4 E = Some (self ran.2)
               /\ chatbot_sessions s3 !! sid = Some c').
Proof.
  intros Hsid Hc Hnew Hne.
  assert (Hdiff : uuid4 E <> sid) by (intros Heq; congruence).
  pose (c' := self (reset_conversation E {| self := c; calls := server_calls s |}).2).
  pose (s' := {| chatbot_sessions := <[sid := c']> (chatbot_sessions s);
                 server_calls := server_calls s |}).
  assert (Hreset : reset_endpoint E data s
            = (Returned {| status_code := 200; payload := ResetBody (uuid4 E) |}, s')).
  { unfold reset_endpoint, guarded. rewrite Hsid. monad_red. rewrite Hc.
    rewrite (on_session_found sid (reset_conversation E) s c Hc).
    subst s' c'. rewrite reset_result. simpl. by rewrite lookup_insert_eq. }
  assert (Hold : chatbot_sessions s' !! sid = Some c') by apply lookup_insert_eq.
  assert (Hfree : chatbot_sessions s' !! uuid4 E = None)
    by (subst s'; simpl; by rewrite lookup_insert_ne).
  exists s', c'. split; [exact Hreset|].
  split; [apply dom_insert_lookup_L; by eexists|].
  split; [done|]. subst c'. rewrite reset_result in *. cbn [self snd] in *.
  split; [done|]. split; [done|]. split; [done|]. split; [done|]. split; [done|].
  intros E2 key message Hkey Hkne Hconn Hmsg. cbv zeta. split; [done|]. split.
  - eexists. split; [by eapply get_chatbot_new|]. cbn [chatbot_sessions].
    split; [apply lookup_insert_eq|]. by rewrite lookup_insert_ne.
  - destruct (chat_new_session E2 (uuid4 E) key message s' Hne Hmsg Hfree Hkey Hkne Hconn)
      as [answer Hchat].
    eexists _, _. split; [exact Hchat|]. cbn [chatbot_sessions].
    split; [apply lookup_insert_eq|]. by rewrite lookup_insert_ne.
Qed.

(** C10.  [POST /api/history] for an identifier that is given and is no key
    of the registry answers with status 200, an empty history, no department
    and no session identifier, and leaves the registry as it was. *)
Theorem history_of_unknown_session (s : server) (data : request) (sid : string) :
  given (req_session_id data) = Some sid ->
  chatbot_sessions s !! sid = None ->
  get_history data s
  = (Returned {| status_code := 200; payload := HistoryBody [] VNone VNone |}, s).
Proof.
  intros Hsid Hnone. unfold get_history, guarded. rewrite Hsid. monad_red.
  by rewrite Hnone.
Qed.

End Claims.

(** ** The model on concrete sessions *)

(** C3.  The classifier answers with the JSON object [{}]: [json.loads]
    succeeds, no fallback is substituted, and [analysis["department"]] raises
    a [KeyError] that leaves [process_message]; the user turn is already in
    the log, no department is stored and the session stays in NORMAL.  With
    a department and no confidence the [KeyError] comes one statement later,
    after the department has been assigned. *)
Theorem classifier_object_without_fields :
  let bare := with_classifier (LlmObject ∅) quiet_env in
  let ran := process_message text_renderer bare "hello" fresh_world in
  let half :=
    with_classifier (LlmObject {[ "department" := VStr "Billing" ]}) quiet_env in
  let ran' := process_message text_renderer half "hello" fresh_world in
  ran.1 = Raised (KeyError (VStr "department"))
  /\ map turn_role (chat_history (self ran.2)) = [User]
  /\ identified_department (self ran.2) = VNone
  /\ phase_of (self ran.2) = Some NORMAL
  /\ ran'.1 = Raised (KeyError (VStr "confidence"))
  /\ identified_department (self ran'.2) = VStr "Billing"
  /\ department_confidence (self ran'.2) = VInt 0
  /\ phase_of (self ran'.2) = Some NORMAL.
Proof. vm_compute. repeat split. Qed.

(** C4.  The conversation store refuses the user turn of a first message:
    [save_to_chroma] raises after the turn has been appended, the exception
    leaves [process_message], and the log holds one turn.  The next message
    is processed in full, and after this one completed exchange the log
    holds three turns: user, user, assistant. *)
Theorem user_turn_without_answer :
  let refusing := with_conversation_add (fun _ => false) quiet_env in
  let first := process_message text_renderer refusing "hello" fresh_world in
  let second := process_message text_renderer quiet_env "hello again" first.2 in
  first.1 = Raised (ServiceError "chromadb")
  /\ map turn_role (chat_history (self first.2)) = [User]
  /\ phase_of (self first.2) = Some NORMAL
  /\ (exists r, second.1 = Returned r /\ status r = "awaiting_confirmation")
  /\ map turn_role (chat_history (self second.2)) = [User; User; Assistant].
Proof.
  vm_compute. split; [reflexivity|]. split; [reflexivity|]. split; [reflexivity|].
  split; [|reflexivity]. eexists. split; reflexivity.
Qed.

Lemma confirmation_transition_witness :
  phase_of (self awaiting_world) = Some AWAITING_EMAIL_CONFIRMATION
  /\ phase_of (self (process_message text_renderer quiet_env "Sure!" awaiting_world).2)
     = Some COLLECTING_NAME
  /\ phase_of (self (process_message text_renderer quiet_env "no thanks" awaiting_world).2)
     = Some NORMAL.
Proof.
  split; [reflexivity|]. split.
  - destruct (confirmation_transition text_renderer quiet_env awaiting_world "Sure!" eq_refl)
      as (r & w' & Hcall & _ & Hyes & _).
    rewrite Hcall. apply Hyes. exists "sure".
    split; [apply list_elem_of_In; vm_compute; tauto|].
    exists "", "!". reflexivity.
  - destruct (confirmation_transition text_renderer quiet_env awaiting_world "no thanks"
                eq_refl) as (r & w' & Hcall & _ & _ & Hno & _).
    rewrite Hcall. apply Hno. rewrite <- affirmative_spec. by vm_compute.
Defined.

(** The message "no, I am broke" is no affirmative answer as the
    specification words it: lowered, it is none of the seven words, and
    none of its words (no, i, am, broke) is one of them.  The code finds
    "ok" inside "broke": the session moves to COLLECTING_NAME and the reply
    is the prompt for the name. *)
Lemma confirmation_inside_a_word :
  let ran := process_message text_renderer quiet_env "no, I am broke" awaiting_world in
  spec_affirmative quiet_env "no, I am broke" = false
  /\ message_words (Text.lower (unicode_lower quiet_env) "no, I am broke")
     = ["no"; "i"; "am"; "broke"]
  /\ phase_of (self awaiting_world) = Some AWAITING_EMAIL_CONFIRMATION
  /\ phase_of (self ran.2) = Some COLLECTING_NAME
  /\ (exists r, ran.1 = Returned r /\ status r = "workflow_started"
                /\ bot_response r = name_prompt).
Proof.
  vm_compute. do 4 (split; [reflexivity|]). eexists. by repeat split.
Qed.

Lemma email_validation_witness :
  phase_of (self emailing_world) = Some COLLECTING_EMAIL
  /\ phase_of (self (feed text_renderer
                       [(quiet_env, "not-an-email"); (quiet_env, "")] emailing_world))
     = Some COLLECTING_EMAIL
  /\ slot (self (process_message text_renderer quiet_env (nbsp +:+ "a@b.co" +:+ em_space)
                   emailing_world).2) "email"
     = Some (VStr "a@b.co").
Proof.
  destruct (email_validation text_renderer quiet_env emailing_world
              (nbsp +:+ "a@b.co" +:+ em_space) eq_refl)
    as (_ & Hgo & Hstay).
  split; [reflexivity|]. split.
  - apply Hstay. constructor; [|constructor; [|constructor]].
    + cbn [fst snd]. rewrite <- email_pattern_spec. by vm_compute.
    + cbn [fst snd]. rewrite <- email_pattern_spec. by vm_compute.
  - destruct Hgo as (r & w' & Hcall & _ & _ & _ & Hslot & _).
    { apply email_pattern_spec. by vm_compute. }
    rewrite Hcall. exact Hslot.
Defined.

(** C5.  The composer answers with a JSON object whose first paragraph is
    null, in the COLLECTING_DETAILS phase: the answer "none" is stored as
    the empty text and the composer is called, then [None.strip()] raises
    outside the [try] of [generate_intelligent_email].  The exception leaves
    [process_message]: the dispatcher is not run, no turn is logged, and the
    session stays in COLLECTING_DETAILS with the workflow active.  With a
    composer that gives no JSON object the same message ends the workflow
    in NORMAL, whether the POST is accepted or raises. *)
Theorem composer_null_paragraph :
  let E := with_composer (LlmObject {[ "paragraph1" := VNone ]}) quiet_env in
  let ran := process_message text_renderer E "none" details_world in
  let sent := process_message text_renderer quiet_env "none" details_world in
  let unsent :=
    process_message text_renderer (with_resend_post PostRaises quiet_env) "none"
      details_world in
  phase_of (self details_world) = Some COLLECTING_DETAILS
  /\ ran.1 = Raised AttributeError
  /\ phase_of (self ran.2) = Some COLLECTING_DETAILS
  /\ email_workflow_active (self ran.2) = true
  /\ slot (self ran.2) "additional_details" = Some (VStr "")
  /\ chat_history (self ran.2) = chat_history (self details_world)
  /\ calls ran.2 = calls details_world ++ [compose_call (self (stored_world "none"))]
  /\ phase_of (self sent.2) = Some NORMAL
  /\ phase_of (self unsent.2) = Some NORMAL
  /\ length (calls sent.2) = length (calls details_world) + 2
  /\ length (calls unsent.2) = length (calls details_world) + 2.
Proof. vm_compute. repeat split. Qed.


Lemma dispatch_failure_reported_witness :
  phase_of (self details_world) = Some COLLECTING_DETAILS
  /\ exists r,
       (process_message text_renderer keyless_env "none" details_world).1 = Returned r
       /\ reply_email_sent r = Some false
       /\ status r = "email_complete".
Proof.
  assert (Hgen : generate_intelligent_email text_renderer keyless_env (stored_world "none")
                 = (Returned (composed_preview keyless_env "none"),
                    (generate_intelligent_email text_renderer keyless_env
                       (stored_world "none")).2))
    by (vm_compute; reflexivity).
  assert (Hnot : ~ dispatch_ready keyless_env
                     (self (generate_intelligent_email text_renderer keyless_env
                              (stored_world "none")).2)).
  { intros [(key & Hkey & _) _]. vm_compute in Hkey. discriminate Hkey. }
  destruct (dispatch_failure_reported text_renderer) as [_ Hstep].
  destruct (Hstep keyless_env details_world "none" _ _ eq_refl Hgen Hnot)
    as (r & w' & Hcall & Hs & Hsent & _).
  split; [reflexivity|]. exists r. rewrite Hcall. by repeat split.
Defined.

Lemma reset_keeps_old_key_witness :
  let E := with_uuid4 second_id quiet_env in
  let data := {| req_message := None;
                 req_session_id := Some (session_id (self awaiting_world)) |} in
  chatbot_sessions one_session !! session_id (self awaiting_world)
  = Some (self awaiting_world)
  /\ chatbot_sessions one_session !! second_id = None
  /\ exists c',
       chatbot_sessions (reset_endpoint E data one_session).2
         !! session_id (self awaiting_world) = Some c'
       /\ session_id c' = second_id
       /\ chatbot_sessions (reset_endpoint E data one_session).2 !! second_id = None.
Proof.
  intros E data.
  assert (Hold : chatbot_sessions one_session !! session_id (self awaiting_world)
                 = Some (self awaiting_world)) by (vm_compute; reflexivity).
  assert (Hnew : chatbot_sessions one_session !! uuid4 E = None)
    by (vm_compute; reflexivity).
  assert (Hne : uuid4 E <> "") by (vm_compute; discriminate).
  destruct (reset_keeps_old_key text_renderer E one_session data
              (session_id (self awaiting_world)) (self awaiting_world)
              eq_refl Hold Hnew Hne)
    as (s' & c' & Hcall & _ & Hc' & _ & _ & Hid & _ & Hfree & _).
  split; [exact Hold|]. split; [exact Hnew|].
  exists c'. rewrite Hcall. split; [exact Hc'|]. split; [exact Hid|exact Hfree].
Defined.

Lemma name_and_company_unvalidated_witness :
  phase_of (self naming_world) = Some COLLECTING_NAME
  /\ exists w',
       (process_message text_renderer quiet_env (nbsp +:+ em_space) naming_world).2 = w'
       /\ slot (self w') "name" = Some (VStr "")
       /\ phase_of (self w') = Some COLLECTING_EMAIL.
Proof.
  destruct (name_and_company_unvalidated text_renderer quiet_env naming_world
              (nbsp +:+ em_space))
    as (_ & _ & Hname & _).
  destruct (Hname eq_refl) as (r & w' & Hcall & Hslot & Hp).
  split; [reflexivity|]. exists w'. rewrite Hcall. split; [reflexivity|].
  split; [exact Hslot|exact Hp].
Defined.

Lemma history_of_unknown_session_witness :
  chatbot_sessions one_session !! "no-such-session" = None
  /\ get_history {| req_message := None; req_session_id := Some "no-such-session" |}
       one_session
     = (Returned {| status_code := 200; payload := HistoryBody [] VNone VNone |},
        one_session).
Proof.
  assert (Hnone : chatbot_sessions one_session !! "no-such-session" = None)
    by (vm_compute; reflexivity).
  split; [exact Hnone|].
  exact (history_of_unknown_session one_session
           {| req_message := None; req_session_id := Some "no-such-session" |}
           "no-such-session" eq_refl Hnone).
Defined.

(** * Further properties of the controller, the registry and the helpers *)

Ltac grows := repeat apply prefix_app_r; reflexivity.

Section SessionFacts.

Variable R : renderer.

(** Whatever [process_message] does, and whether it returns or raises, it
    leaves the session identifier and the department table alone, and it only
    appends: at most two turns to the log, and remote calls to the trace. *)
Lemma process_message_frame (E : env) (w : world) (user_message : string) :
  let w' := (process_message R E user_message w).2 in
  session_id (self w') = session_id (self w)
  /\ departments (self w') = departments (self w)
  /\ chat_history (self w) `prefix_of` chat_history (self w')
  /\ length (chat_history (self w')) <= length (chat_history (self w)) + 2
  /\ calls w `prefix_of` calls w'.
Proof.
  destruct w as [[h sid dept conf act pend q b data step depts] cs].
  assert (Hdone : forall (h' : list turn) (cs' : list call),
            h `prefix_of` h' -> length h' <= length h + 2 -> cs `prefix_of` cs' ->
            sid = sid /\ depts = depts /\ h `prefix_of` h'
            /\ length h' <= length h + 2 /\ cs `prefix_of` cs') by done.
  cbv zeta. destruct act.
  - destruct step as [|[|[|[|step]]]];
      unfold process_message, process_workflow_step; monad_red; simpl.
    + apply Hdone; [grows| rewrite ?length_app; simpl; lia | grows].
    + destruct (Re.search_anchored (email_pattern E) (Text.strip user_message)); simpl;
        (apply Hdone; [grows| rewrite ?length_app; simpl; lia | grows]).
    + apply Hdone; [grows| rewrite ?length_app; simpl; lia | grows].
    + match goal with
      | |- context [generate_intelligent_email R E ?w0] =>
          destruct (generate_cases R E w0) as [[e He]|(subject & de & up & He)]; rewrite He
      end; simpl.
      { apply Hdone; [grows| rewrite ?length_app; simpl; lia | grows]. }
      match goal with
      | |- context [send_email_to_department E ?html ?w1] =>
          destruct (send_cases E html w1) as (sent & posts & Hsend & _ & _); rewrite Hsend
      end.
      simpl. apply Hdone; [grows| rewrite ?length_app; simpl; lia | grows].
    + apply Hdone; [grows| rewrite ?length_app; simpl; lia | grows].
  - destruct pend; unfold process_message.
    + monad_red. simpl. destruct (affirmative E user_message); simpl;
        (apply Hdone; [grows| rewrite ?length_app; simpl; lia | grows]).
    + unfold save_to_chroma, getitem, py_add_str. monad_red. simpl.
      match goal with
      | |- context [search_knowledge_base E user_message ?w0] =>
          destruct (search_result E user_message w0) as (docs & Hsearch & _)
      end.
      simpl in Hsearch. rewrite Hsearch. simpl.
      destruct (conversation_add E User); simpl;
        [|apply Hdone; [grows| rewrite ?length_app; simpl; lia | grows]].
      rewrite analyze_result. simpl.
      destruct (classified E !! "department") as [department|]; simpl;
        [|apply Hdone; [grows| rewrite ?length_app; simpl; lia | grows]].
      destruct (classified E !! "confidence") as [confidence|]; simpl;
        [|apply Hdone; [grows| rewrite ?length_app; simpl; lia | grows]].
      destruct (get_or (classified E) "user_response" _) as [| | |answer|]; simpl;
        try (apply Hdone; [grows| rewrite ?length_app; simpl; lia | grows]).
      destruct (conversation_add E Assistant); simpl;
        (apply Hdone; [grows| rewrite ?length_app; simpl; lia | grows]).
Qed.

(** X1.  A run of calls of [process_message] that all return appends to the
    turn log, for each call in order, the user's message and then the text
    of the reply that very call returned, and nothing else. *)
Theorem exchanges_logged (inputs : list (env * string)) (w : world) :
  completes R inputs w ->
  exists replies : list reply,
    run_returns R inputs w replies
    /\ length replies = length inputs
    /\ chat_history (self (feed R inputs w))
       = chat_history (self w)
         ++ concat (zip_with (fun input r => exchange input.1 input.2 (bot_response r))
                      inputs replies).
Proof.
  revert w. induction inputs as [|[E user_message] rest IH]; intros w; simpl.
  - intros _. exists []. by rewrite app_nil_r.
  - intros [[r Hr] Hrest].
    destruct (process_message R E user_message w) as [o w'] eqn:Hcall.
    simpl in *. subst o. destruct (IH w' Hrest) as (replies & Hrun & Hlen & Hh).
    exists (r :: replies). cbn [run_returns fst snd].
    split; [done|]. split; [simpl; by rewrite Hlen|].
    rewrite Hh, (returned_exchange R E w user_message r w' Hcall). simpl.
    by rewrite <- app_assoc.
Qed.

(** X2.  Whatever a run of calls of [process_message] does, and whether
    the calls return or raise, the session identifier and the department
    table stay as they were, the turn log and the trace of remote calls only
    grow, and the log grows by at most two turns per call. *)
Theorem session_only_appends (inputs : list (env * string)) (w : world) :
  session_id (self (feed R inputs w)) = session_id (self w)
  /\ departments (self (feed R inputs w)) = departments (self w)
  /\ chat_history (self w) `prefix_of` chat_history (self (feed R inputs w))
  /\ length (chat_history (self (feed R inputs w)))
     <= length (chat_history (self w)) + 2 * length inputs
  /\ calls w `prefix_of` calls (feed R inputs w).
Proof.
  revert w. induction inputs as [|[E user_message] rest IH]; intros w; simpl.
  - repeat split; try done. lia.
  - destruct (process_message_frame E w user_message) as (Hs & Hd & Hh & Hl & Hc).
    destruct (IH (process_message R E user_message w).2) as (Hs' & Hd' & Hh' & Hl' & Hc').
    split; [congruence|]. split; [congruence|]. split; [by etrans|].
    split; [lia|by etrans].
Qed.

Lemma perform_phase (steps : list action) (w : world) :
  is_Some (phase_of (self w)) -> is_Some (phase_of (self (perform R steps w))).
Proof.
  revert w. induction steps as [|[E user_message|E] rest IH]; intros w Hw;
    cbn [perform].
  - done.
  - apply IH. by apply phase_kept.
  - apply IH. rewrite reset_result. by eexists.
Qed.

(** X3.  A session that starts from a new controller and goes through any
    messages and resets, with any answers of the services, is always in one
    of the six phases: the two flags are never both set, and inside the
    workflow the step counter stays within the four steps, so the lookup in
    the list of workflow steps never fails. *)
Theorem session_always_in_a_phase (E : env) (sid : string) (steps : list action) :
  let c := self (perform R steps {| self := set_session_id sid (new_chatbot E);
                                    calls := [] |}) in
  is_Some (phase_of c)
  /\ email_workflow_active c && email_confirmation_pending c = false
  /\ (email_workflow_active c = true -> current_step c <= 3).
Proof.
  intros c.
  assert (Hc : is_Some (phase_of c)).
  { apply perform_phase. simpl. by eexists. }
  split; [done|]. destruct Hc as [p Hp]. unfold phase_of in Hp.
  destruct (email_workflow_active c), (email_confirmation_pending c); try done.
  split; [done|]. intros _.
  destruct (current_step c) as [|[|[|[|n]]]]; try done; lia.
Qed.

(** *** The composer, case by case *)

Lemma paragraph_cases (parts : gmap string pyval) (key : string) (w : world) :
  paragraph parts key w
  = (match get_or parts key (VStr "") with
     | VStr s =>
         Returned (if String.eqb (Text.strip s) "" then []
                   else [VStr (Text.strip s); VStr ""])
     | _ => Raised AttributeError
     end, w).
Proof. unfold paragraph, py_strip. by destruct (get_or parts key (VStr "")). Qed.

Lemma join_lines_cases (lines : list pyval) (w : world) :
  py_join_lines lines w
  = (if forallb textual lines then Returned (map py_str lines) else Raised TypeError, w).
Proof.
  induction lines as [|v lines IH]; [done|].
  destruct v; try done. cbn [py_join_lines]. unfold bind. rewrite IH. simpl.
  by destruct (forallb textual lines).
Qed.

(** The signature lines are built without an exception unless the company
    slot holds a value that is true and no string. *)
Lemma signature_cases (E : env) (parts : gmap string pyval) (c : controller)
    (w : world) :
  (exists lines, signature E parts c w = (Returned lines, w)
                 /\ forall v, v ∈ lines ->
                      parts !! "signature_name" = Some v
                      \/ parts !! "signature_contact" = Some v
                      \/ v = get_or (email_data c) "name" (VStr "User")
                      \/ email_data c !! "company" = Some v)
  \/ (signature E parts c w = (Raised AttributeError, w)
      /\ parts !! "signature_name" = None
      /\ exists v, email_data c !! "company" = Some v /\ textual v = false).
Proof.
  unfold signature, getitem, py_lower, get_opt, get_or.
  destruct (parts !! "signature_name") as [signature_name|] eqn:Hname.
  { left. eexists. split; [reflexivity|]. intros v Hv.
    apply elem_of_cons in Hv as [->|Hv]; [by left|].
    destruct (parts !! "signature_contact") as [contact|]; [|by apply elem_of_nil in Hv].
    apply list_elem_of_singleton in Hv as ->. right. by left. }
  destruct (email_data c !! "company") as [company|] eqn:Hcompany; simpl.
  2: { left. eexists. split; [reflexivity|]. intros v Hv.
       apply list_elem_of_singleton in Hv as ->. right. right. by left. }
  destruct (truthy company) eqn:Htruth.
  2: { left. eexists. split; [reflexivity|]. intros v Hv.
       apply list_elem_of_singleton in Hv as ->. right. right. by left. }
  monad_red.
  destruct company as [| | |text|];
    try (right; split; [reflexivity|]; split; [reflexivity|]; eexists; split; reflexivity).
  left. eexists. split; [reflexivity|]. intros v Hv.
  destruct (String.eqb (Text.lower (unicode_lower E) text) "individual").
  - apply list_elem_of_singleton in Hv as ->. right. right. by left.
  - apply elem_of_cons in Hv as [->|Hv]; [right; right; by left|].
    apply list_elem_of_singleton in Hv as ->. by repeat right.
Qed.

Lemma compose_parts (E : env) (w : world) :
  try_except
    (run emit (compose_call (self w));
     match composer E with
     | LlmRaises err => raise (ServiceError err)
     | LlmNoObject => ret (fallback_email_parts (self w))
     | LlmBadJson err => raise (ValueError err)
     | LlmObject d => ret d
     end)
    (fun _ => ret (fallback_email_parts (self w))) w
  = (Returned (composer_parts E (self w)),
     {| self := self w; calls := calls w ++ [compose_call (self w)] |}).
Proof. destruct w as [c cs]. unfold composer_parts. by destruct (composer E). Qed.

Lemma fallback_parts_textual (c : controller) (key : string) (v : pyval) :
  fallback_email_parts c !! key = Some v -> textual v = true.
Proof.
  unfold fallback_email_parts. intros Hv. apply elem_of_list_to_map_2 in Hv.
  repeat (apply elem_of_cons in Hv as [[= _ ->]|Hv]; [done|]).
  by apply elem_of_nil in Hv.
Qed.

Lemma get_or_textual (parts : gmap string pyval) (key text : string) :
  (forall v, parts !! key = Some v -> textual v = true) ->
  textual (get_or parts key (VStr text)) = true.
Proof. unfold get_or. intros Hv. destruct (parts !! key); [by apply Hv|done]. Qed.

(** A lookup in a dict built by item assignments under literal keys. *)
Ltac look :=
  repeat first [rewrite lookup_insert_eq | rewrite lookup_insert_ne by discriminate].

(** Membership in a list that is written out. *)
Ltac listed := apply list_elem_of_In; vm_compute; tauto.

(** Open [generate_intelligent_email] up to its first paragraph. *)
Ltac enter_generate E w :=
  unfold generate_intelligent_email;
  rewrite (bind_returned this _ (self w) w w) by reflexivity;
  erewrite bind_returned by apply (compose_parts E w).

(** The exceptions that can leave [generate_intelligent_email]. *)
Lemma generate_raises (E : env) (w : world) (e : exn) (w' : world) :
  generate_intelligent_email R E w = (Raised e, w') ->
  e = AttributeError \/ e = TypeError.
Proof.
  enter_generate E w. unfold bind.
  rewrite paragraph_cases.
  destruct (get_or _ "paragraph1" _); try (intros [= <- _]; by left).
  rewrite paragraph_cases.
  destruct (get_or _ "paragraph2" _); try (intros [= <- _]; by left).
  rewrite paragraph_cases.
  destruct (get_or _ "paragraph3" _); try (intros [= <- _]; by left).
  match goal with
  | |- context [signature E ?parts ?c ?w0] =>
      destruct (signature_cases E parts c w0) as [(lines & -> & _)|(-> & _)]
  end; [|intros [= <- _]; by left].
  rewrite join_lines_cases.
  match goal with |- context [forallb textual ?l] => destruct (forallb textual l) end.
  - monad_red. done.
  - intros [= <- _]. by right.
Qed.

Lemma composer_parts_textual (E : env) (c : controller) (key : string) (v : pyval) :
  reply_textual E -> key ∈ body_keys ->
  composer_parts E c !! key = Some v -> textual v = true.
Proof.
  unfold reply_textual, composer_parts. intros Hreply Hkey.
  destruct (composer E); try apply fallback_parts_textual. by apply Hreply.
Qed.

(** The composer returns whenever the lines it is given are text. *)
Lemma generate_returns (E : env) (w : world) :
  reply_textual E -> slots_textual (self w) ->
  exists preview w', generate_intelligent_email R E w = (Returned preview, w').
Proof.
  intros Hreply Hslots.
  assert (Hkey : forall key text, key ∈ body_keys ->
            textual (get_or (composer_parts E (self w)) key (VStr text)) = true).
  { intros key text Hin. apply get_or_textual. intros v.
    by apply composer_parts_textual. }
  enter_generate E w. unfold bind.
  rewrite paragraph_cases.
  pose proof (Hkey "paragraph1" "" ltac:(listed)) as H1.
  destruct (get_or _ "paragraph1" _) as [| | |s1|]; try discriminate H1.
  rewrite paragraph_cases.
  pose proof (Hkey "paragraph2" "" ltac:(listed)) as H2.
  destruct (get_or _ "paragraph2" _) as [| | |s2|]; try discriminate H2.
  rewrite paragraph_cases.
  pose proof (Hkey "paragraph3" "" ltac:(listed)) as H3.
  destruct (get_or _ "paragraph3" _) as [| | |s3|]; try discriminate H3.
  match goal with
  | |- context [signature E ?parts ?c ?w0] =>
      destruct (signature_cases E parts c w0)
        as [(lines & -> & Hlines)|(_ & _ & v & Hv & Hno)]
  end.
  2: { rewrite (Hslots "company" v) in Hno; [done|listed|done]. }
  rewrite join_lines_cases.
  match goal with
  | |- context [forallb textual ?l] => assert (Hall : forallb textual l = true)
  end.
  { rewrite !forallb_app. cbn [forallb].
    rewrite (Hkey "greeting" _ ltac:(listed)), (Hkey "closing" _ ltac:(listed)).
    assert (Hsig : forallb textual lines = true).
    { apply forallb_forall. intros v Hv. apply list_elem_of_In in Hv.
      destruct (Hlines v Hv) as [Hn|[Hn|[->|Hn]]].
      - by apply (composer_parts_textual E (self w) "signature_name"); [|listed|].
      - by apply (composer_parts_textual E (self w) "signature_contact"); [|listed|].
      - apply get_or_textual. intros v. apply Hslots. listed.
      - apply (Hslots "company"); [listed|done]. }
    rewrite Hsig.
    by destruct (String.eqb (Text.strip s1) ""), (String.eqb (Text.strip s2) ""),
         (String.eqb (Text.strip s3) ""). }
  rewrite Hall. monad_red. by eexists _, _.
Qed.

(** A paragraph of the composer's reply that is no string stops the composer
    with an [AttributeError]. *)
Lemma generate_paragraph_error (E : env) (w : world) (d : gmap string pyval)
    (key : string) (v : pyval) :
  composer E = LlmObject d ->
  key ∈ ["paragraph1"; "paragraph2"; "paragraph3"] ->
  d !! key = Some v -> textual v = false ->
  (generate_intelligent_email R E w).1 = Raised AttributeError.
Proof.
  intros Hd Hkey Hv Hno.
  assert (Hget : get_or (composer_parts E (self w)) key (VStr "") = v).
  { unfold composer_parts, get_or. by rewrite Hd, Hv. }
  enter_generate E w. unfold bind.
  rewrite paragraph_cases.
  destruct (get_or _ "paragraph1" _) as [| | |s1|] eqn:H1; try done.
  rewrite paragraph_cases.
  destruct (get_or _ "paragraph2" _) as [| | |s2|] eqn:H2; try done.
  rewrite paragraph_cases.
  destruct (get_or _ "paragraph3" _) as [| | |s3|] eqn:H3; try done.
  exfalso.
  apply elem_of_cons in Hkey as [->|Hkey]; [by rewrite <- Hget, H1 in Hno|].
  apply elem_of_cons in Hkey as [->|Hkey]; [by rewrite <- Hget, H2 in Hno|].
  apply list_elem_of_singleton in Hkey as ->. by rewrite <- Hget, H3 in Hno.
Qed.

(** The subject the composer stores is the one of the reply, or the default. *)
Lemma generate_subject (E : env) (w : world) (preview : string) (w' : world) :
  generate_intelligent_email R E w = (Returned preview, w') ->
  email_data (self w') !! "subject"
  = Some (get_or (composer_parts E (self w)) "subject" (VStr "New Inquiry")).
Proof.
  enter_generate E w. unfold bind.
  rewrite paragraph_cases.
  destruct (get_or _ "paragraph1" _); try (intros Hno; discriminate Hno).
  rewrite paragraph_cases.
  destruct (get_or _ "paragraph2" _); try (intros Hno; discriminate Hno).
  rewrite paragraph_cases.
  destruct (get_or _ "paragraph3" _); try (intros Hno; discriminate Hno).
  match goal with
  | |- context [signature E ?parts ?c ?w0] =>
      destruct (signature_cases E parts c w0) as [(lines & -> & _)|(-> & _)]
  end; [|intros Hno; discriminate Hno].
  rewrite join_lines_cases.
  match goal with |- context [forallb textual ?l] => destruct (forallb textual l) end;
    [|intros Hno; discriminate Hno].
  monad_red. intros [= _ <-]. cbn [self email_data set_email_data].
  apply lookup_insert_eq.
Qed.

(** *** The dispatcher's request *)

(** The dispatcher posts exactly when the API key is set and the identified
    department has an entry in the table, and then to that entry, with the
    stored subject and department email and the collected address as
    reply-to. *)
Lemma send_payload (E : env) (email_html : string) (w : world) :
  exists sent posts,
    send_email_to_department E email_html w
    = (Returned sent, {| self := self w; calls := calls w ++ posts |})
    /\ ((posts = [] /\ sent = false
         /\ forall name address, ~ dispatch_configured E (self w) name address)
        \/ (exists name address,
              dispatch_configured E (self w) name address
              /\ posts = [dispatch_call (self w) name address email_html]
              /\ (sent = true <-> resend_post E = PostOk))).
Proof.
  destruct w as [c cs].
  unfold send_email_to_department, getitem, dispatch_configured, dispatch_call.
  monad_red. simpl.
  destruct (getenv E "RESEND_API_KEY") as [[|k0 key]|] eqn:Hkey; simpl.
  1,3: exists false, []; rewrite app_nil_r; split; [done|]; left;
    split; [done|]; split; [done|]; intros name address ((key' & Hk & Hne) & _);
    congruence.
  destruct (identified_department c) as [| | |name|] eqn:Hdept; simpl.
  1-3,5: exists false, []; rewrite app_nil_r; split; [done|]; left;
    split; [done|]; split; [done|]; intros name' address (_ & Hn & _); congruence.
  destruct (departments c !! name) as [address|] eqn:Haddr; simpl.
  2: { exists false, []. rewrite app_nil_r. split; [done|]. left.
       split; [done|]. split; [done|]. intros name' address (_ & Hn & Ha). congruence. }
  destruct (resend_post E) eqn:Hpost; simpl; eexists _, [_];
    (split; [reflexivity|]); right; exists name, address;
    (split; [split; [by exists (String k0 key)|done]|]); (split; [done|]); split; done.
Qed.

(** The last step of the workflow, in full: either the composer stops with
    an exception, after its call and with the answer stored, or the email is
    composed, the dispatcher has run and the workflow is closed. *)
Lemma details_outcome (E : env) (w : world) (user_message : string) :
  phase_of (self w) = Some COLLECTING_DETAILS ->
  let stored := with_details E user_message w in
  let called := calls w ++ [compose_call (self stored)] in
  (exists e,
     (e = AttributeError \/ e = TypeError)
     /\ generate_intelligent_email R E stored
        = (Raised e, {| self := self stored; calls := called |})
     /\ process_message R E user_message w
        = (Raised e, {| self := self stored; calls := called |}))
  \/ (exists subject department_email user_preview sent posts r w',
        let done := composed subject department_email user_preview (self stored) in
        generate_intelligent_email R E stored
        = (Returned user_preview, {| self := done; calls := called |})
        /\ ((posts = [] /\ sent = false
             /\ forall name address, ~ dispatch_configured E done name address)
            \/ (exists name address,
                  dispatch_configured E done name address
                  /\ posts = [dispatch_call done name address user_preview]
                  /\ (sent = true <-> resend_post E = PostOk)))
        /\ process_message R E user_message w = (Returned r, w')
        /\ status r = "email_complete"
        /\ reply_email_html r = Some user_preview
        /\ reply_email_sent r = Some sent
        /\ bot_response r = completion_message sent done
        /\ email_data (self w') = email_data done
        /\ phase_of (self w') = Some NORMAL
        /\ calls w' = called ++ posts).
Proof.
  intros Hp stored called.
  destruct (generate_cases R E stored) as [[e He]|(subject & de & up & He)].
  - left. exists e. split; [by eapply generate_raises|]. split; [exact He|].
    pose proof (details_step R E w user_message Hp) as Hstep. cbv zeta in Hstep.
    fold (with_details E user_message w) in Hstep. fold stored in Hstep.
    by rewrite He in Hstep.
  - right.
    destruct (details_returns R E w user_message up _ Hp He)
      as (sent & posts & r & w' & Hsend & _ & _ & Hcall & Hs & Hhtml & Hsent & Hmsg
          & Hdata & _ & Hp' & Hcalls).
    destruct (send_payload E up {| self := composed subject de up (self stored);
                                   calls := called |})
      as (sent' & posts' & Hsend' & Hshape).
    pose proof (eq_trans (eq_sym Hsend) Hsend') as Heq. injection Heq as <- Heq.
    apply app_inv_head in Heq as <-.
    exists subject, de, up, sent, posts, r, w'. cbv zeta.
    split; [done|]. split; [exact Hshape|]. by repeat (split; [done|]).
Qed.

(** X26.  The department table is fixed when the controller is built and
    has the six departments as its keys.  When the classifier has named a
    department that is none of the six, the dispatcher posts nothing and
    answers [false], whatever the environment holds. *)
Theorem unlisted_department_not_posted (E0 E : env) (email_html name : string)
    (w : world) :
  departments (self w) = departments (new_chatbot E0) ->
  identified_department (self w) = VStr name ->
  name ∉ department_variables.*1 ->
  send_email_to_department E email_html w = (Returned false, w).
Proof.
  intros Hdepts Hname Hnot.
  destruct (send_payload E email_html w)
    as (sent & posts & Hsend & [(-> & -> & _)|(n & a & (_ & Hn & Ha) & _)]).
  - rewrite Hsend, app_nil_r. by destruct w.
  - exfalso. rewrite Hname in Hn. injection Hn as <-. rewrite Hdepts in Ha.
    apply elem_of_list_to_map_2, list_elem_of_fmap in Ha as ([k variable] & [= -> _] & Hin).
    apply Hnot, list_elem_of_fmap. by exists (k, variable).
Qed.

(** *** An ordinary message, in full *)

(** What [process_message] does in NORMAL, by what the conversation store
    and the classifier answer. *)
Lemma normal_outcome (E : env) (w : world) (user_message : string) :
  phase_of (self w) = Some NORMAL ->
  let logged := chat_history (self w) ++ [user_turn E user_message] in
  let asked := [KnowledgeQuery user_message; ConversationAdd User user_message] in
  let classify :=
    Classify user_message (conversation_context logged) (knowledge_context E) in
  let ran := process_message R E user_message w in
  if conversation_add E User then
    match classified E !! "department" with
    | None =>
        ran = (Raised (KeyError (VStr "department")),
               {| self := set_chat_history logged (self w);
                  calls := calls w ++ asked ++ [classify] |})
    | Some department =>
        match classified E !! "confidence" with
        | None =>
            ran = (Raised (KeyError (VStr "confidence")),
                   {| self := set_identified_department department
                                (set_chat_history logged (self w));
                      calls := calls w ++ asked ++ [classify] |})
        | Some confidence =>
            let assigned :=
              set_email_data
                (<["importance" := get_or (classified E) "importance" (VStr "Medium")]>
                   (email_data (self w)))
                (set_original_user_question user_message
                   (set_department_confidence confidence
                      (set_identified_department department
                         (set_chat_history logged (self w))))) in
            match get_or (classified E) "user_response"
                    (VStr "I'll help you with that.") with
            | VStr answer =>
                let full_response := answer +:+ email_offer department in
                let offered :=
                  set_chat_history
                    (logged ++ [{| turn_role := Assistant; content := full_response;
                                   timestamp := now_iso E Assistant |}])
                    (set_email_confirmation_pending true
                       (set_bot_response_to_question answer assigned)) in
                let saved :=
                  {| self := offered;
                     calls := calls w ++ asked
                              ++ [classify; ConversationAdd Assistant full_response] |} in
                if conversation_add E Assistant then
                  exists r, ran = (Returned r, saved)
                            /\ bot_response r = full_response
                            /\ status r = "awaiting_confirmation"
                            /\ analysis_department r = department
                            /\ analysis_confidence r = confidence
                else ran = (Raised (ServiceError "chromadb"), saved)
            | _ =>
                ran = (Raised TypeError,
                       {| self := assigned; calls := calls w ++ asked ++ [classify] |})
            end
        end
    end
  else
    ran = (Raised (ServiceError "chromadb"),
           {| self := set_chat_history logged (self w); calls := calls w ++ asked |}).
Proof.
  intros Hp. open_world w. cbv zeta.
  unfold process_message, save_to_chroma, getitem, py_add_str, conversation_context,
    user_turn.
  monad_red. simpl.
  match goal with
  | |- context [search_knowledge_base E user_message ?w0] =>
      destruct (search_result E user_message w0) as (docs & Hsearch & Hknown)
  end.
  simpl in Hsearch. rewrite Hsearch. simpl. rewrite Hknown.
  destruct (conversation_add E User); simpl; [|by rewrite <- !app_assoc].
  rewrite analyze_result. simpl.
  destruct (classified E !! "department") as [department|]; simpl;
    [|by rewrite <- !app_assoc].
  destruct (classified E !! "confidence") as [confidence|]; simpl;
    [|by rewrite <- !app_assoc].
  destruct (get_or (classified E) "user_response" _) as [| | |answer|]; simpl;
    try by rewrite <- !app_assoc.
  destruct (conversation_add E Assistant); simpl; rewrite <- !app_assoc; simpl;
    [by eexists|done].
Qed.

(** X4.  Outside NORMAL no message reaches the knowledge store, the
    conversation store or the classifier.  An answer to the offer and the
    first three answers of the workflow make no remote call at all.  The
    last answer makes exactly one call to the composer, with the answer
    already stored, and after it nothing or one POST of the dispatcher, and
    nothing when [process_message] raises. *)
Theorem workflow_turns_stay_local (E : env) (w : world) (user_message : string)
    (p : phase) :
  phase_of (self w) = Some p -> p <> NORMAL ->
  let ran := process_message R E user_message w in
  (p <> COLLECTING_DETAILS -> calls ran.2 = calls w)
  /\ (p = COLLECTING_DETAILS ->
      exists posts,
        calls ran.2
        = calls w ++ compose_call (self (with_details E user_message w)) :: posts
        /\ (posts = []
            \/ exists recipient subject html reply_to,
                 posts = [ResendPost recipient subject html reply_to])
        /\ ((exists e, ran.1 = Raised e) -> posts = [])).
Proof.
  intros Hp Hnormal ran. subst ran.
  destruct p; try done; (split; [intros Hne|intros Hd; try discriminate Hd]).
  - destruct (affirmative E user_message) eqn:Ha.
    + destruct (confirm_yes R E w user_message Hp Ha)
        as (r & w' & Hcall & _ & _ & _ & _ & _ & _ & _ & _ & Hcalls).
      by rewrite Hcall.
    + destruct (confirm_no R E w user_message Hp Ha)
        as (r & w' & Hcall & _ & _ & _ & _ & _ & _ & _ & _ & _ & Hcalls).
      by rewrite Hcall.
  - destruct (name_step R E w user_message Hp)
      as (r & w' & Hcall & _ & _ & _ & _ & _ & _ & Hcalls).
    by rewrite Hcall.
  - destruct (email_step R E w user_message Hp) as (r & w' & Hcall & _ & _ & _ & Hcalls & _).
    by rewrite Hcall.
  - destruct (company_step R E w user_message Hp)
      as (r & w' & Hcall & _ & _ & _ & _ & _ & _ & Hcalls).
    by rewrite Hcall.
  - by destruct Hne.
  - destruct (details_outcome E w user_message Hp)
      as [(e & _ & _ & ->)
         |(subject & de & up & sent & posts & r & w' & _ & Hshape & -> & _ & _ & _ & _
           & _ & _ & Hcalls)].
    + exists []. split; [reflexivity|]. split; [by left|done].
    + exists posts. cbn [fst snd]. rewrite Hcalls, <- app_assoc. split; [done|].
      split; [|by intros [e He]].
      destruct Hshape as [(-> & _)|(name & address & _ & -> & _)]; [by left|].
      right. unfold dispatch_call. by eexists _, _, _, _.
Qed.

(** X5.  The exceptions that leave [process_message], by phase.  From
    AWAITING_EMAIL_CONFIRMATION, COLLECTING_NAME, COLLECTING_EMAIL and
    COLLECTING_COMPANY the call always returns.  From NORMAL it can raise the
    error of the conversation store, a [KeyError] for the key department or
    confidence, or a [TypeError]; from COLLECTING_DETAILS an
    [AttributeError] or a [TypeError], with the turn log as it was.  An
    [IndexError] from the list of workflow steps never leaves it. *)
Theorem escaping_exceptions (E : env) (w : world) (user_message : string)
    (p : phase) (e : exn) (w' : world) :
  phase_of (self w) = Some p ->
  process_message R E user_message w = (Raised e, w') ->
  (p = NORMAL
   /\ e ∈ [ServiceError "chromadb"; KeyError (VStr "department");
           KeyError (VStr "confidence"); TypeError])
  \/ (p = COLLECTING_DETAILS
      /\ e ∈ [AttributeError; TypeError]
      /\ chat_history (self w') = chat_history (self w)).
Proof.
  intros Hp Hcall. destruct p.
  - left. split; [done|].
    pose proof (normal_outcome E w user_message Hp) as Hrun. cbv zeta in Hrun.
    rewrite Hcall in Hrun.
    destruct (conversation_add E User); [|injection Hrun as -> _; listed].
    destruct (classified E !! "department"); [|injection Hrun as -> _; listed].
    destruct (classified E !! "confidence"); [|injection Hrun as -> _; listed].
    destruct (get_or (classified E) "user_response" _);
      try (injection Hrun as -> _; listed).
    destruct (conversation_add E Assistant); [|injection Hrun as -> _; listed].
    by destruct Hrun as (r & Hr & _).
  - destruct (affirmative E user_message) eqn:Ha.
    + destruct (confirm_yes R E w user_message Hp Ha) as (r & w2 & Hr & _). congruence.
    + destruct (confirm_no R E w user_message Hp Ha) as (r & w2 & Hr & _). congruence.
  - destruct (name_step R E w user_message Hp) as (r & w2 & Hr & _). congruence.
  - destruct (email_step R E w user_message Hp) as (r & w2 & Hr & _). congruence.
  - destruct (company_step R E w user_message Hp) as (r & w2 & Hr & _). congruence.
  - right. split; [done|].
    destruct (details_outcome E w user_message Hp)
      as [(e' & He & _ & Hr)|(subject & de & up & sent & posts & r & w2 & _ & _ & Hr & _)];
      [|congruence].
    rewrite Hcall in Hr. injection Hr as -> ->.
    split; [destruct He as [->| ->]; listed|]. by destruct w as [[]].
Qed.

Lemma normal_flags (c : controller) :
  phase_of c = Some NORMAL ->
  email_workflow_active c = false /\ email_confirmation_pending c = false.
Proof.
  unfold phase_of. destruct (email_workflow_active c), (email_confirmation_pending c);
    try done.
  by destruct (current_step c) as [|[|[|[|n]]]].
Qed.

(** X6.  How an ordinary message fails, for every classifier reply.  When
    the conversation store refuses the user's turn, the call raises with
    that turn already logged.  When the decoded reply lacks the key
    department, a [KeyError] leaves the call with nothing assigned; when it
    lacks confidence, the department is already assigned; when the
    user_response is no string, a [TypeError] leaves it with department,
    confidence and question assigned.  In all these cases one turn has been
    logged and the session is still in NORMAL.  When only the assistant's
    turn is refused by the store, the call raises although both turns are
    logged and the session is in AWAITING_EMAIL_CONFIRMATION. *)
Theorem ordinary_message_escapes (E : env) (w : world) (user_message : string) :
  phase_of (self w) = Some NORMAL ->
  let ran := process_message R E user_message w in
  let logged := chat_history (self w) ++ [user_turn E user_message] in
  (conversation_add E User = false ->
     ran.1 = Raised (ServiceError "chromadb")
     /\ chat_history (self ran.2) = logged
     /\ phase_of (self ran.2) = Some NORMAL
     /\ calls ran.2
        = calls w ++ [KnowledgeQuery user_message; ConversationAdd User user_message])
  /\ (conversation_add E User = true ->
      (classified E !! "department" = None ->
         ran.1 = Raised (KeyError (VStr "department"))
         /\ chat_history (self ran.2) = logged
         /\ identified_department (self ran.2) = identified_department (self w)
         /\ phase_of (self ran.2) = Some NORMAL)
      /\ (forall department,
            classified E !! "department" = Some department ->
            classified E !! "confidence" = None ->
            ran.1 = Raised (KeyError (VStr "confidence"))
            /\ chat_history (self ran.2) = logged
            /\ identified_department (self ran.2) = department
            /\ department_confidence (self ran.2) = department_confidence (self w)
            /\ phase_of (self ran.2) = Some NORMAL)
      /\ (forall department confidence,
            classified E !! "department" = Some department ->
            classified E !! "confidence" = Some confidence ->
            textual (get_or (classified E) "user_response"
                       (VStr "I'll help you with that.")) = false ->
            ran.1 = Raised TypeError
            /\ chat_history (self ran.2) = logged
            /\ identified_department (self ran.2) = department
            /\ department_confidence (self ran.2) = confidence
            /\ original_user_question (self ran.2) = user_message
            /\ phase_of (self ran.2) = Some NORMAL)
      /\ (forall department confidence answer,
            classified E !! "department" = Some department ->
            classified E !! "confidence" = Some confidence ->
            get_or (classified E) "user_response" (VStr "I'll help you with that.")
            = VStr answer ->
            conversation_add E Assistant = false ->
            ran.1 = Raised (ServiceError "chromadb")
            /\ map turn_role (chat_history (self ran.2))
               = map turn_role (chat_history (self w)) ++ [User; Assistant]
            /\ phase_of (self ran.2) = Some AWAITING_EMAIL_CONFIRMATION)).
Proof.
  intros Hp ran logged.
  pose proof (normal_outcome E w user_message Hp) as Hrun. cbv zeta in Hrun.
  fold ran in Hrun. fold logged in Hrun.
  destruct (normal_flags _ Hp) as [Hact Hpend].
  assert (Hphase : forall c, email_workflow_active c = false ->
            email_confirmation_pending c = false -> phase_of c = Some NORMAL).
  { intros c Ha Hb. unfold phase_of. by rewrite Ha, Hb. }
  split.
  - intros Hadd. rewrite Hadd in Hrun. rewrite Hrun. by repeat split; auto.
  - intros Hadd. rewrite Hadd in Hrun. split; [|split; [|split]].
    + intros Hd. rewrite Hd in Hrun. rewrite Hrun. by repeat split; auto.
    + intros department Hd Hc. rewrite Hd, Hc in Hrun. rewrite Hrun.
      by repeat split; auto.
    + intros department confidence Hd Hc Hno. rewrite Hd, Hc in Hrun.
      destruct (get_or (classified E) "user_response" _); try discriminate Hno;
        rewrite Hrun; by repeat split; auto.
    + intros department confidence answer Hd Hc Ha Hsave.
      rewrite Hd, Hc, Ha, Hsave in Hrun. rewrite Hrun. cbn [fst snd self].
      split; [done|]. split.
      * cbn. subst logged. rewrite !map_app. by rewrite <- app_assoc.
      * unfold phase_of. cbn. by rewrite Hact.
Qed.

(** X7.  The remote calls of an ordinary message that returns, in order:
    the knowledge query, the user's turn to the conversation store, the
    classifier, and the reply to the conversation store.  The classifier is
    given the knowledge lines and a context of at most five turns that ends
    with the message being processed. *)
Theorem ordinary_message_calls (E : env) (w : world) (user_message : string)
    (r : reply) (w' : world) :
  phase_of (self w) = Some NORMAL ->
  process_message R E user_message w = (Returned r, w') ->
  let logged := chat_history (self w) ++ [user_turn E user_message] in
  calls w'
  = calls w ++ [KnowledgeQuery user_message;
                ConversationAdd User user_message;
                Classify user_message (conversation_context logged) (knowledge_context E);
                ConversationAdd Assistant (bot_response r)]
  /\ length (last5 logged) <= 5
  /\ last (last5 logged) = Some (user_turn E user_message).
Proof.
  intros Hp Hcall logged.
  pose proof (normal_outcome E w user_message Hp) as Hrun. cbv zeta in Hrun.
  rewrite Hcall in Hrun. fold logged in Hrun. split.
  - destruct (conversation_add E User); [|done].
    destruct (classified E !! "department"); [|done].
    destruct (classified E !! "confidence"); [|done].
    destruct (get_or (classified E) "user_response" _); try done.
    destruct (conversation_add E Assistant); [|done].
    destruct Hrun as (r' & [= -> ->] & Hr & _). cbn [calls]. by rewrite Hr.
  - unfold last5. rewrite length_drop. split; [lia|].
    subst logged. rewrite length_app. cbn [length].
    rewrite drop_app_le by lia. by rewrite last_snoc.
Qed.

(** X25.  When the classifier gives no dict (the call raises, the reply
    holds no JSON object, or the object cannot be decoded) and the
    conversation store takes both turns, an ordinary message is answered all
    the same: the department is General Inquiry with confidence 50 and
    importance Medium, the reply is one of the two fixed fallback texts
    followed by the offer, and the session is in
    AWAITING_EMAIL_CONFIRMATION. *)
Theorem classifier_failure_falls_back (E : env) (w : world) (user_message : string) :
  phase_of (self w) = Some NORMAL ->
  conversation_add E User = true ->
  conversation_add E Assistant = true ->
  classifier_failed E ->
  exists r w' answer,
    process_message R E user_message w = (Returned r, w')
    /\ status r = "awaiting_confirmation"
    /\ analysis_department r = VStr "General Inquiry"
    /\ analysis_confidence r = VInt 50
    /\ identified_department (self w') = VStr "General Inquiry"
    /\ department_confidence (self w') = VInt 50
    /\ slot (self w') "importance" = Some (VStr "Medium")
    /\ bot_response r = answer +:+ email_offer (VStr "General Inquiry")
    /\ answer
       = match classifier E with
         | LlmNoObject =>
             "I'll help you with your inquiry. Let me route this to the appropriate team."
         | _ => "Thank you for your message. I'll make sure the right team looks into this."
         end
    /\ phase_of (self w') = Some AWAITING_EMAIL_CONFIRMATION.
Proof.
  intros Hp Huser Hsaved Hfail.
  pose proof (normal_outcome E w user_message Hp) as Hrun. cbv zeta in Hrun.
  rewrite Huser in Hrun.
  destruct (normal_flags _ Hp) as [Hact Hpend].
  unfold classifier_failed, classified in *.
  destruct (classifier E) as [err| |err|d] eqn:Hc; [| | |done];
    cbn in Hrun; rewrite Hsaved in Hrun; destruct Hrun as (r & Hrun & Hr & Hs & Hd & Hconf);
    exists r; eexists _, _; (split; [exact Hrun|]); cbn [self];
    (split; [exact Hs|]); (split; [exact Hd|]); (split; [exact Hconf|]);
    (split; [reflexivity|]); (split; [reflexivity|]);
    (split; [unfold slot; cbn; apply lookup_insert_eq|]);
    (split; [exact Hr|]); (split; [reflexivity|]);
    unfold phase_of; cbn; by rewrite Hact.
Qed.

(** X8.  When the composer's JSON object holds a paragraph that is no
    string (a number, a list, null), the last step of the workflow raises an
    [AttributeError] after the composer has been called: the answer is
    stored, the session stays in COLLECTING_DETAILS, nothing is posted and
    no turn is logged. *)
Theorem composer_non_text_escapes (E : env) (w : world) (user_message : string)
    (d : gmap string pyval) (key : string) (v : pyval) :
  phase_of (self w) = Some COLLECTING_DETAILS ->
  composer E = LlmObject d ->
  key ∈ ["paragraph1"; "paragraph2"; "paragraph3"] ->
  d !! key = Some v -> textual v = false ->
  let ran := process_message R E user_message w in
  ran.1 = Raised AttributeError
  /\ phase_of (self ran.2) = Some COLLECTING_DETAILS
  /\ slot (self ran.2) "additional_details"
     = Some (VStr (additional_details_of E user_message))
  /\ chat_history (self ran.2) = chat_history (self w)
  /\ calls ran.2 = calls w ++ [compose_call (self (with_details E user_message w))].
Proof.
  intros Hp Hd Hkey Hv Hno ran.
  pose proof (generate_paragraph_error E (with_details E user_message w) d key v
                Hd Hkey Hv Hno) as Herr.
  destruct (details_outcome E w user_message Hp)
    as [(e & _ & Hgen & Hrun)
       |(subject & de & up & sent & posts & r & w' & Hgen & _)];
    rewrite Hgen in Herr; [|discriminate Herr].
  injection Herr as ->. subst ran. rewrite Hrun. cbn [fst snd self calls].
  split; [done|]. split; [by destruct w as [[]]|].
  split; [unfold slot; apply lookup_insert_eq|]. split; [by destruct w as [[]]|done].
Qed.

(** The last step returns whenever the lines of the email are text. *)
Lemma details_completes (E : env) (w : world) (user_message : string) :
  phase_of (self w) = Some COLLECTING_DETAILS ->
  reply_textual E -> slots_textual (self w) ->
  let stored := with_details E user_message w in
  let called := calls w ++ [compose_call (self stored)] in
  exists subject department_email user_preview sent posts r w',
    let done := composed subject department_email user_preview (self stored) in
    generate_intelligent_email R E stored
    = (Returned user_preview, {| self := done; calls := called |})
    /\ ((posts = [] /\ sent = false
         /\ forall name address, ~ dispatch_configured E done name address)
        \/ (exists name address,
              dispatch_configured E done name address
              /\ posts = [dispatch_call done name address user_preview]
              /\ (sent = true <-> resend_post E = PostOk)))
    /\ process_message R E user_message w = (Returned r, w')
    /\ status r = "email_complete"
    /\ reply_email_html r = Some user_preview
    /\ reply_email_sent r = Some sent
    /\ bot_response r = completion_message sent done
    /\ email_data (self w') = email_data done
    /\ phase_of (self w') = Some NORMAL
    /\ calls w' = called ++ posts.
Proof.
  intros Hp Hreply Hslots stored called.
  assert (Hstored : slots_textual (self stored)).
  { intros key v Hkey Hv. apply (Hslots key v Hkey).
    destruct w as [[]]. cbn in Hv.
    rewrite lookup_insert_ne in Hv; [done|].
    intros <-. apply list_elem_of_In in Hkey. vm_compute in Hkey.
    by destruct Hkey as [|[|]]. }
  destruct (generate_returns E _ Hreply Hstored) as (preview & w1 & Hret).
  destruct (details_outcome E w user_message Hp) as [(e & _ & Hgen & _)|Hdone];
    [|exact Hdone].
  fold stored in Hgen. rewrite Hgen in Hret. discriminate Hret.
Qed.

(** X9.  The last step of the workflow always completes when the lines of
    the email are text: the composer gave no JSON object (the fallback text
    is used) or an object whose body lines are strings, and the name and
    company slots hold strings.  Then [process_message] returns with status
    email_complete and the preview, the session is in NORMAL, and the
    subject, the department email and the preview are stored. *)
Theorem composed_whenever_textual (E : env) (w : world) (user_message : string) :
  phase_of (self w) = Some COLLECTING_DETAILS ->
  reply_textual E -> slots_textual (self w) ->
  exists r w' user_preview,
    process_message R E user_message w = (Returned r, w')
    /\ status r = "email_complete"
    /\ reply_email_html r = Some user_preview
    /\ slot (self w') "user_preview" = Some (VStr user_preview)
    /\ is_Some (slot (self w') "department_email")
    /\ slot (self w') "subject"
       = Some (get_or (composer_parts E (self (with_details E user_message w)))
                 "subject" (VStr "New Inquiry"))
    /\ phase_of (self w') = Some NORMAL.
Proof.
  intros Hp Hreply Hslots.
  destruct (details_completes E w user_message Hp Hreply Hslots)
    as (subject & de & up & sent & posts & r & w' & Hgen & _ & Hcall & Hs & Hhtml & _ & _
        & Hdata & Hp' & _).
  exists r, w', up. unfold slot. rewrite Hdata. cbn [composed email_data set_email_data].
  split; [done|]. split; [done|]. split; [done|].
  split; [by look|]. split; [by look|].
  split; [|done].
  apply (generate_subject E _ _ _) in Hgen. cbn [self composed set_email_data email_data] in Hgen.
  exact Hgen.
Qed.

(** X10.  What the dispatcher posts at the end of a workflow whose API key
    and department are configured: one request, after the composer's call,
    to the address of the identified department, with the subject and the
    department email the composer has just stored (not the preview that the
    reply carries) and the collected email address as reply-to.  The reply
    reports the email as sent exactly when the POST was accepted. *)
Theorem dispatch_payload (E : env) (w : world) (user_message name : string)
    (address : pyval) (r : reply) (w' : world) :
  phase_of (self w) = Some COLLECTING_DETAILS ->
  dispatch_configured E (self w) name address ->
  process_message R E user_message w = (Returned r, w') ->
  exists subject department_email user_preview,
    slot (self w') "subject" = Some subject
    /\ slot (self w') "department_email" = Some (VStr department_email)
    /\ slot (self w') "user_preview" = Some (VStr user_preview)
    /\ reply_email_html r = Some user_preview
    /\ calls w'
       = calls w ++ [compose_call (self (with_details E user_message w));
                     ResendPost address subject (VStr department_email)
                       (get_opt (email_data (self w)) "email")]
    /\ (reply_email_sent r = Some true <-> resend_post E = PostOk).
Proof.
  intros Hp (Hkey & Hname & Haddress) Hcall.
  destruct (details_outcome E w user_message Hp)
    as [(e & _ & _ & Hrun)
       |(subject & de & up & sent & posts & r' & w2 & _ & Hshape & Hrun & _ & Hhtml
         & Hsent & _ & Hdata & _ & Hcalls)];
    rewrite Hcall in Hrun; [discriminate Hrun|].
  injection Hrun as <- <-.
  exists subject, de, up. unfold slot. rewrite Hdata, Hcalls, Hsent.
  cbn [composed email_data set_email_data].
  split; [by look|]. split; [by look|].
  split; [by look|]. split; [done|].
  destruct Hshape as [(_ & _ & Hno)|(name' & address' & (_ & Hname' & Haddress') & -> & Hok)].
  { destruct (Hno name address). split; [done|]. by destruct w as [[]]. }
  assert (name' = name) as -> by (destruct w as [[]]; cbn in *; congruence).
  assert (address' = address) as -> by (destruct w as [[]]; cbn in *; congruence).
  split.
  - rewrite <- app_assoc. cbn [app]. do 3 f_equal.
    unfold dispatch_call, get_opt, get_or.
    cbn [composed self with_details email_data set_email_data].
    by look.
  - rewrite <- Hok. split; [by intros [= ->]|by intros ->].
Qed.

(** X11.  An outage of the knowledge store is invisible: when the query
    raises, [process_message] does in every state exactly what it does when
    the query finds nothing, and the classifier is told that no entries were
    found. *)
Theorem knowledge_outage_is_silent (E : env) (w : world) (user_message : string) :
  process_message R (with_knowledge_base KbRaises E) user_message w
  = process_message R (with_knowledge_base (KbDocs []) E) user_message w
  /\ knowledge_context (with_knowledge_base KbRaises E)
     = "No relevant knowledge base entries found.".
Proof. split; reflexivity. Qed.

(** *** The shape of an accepted address *)

(** X12.  In the COLLECTING_EMAIL phase an input is turned down whenever its
    stripped text holds a character that is no word character (a letter or
    digit of any script, or the underscore), dot, hyphen or [@] (a plus
    sign or an inner space, say), or does not hold exactly one [@]: the
    reply is the reprompt and the phase and the collected data stay as they
    were. *)
Theorem email_rejects_foreign_characters (E : env) (w : world) (user_message : string) :
  phase_of (self w) = Some COLLECTING_EMAIL ->
  forallb (fun ch => addr_char E ch || String.eqb ch "@")
    (Text.chars (Text.strip user_message)) = false
  \/ count_char "@" (Text.strip user_message) <> 1 ->
  exists r w',
    process_message R E user_message w = (Returned r, w')
    /\ bot_response r = email_reprompt
    /\ phase_of (self w') = Some COLLECTING_EMAIL
    /\ email_data (self w') = email_data (self w)
    /\ calls w' = calls w.
Proof.
  intros Hp Hbad.
  assert (Hno : Re.fullmatch (email_pattern E) (Text.strip user_message) = false).
  { destruct (Re.fullmatch (email_pattern E) (Text.strip user_message)) eqn:Hm; [|done].
    apply email_pattern_spec, email_shaped_chars in Hm as [Hchars Hcount].
    unfold count_char in Hbad. destruct Hbad as [Hbad|Hbad]; congruence. }
  destruct (email_step R E w user_message Hp) as (r & w' & Hcall & _ & _ & _ & Hcalls & Hm).
  rewrite Hno in Hm. destruct Hm as (Hr & Hdata & Hp').
  by exists r, w'.
Qed.

(** *** The workflow from the offer to the email *)

Lemma confirm_yes_keeps (E : env) (w : world) (user_message : string) :
  phase_of (self w) = Some AWAITING_EMAIL_CONFIRMATION ->
  affirmative E user_message = true ->
  same_session (self w) (self (process_message R E user_message w).2).
Proof.
  intros Hp Ha. open_world w. unfold process_message, same_session. monad_red. simpl.
  rewrite Ha. by simpl.
Qed.

(** X13.  The whole workflow.  From AWAITING_EMAIL_CONFIRMATION, an
    affirmative answer followed by a name, an address of the accepted shape,
    a company and the details is five calls that all return, whenever the
    composer's lines are text; it ends in NORMAL with ten turns logged and
    the four slots holding the stripped answers.  The only remote calls are
    one to the composer, carrying the department, the question and the four
    collected values, and at most one POST. *)
Theorem workflow_end_to_end (E1 E2 E3 E4 E5 : env) (w : world)
    (yes name email company details : string) :
  phase_of (self w) = Some AWAITING_EMAIL_CONFIRMATION ->
  holds_affirmative_word E1 yes ->
  email_shaped E3 (Text.strip email) ->
  reply_textual E5 ->
  let inputs := [(E1, yes); (E2, name); (E3, email); (E4, company); (E5, details)] in
  let w' := feed R inputs w in
  completes R inputs w
  /\ trimmed name (Text.strip name)
  /\ trimmed email (Text.strip email)
  /\ trimmed company (Text.strip company)
  /\ (Text.lower (unicode_lower E5) details ∈ ["none"; "n/a"; "no"] ->
      additional_details_of E5 details = "")
  /\ (Text.lower (unicode_lower E5) details ∉ ["none"; "n/a"; "no"] ->
      additional_details_of E5 details = Text.strip details
      /\ trimmed details (Text.strip details))
  /\ phase_of (self w') = Some NORMAL
  /\ slot (self w') "name" = Some (VStr (Text.strip name))
  /\ slot (self w') "email" = Some (VStr (Text.strip email))
  /\ slot (self w') "company" = Some (VStr (Text.strip company))
  /\ slot (self w') "additional_details" = Some (VStr (additional_details_of E5 details))
  /\ length (chat_history (self w')) = length (chat_history (self w)) + 10
  /\ exists posts,
       length posts <= 1
       /\ calls w'
          = calls w
            ++ Compose (identified_department (self w))
                 (VStr (Text.strip name)) (VStr (Text.strip email))
                 (VStr (Text.strip company)) (original_user_question (self w))
                 (VStr (additional_details_of E5 details))
                 (get_or (email_data (self w)) "importance" (VStr "Medium"))
               :: posts.
Proof.
  intros Hp Hyes Hshape Hreply inputs w'.
  apply affirmative_spec in Hyes. apply email_pattern_spec in Hshape.
  pose proof (confirm_yes_keeps E1 w yes Hp Hyes) as Hsame0.
  destruct (confirm_yes R E1 w yes Hp Hyes)
    as (r0 & w0 & Hcall0 & _ & _ & _ & Hact0 & Hpend0 & Hstep0 & Hdata0 & Hh0 & Hcalls0).
  rewrite Hcall0 in Hsame0. cbn [snd] in Hsame0.
  assert (Hp0 : phase_of (self w0) = Some COLLECTING_NAME).
  { unfold phase_of. by rewrite Hact0, Hpend0, Hstep0. }
  destruct (name_step R E2 w0 name Hp0)
    as (r1 & w1 & Hcall1 & _ & _ & Hdata1 & Hp1 & Hh1 & Hsame1 & Hcalls1).
  destruct (email_step R E3 w1 email Hp1)
    as (r2 & w2 & Hcall2 & _ & Hh2 & Hsame2 & Hcalls2 & Hm).
  rewrite Hshape in Hm. destruct Hm as (_ & Hdata2 & Hp2).
  destruct (company_step R E4 w2 company Hp2)
    as (r3 & w3 & Hcall3 & _ & _ & Hdata3 & Hp3 & Hh3 & Hsame3 & Hcalls3).
  assert (Hslots : slots_textual (self w3)).
  { intros key v Hkey. rewrite Hdata3, Hdata2, Hdata1.
    apply elem_of_cons in Hkey as [->|Hkey];
      [|apply list_elem_of_singleton in Hkey as ->]; look; by intros [= <-]. }
  destruct (details_completes E5 w3 details Hp3 Hreply Hslots)
    as (subject & de & up & sent & posts & r4 & w4 & _ & Hposts & Hcall4 & _ & _ & _ & _
        & Hdata4 & Hp4 & Hcalls4).
  assert (Hfeed : w' = w4).
  { subst w' inputs. cbn [feed]. rewrite Hcall0. cbn [snd]. rewrite Hcall1. cbn [snd].
    rewrite Hcall2. cbn [snd]. rewrite Hcall3. cbn [snd]. by rewrite Hcall4. }
  assert (Hlen : length posts <= 1).
  { destruct Hposts as [(-> & _)|(n & a & _ & -> & _)]; simpl; lia. }
  split.
  { subst inputs. cbn [completes].
    rewrite Hcall0. cbn [fst snd]. rewrite Hcall1. cbn [fst snd].
    rewrite Hcall2. cbn [fst snd]. rewrite Hcall3. cbn [fst snd]. rewrite Hcall4.
    cbn [fst snd]. repeat split; eauto. }
  split; [apply strip_trimmed|]. split; [apply strip_trimmed|].
  split; [apply strip_trimmed|].
  split; [intros Hin; unfold additional_details_of; by rewrite bool_decide_eq_true_2|].
  split.
  { intros Hin. unfold additional_details_of. rewrite bool_decide_eq_false_2 by done.
    split; [done|apply strip_trimmed]. }
  rewrite Hfeed. split; [done|]. unfold slot. rewrite Hdata4.
  cbn [composed with_details self email_data set_email_data].
  rewrite Hdata3, Hdata2, Hdata1, Hdata0.
  split; [by look|]. split; [by look|].
  split; [by look|]. split; [by look|].
  split.
  { rewrite (returned_exchange R E5 w3 details r4 w4 Hcall4), Hh3, Hh2, Hh1, Hh0.
    rewrite !length_app. simpl. lia. }
  exists posts. split; [done|].
  rewrite Hcalls4, Hcalls3, Hcalls2, Hcalls1, Hcalls0, <- app_assoc. cbn [app].
  do 2 f_equal. unfold compose_call, get_opt, get_or.
  cbn [with_details self email_data set_email_data
       identified_department original_user_question].
  rewrite Hdata3, Hdata2, Hdata1, Hdata0.
  destruct Hsame0 as (_ & Hd0 & _ & Hq0 & _), Hsame1 as (_ & Hd1 & _ & Hq1 & _),
    Hsame2 as (_ & Hd2 & _ & Hq2 & _), Hsame3 as (_ & Hd3 & _ & Hq3 & _).
  assert (Hd : identified_department (self w3) = identified_department (self w))
    by congruence.
  assert (Hq : original_user_question (self w3) = original_user_question (self w))
    by congruence.
  rewrite Hd, Hq. by look.
Qed.

(** *** The request handlers and the registry *)

Lemma get_chatbot_known (E : env) (sid : string) (s : server) :
  is_Some (chatbot_sessions s !! sid) -> get_chatbot E sid s = (Returned tt, s).
Proof. intros [c Hc]. unfold get_chatbot. monad_red. by rewrite Hc. Qed.

(** [POST /api/chat] on the controller [c] of the session: the entry of the
    session becomes the controller as [process_message] left it, whether it
    returned or raised. *)
Lemma chat_runs (E : env) (data : request) (s s1 : server) (raw sid : string)
    (c : controller) :
  req_message data = Some raw -> Text.strip raw <> "" ->
  default (uuid4 E) (given (req_session_id data)) = sid ->
  get_chatbot E sid s = (Returned tt, s1) ->
  chatbot_sessions s1 !! sid = Some c ->
  let ran := process_message R E (Text.strip raw)
               {| self := c; calls := server_calls s1 |} in
  chat R E data s
  = (Returned (chat_answer ran),
     {| chatbot_sessions := <[sid := self ran.2]> (chatbot_sessions s1);
        server_calls := calls ran.2 |}).
Proof.
  intros Hraw Hmsg Hsid Hget Hc ran. unfold chat, guarded. rewrite Hraw, Hsid.
  destruct (String.eqb (Text.strip raw) "") eqn:Hempty;
    [by apply String.eqb_eq in Hempty|].
  unfold try_except, chat_answer. erewrite bind_returned by exact Hget.
  rewrite (surjective_pairing ran) at 1.
  destruct ran.1 as [r|e] eqn:Hrun.
  - erewrite bind_returned; cycle 1.
    { erewrite on_session_found by exact Hc. fold ran. rewrite Hrun. reflexivity. }
    erewrite bind_returned by reflexivity.
    cbn [chatbot_sessions]. by rewrite lookup_insert_eq.
  - erewrite bind_raised; cycle 1.
    { erewrite on_session_found by exact Hc. fold ran. rewrite Hrun. reflexivity. }
    done.
Qed.

Lemma get_chatbot_cases (E : env) (sid : string) (s : server) :
  (exists e, get_chatbot E sid s = (Raised e, s) /\ chatbot_sessions s !! sid = None)
  \/ (exists c s1,
        get_chatbot E sid s = (Returned tt, s1)
        /\ chatbot_sessions s1 = <[sid := c]> (chatbot_sessions s)
        /\ server_calls s1 = server_calls s
        /\ (chatbot_sessions s !! sid = Some c
            \/ chatbot_sessions s !! sid = None /\ c = set_session_id sid (new_chatbot E))).
Proof.
  unfold get_chatbot. monad_red.
  destruct (chatbot_sessions s !! sid) as [c|] eqn:Hc.
  { right. exists c, s. split; [done|]. split; [by rewrite insert_id|]. split; [done|].
    by left. }
  destruct (getenv E "GEMINI_API_KEY") as [[|k0 key]|]; try (left; by eexists).
  destruct (clients_connect E); [|left; by eexists].
  right. eexists _, _. split; [reflexivity|]. split; [done|]. split; [done|]. by right.
Qed.

(** What [POST /api/chat] does to the registry: nothing, with an answer
    other than 200, or one run of [process_message] on the controller of
    the request's session with the stripped message, which is not empty. *)
Lemma chat_effect (E : env) (data : request) (s : server) :
  (exists resp, chat R E data s = (Returned resp, s) /\ status_code resp <> 200)
  \/ (exists raw c,
        req_message data = Some raw /\ Text.strip raw <> ""
        /\ (chatbot_sessions s !! chat_session E data = Some c
            \/ chatbot_sessions s !! chat_session E data = None
               /\ c = set_session_id (chat_session E data) (new_chatbot E))
        /\ let ran := process_message R E (Text.strip raw)
                        {| self := c; calls := server_calls s |} in
           chat R E data s
           = (Returned (chat_answer ran),
              {| chatbot_sessions :=
                   <[chat_session E data := self ran.2]> (chatbot_sessions s);
                 server_calls := calls ran.2 |})).
Proof.
  destruct (req_message data) as [raw|] eqn:Hraw.
  2: { left. unfold chat, guarded. rewrite Hraw. by eexists. }
  destruct (String.eqb (Text.strip raw) "") eqn:Hempty.
  { left. unfold chat, guarded. rewrite Hraw, Hempty. by eexists. }
  apply String.eqb_neq in Hempty.
  destruct (get_chatbot_cases E (chat_session E data) s)
    as [(e & Hget & _)|(c & s1 & Hget & Hmap & Hcalls & Hc)].
  - left. unfold chat, guarded. rewrite Hraw.
    apply String.eqb_neq in Hempty. rewrite Hempty. unfold try_except.
    fold (chat_session E data). erewrite bind_raised by exact Hget. by eexists.
  - right. exists raw, c. split; [done|]. split; [done|]. split; [done|].
    assert (Hc1 : chatbot_sessions s1 !! chat_session E data = Some c)
      by (rewrite Hmap; apply lookup_insert_eq).
    rewrite (chat_runs E data s s1 raw (chat_session E data) c Hraw Hempty eq_refl Hget Hc1).
    cbv zeta. by rewrite Hmap, Hcalls, insert_insert_eq.
Qed.

Lemma reset_effect (E : env) (data : request) (s : server) :
  (exists resp, reset_endpoint E data s = (Returned resp, s))
  \/ (exists sid c,
        given (req_session_id data) = Some sid
        /\ chatbot_sessions s !! sid = Some c
        /\ reset_endpoint E data s
           = (Returned {| status_code := 200; payload := ResetBody (uuid4 E) |},
              {| chatbot_sessions :=
                   <[sid := self (reset_conversation E
                                    {| self := c; calls := server_calls s |}).2]>
                     (chatbot_sessions s);
                 server_calls := server_calls s |})).
Proof.
  unfold reset_endpoint, guarded.
  destruct (given (req_session_id data)) as [sid|] eqn:Hsid; [|left; by eexists].
  monad_red. destruct (chatbot_sessions s !! sid) as [c|] eqn:Hc; [|left; by eexists].
  right. exists sid, c. split; [done|]. split; [done|].
  rewrite (on_session_found sid (reset_conversation E) s c Hc).
  rewrite reset_result. simpl. by rewrite lookup_insert_eq.
Qed.

(** X14.  The three handlers of the registry never let an exception out:
    each answers with a status code.  None removes a session, none touches a
    session other than the one of the request, and the trace of remote calls
    only grows; [POST /api/reset] and [POST /api/history] add no session
    either, and [POST /api/history] changes nothing at all. *)
Theorem handlers_always_answer (E : env) (data : request) (s : server) :
  (exists resp s',
     chat R E data s = (Returned resp, s')
     /\ dom (chatbot_sessions s) ⊆ dom (chatbot_sessions s')
     /\ (forall other, other <> chat_session E data ->
           chatbot_sessions s' !! other = chatbot_sessions s !! other)
     /\ server_calls s `prefix_of` server_calls s')
  /\ (exists resp s',
        reset_endpoint E data s = (Returned resp, s')
        /\ dom (chatbot_sessions s') = dom (chatbot_sessions s)
        /\ (forall other, given (req_session_id data) <> Some other ->
              chatbot_sessions s' !! other = chatbot_sessions s !! other)
        /\ server_calls s' = server_calls s)
  /\ (exists resp, get_history data s = (Returned resp, s)).
Proof.
  split; [|split].
  - destruct (chat_effect E data s) as [(resp & Hchat & _)|(raw & c & _ & _ & _ & Hchat)].
    + exists resp, s. by repeat split.
    + cbv zeta in Hchat. eexists _, _. split; [exact Hchat|]. cbn [chatbot_sessions server_calls].
      split; [rewrite dom_insert; set_solver|].
      split; [intros other Hother; by rewrite lookup_insert_ne|].
      by destruct (process_message_frame E {| self := c; calls := server_calls s |}
                     (Text.strip raw)) as (_ & _ & _ & _ & Hcalls).
  - destruct (reset_effect E data s) as [(resp & Hreset)|(sid & c & Hsid & Hc & Hreset)].
    + exists resp, s. by repeat split.
    + eexists _, _. split; [exact Hreset|]. cbn [chatbot_sessions server_calls].
      split; [apply dom_insert_lookup_L; by eexists|].
      split; [|done]. intros other Hother. rewrite lookup_insert_ne; [done|].
      intros ->. by destruct Hother.
  - unfold get_history, guarded.
    destruct (given (req_session_id data)) as [sid|]; [|by eexists].
    monad_red. destruct (chatbot_sessions s !! sid); by eexists.
Qed.

(** X15.  A chat request whose processing raises is answered with status
    500, but what the controller did before the exception stays in the
    registry.  When the conversation store refuses the user's turn of an
    ordinary message, the session keeps that turn without an answer to it,
    and [POST /api/history] returns it afterwards. *)
Theorem failed_chat_keeps_turn (E : env) (data : request) (s : server)
    (raw sid : string) (c : controller) :
  req_message data = Some raw -> Text.strip raw <> "" ->
  given (req_session_id data) = Some sid ->
  chatbot_sessions s !! sid = Some c ->
  phase_of c = Some NORMAL ->
  conversation_add E User = false ->
  exists s' c',
    chat R E data s
    = (Returned {| status_code := 500; payload := FailureBody (ServiceError "chromadb") |},
       s')
    /\ chatbot_sessions s' !! sid = Some c'
    /\ chat_history c' = chat_history c ++ [user_turn E (Text.strip raw)]
    /\ phase_of c' = Some NORMAL
    /\ get_history data s'
       = (Returned {| status_code := 200;
                      payload := HistoryBody (chat_history c') (identified_department c')
                                   (VStr (session_id c')) |}, s').
Proof.
  intros Hraw Hmsg Hsid Hc Hp Hadd.
  assert (Hchat : chat_session E data = sid) by (unfold chat_session; by rewrite Hsid).
  pose proof (chat_runs E data s s raw sid c Hraw Hmsg Hchat
                (get_chatbot_known E sid s ltac:(by eexists)) Hc) as Hrun.
  cbv zeta in Hrun.
  pose proof (normal_outcome E {| self := c; calls := server_calls s |} (Text.strip raw) Hp)
    as Hnormal.
  cbv zeta in Hnormal. rewrite Hadd in Hnormal.
  rewrite Hnormal in Hrun. unfold chat_answer in Hrun. cbn [fst snd self calls] in Hrun.
  eexists _, _. split; [exact Hrun|]. cbn [chatbot_sessions].
  split; [apply lookup_insert_eq|]. split; [done|].
  split; [by destruct (normal_flags c Hp) as [Ha Hb]; unfold phase_of; cbn; rewrite Ha, Hb|].
  unfold get_history, guarded. rewrite Hsid. monad_red. cbn [chatbot_sessions].
  by rewrite lookup_insert_eq.
Qed.

(** X16.  Through [POST /api/chat] the controller is only ever given a
    message without whitespace around it and not empty: a missing message
    and a message of whitespace only (spaces of any kind, none at all
    included) are answered with status 400 and reach no controller.  So a
    session that is asked for the name and answers through the handler has,
    after a 200, a name slot that holds the message without the whitespace
    around it, which is not empty and has no whitespace character at its
    start or its end. *)
Theorem chat_name_never_blank (E : env) (data : request) (s s' : server)
    (sid : string) (c : controller) (resp : response_t) :
  given (req_session_id data) = Some sid ->
  chatbot_sessions s !! sid = Some c ->
  phase_of c = Some COLLECTING_NAME ->
  chat R E data s = (Returned resp, s') ->
  (status_code resp = 400 /\ s' = s
   /\ (req_message data = None \/ exists raw, req_message data = Some raw /\ blank raw))
  \/ (exists c' raw name,
        status_code resp = 200
        /\ req_message data = Some raw
        /\ trimmed raw name
        /\ ~ blank raw
        /\ chatbot_sessions s' !! sid = Some c'
        /\ slot c' "name" = Some (VStr name)
        /\ name <> "" /\ bare name
        /\ phase_of c' = Some COLLECTING_EMAIL).
Proof.
  intros Hsid Hc Hp Hchat.
  assert (Hkey : chat_session E data = sid) by (unfold chat_session; by rewrite Hsid).
  destruct (req_message data) as [raw|] eqn:Hraw.
  2: { left. revert Hchat. unfold chat, guarded. rewrite Hraw. intros [= <- <-].
       split; [done|]. split; [done|by left]. }
  destruct (String.eqb (Text.strip raw) "") eqn:Hempty.
  { left. revert Hchat. unfold chat, guarded. rewrite Hraw, Hempty. intros [= <- <-].
    split; [done|]. split; [done|]. right. exists raw. split; [done|].
    apply String.eqb_eq in Hempty.
    destruct (strip_trimmed raw) as (before & after & Heq & Hb & Ha & _).
    rewrite Hempty, app_empty_l in Heq. rewrite Heq. by apply blank_app. }
  apply String.eqb_neq in Hempty. right.
  pose proof (chat_runs E data s s raw sid c Hraw Hempty Hkey
                (get_chatbot_known E sid s ltac:(by eexists)) Hc) as Hrun.
  cbv zeta in Hrun. rewrite Hchat in Hrun.
  destruct (name_step R E {| self := c; calls := server_calls s |} (Text.strip raw) Hp)
    as (r & w' & Hcall & _ & _ & Hdata & Hp' & _).
  rewrite Hcall in Hrun. unfold chat_answer in Hrun. cbn [fst snd] in Hrun.
  injection Hrun as -> ->. exists (self w'), raw, (Text.strip raw). cbn [chatbot_sessions].
  split; [done|]. split; [done|]. split; [apply strip_trimmed|].
  split; [intros Hblank; by apply Hempty, strip_blank|].
  split; [apply lookup_insert_eq|].
  split; [unfold slot; rewrite Hdata, strip_fixed; apply lookup_insert_eq|].
  split; [done|]. split; [apply strip_is_bare|done].
Qed.

(** X17.  [get_chatbot] reads the API key only when it has to build a
    controller.  A chat request for a registered session is processed
    whatever the environment holds; a request for an unknown session in an
    environment where [GEMINI_API_KEY] is unset or empty is answered with
    status 500 and the [ValueError] of [get_chatbot], and registers
    nothing. *)
Theorem api_key_read_for_new_sessions_only (E : env) (data : request) (s : server)
    (raw : string) :
  req_message data = Some raw -> Text.strip raw <> "" ->
  (forall c, chatbot_sessions s !! chat_session E data = Some c ->
     let ran := process_message R E (Text.strip raw)
                  {| self := c; calls := server_calls s |} in
     chat R E data s
     = (Returned (chat_answer ran),
        {| chatbot_sessions := <[chat_session E data := self ran.2]> (chatbot_sessions s);
           server_calls := calls ran.2 |}))
  /\ (chatbot_sessions s !! chat_session E data = None ->
      getenv E "GEMINI_API_KEY" = None \/ getenv E "GEMINI_API_KEY" = Some "" ->
      chat R E data s
      = (Returned {| status_code := 500;
                     payload := FailureBody
                       (ValueError "GEMINI_API_KEY not found in environment variables") |},
         s)).
Proof.
  intros Hraw Hmsg. split.
  - intros c Hc.
    exact (chat_runs E data s s raw (chat_session E data) c Hraw Hmsg eq_refl
             (get_chatbot_known E _ s ltac:(by eexists)) Hc).
  - intros Hnone Hkey. unfold chat, guarded. rewrite Hraw.
    apply String.eqb_neq in Hmsg. rewrite Hmsg. unfold try_except.
    fold (chat_session E data).
    erewrite bind_raised; [reflexivity|].
    unfold get_chatbot. monad_red. rewrite Hnone. by destruct Hkey as [-> | ->].
Qed.

End SessionFacts.

(** ** The statistics *)



(** ** Loading the knowledge file *)

Lemma key_decided (key : string) (items : list (string * json)) :
  bool_decide (key ∈ items.*1)
  = match list_find (fun item => item.1 = key) items with
    | Some _ => true
    | None => false
    end.
Proof.
  destruct (list_find (fun item => item.1 = key) items) as [[i item]|] eqn:Hfind.
  - apply list_find_Some in Hfind as (Hi & <- & _). apply bool_decide_eq_true_2.
    apply list_elem_of_fmap. exists item. split; [done|]. by eapply list_elem_of_lookup_2.
  - apply list_find_None in Hfind. apply bool_decide_eq_false_2.
    intros (item & -> & Hin)%list_elem_of_fmap.
    by apply (proj1 (Forall_forall _ _) Hfind item Hin).
Qed.

(** One round of the loop on a JSON object. *)
Lemma load_step (F : files) (items : list (string * json)) (rest : list json)
    (n : nat) (docs : knowledge) :
  load_entries F (JObject items :: rest) n docs
  = match loadable (JObject items) with
    | Some (content, metadata) =>
        if add_accepts F content metadata
        then load_entries F rest (n + 1) (docs ++ [(content, metadata)])
        else (Raised (ServiceError "chromadb"), docs)
    | None => load_entries F rest n docs
    end.
Proof.
  cbn [load_entries loadable]. unfold has_key, item_of, add_to_knowledge_base.
  rewrite !key_decided. monad_red.
  destruct (list_find (fun item => item.1 = "content") items) as [[i [k content]]|];
    [|done].
  destruct (list_find (fun item => item.1 = "metadata") items) as [[j [k' metadata]]|];
    [|done].
  by destruct (add_accepts F content metadata).
Qed.

(** One round of the loop on any entry: it raises with the collection as it
    is, or goes on, after adding one accepted document or none. *)
Lemma load_round (F : files) (entry : json) (rest : list json) (n : nat)
    (docs : knowledge) :
  (exists e, load_entries F (entry :: rest) n docs = (Raised e, docs))
  \/ load_entries F (entry :: rest) n docs = load_entries F rest n docs
  \/ (exists content metadata,
        add_accepts F content metadata = true
        /\ load_entries F (entry :: rest) n docs
           = load_entries F rest (n + 1) (docs ++ [(content, metadata)])).
Proof.
  destruct entry as [| | |s|items|items].
  1-3: left; by eexists.
  - cbn [load_entries]. unfold has_key, item_of. monad_red.
    destruct (Text.contains "content" s); [|by right; left].
    destruct (Text.contains "metadata" s); [left; by eexists|by right; left].
  - cbn [load_entries]. unfold has_key, item_of. monad_red.
    destruct (existsb _ items); [|by right; left].
    destruct (existsb _ items); [left; by eexists|by right; left].
  - rewrite load_step. destruct (loadable (JObject items)) as [[content metadata]|];
      [|by right; left].
    destruct (add_accepts F content metadata) eqn:Hadd; [|left; by eexists].
    right. right. by exists content, metadata.
Qed.

Lemma load_entries_grows (F : files) (entries : list json) (n : nat) (docs : knowledge) :
  exists o added,
    load_entries F entries n docs = (o, docs ++ added)
    /\ Forall (fun doc => add_accepts F doc.1 doc.2 = true) added
    /\ length added <= length entries
    /\ forall m, o = Returned m -> m = n + length added.
Proof.
  revert n docs. induction entries as [|entry rest IH]; intros n docs.
  - exists (Returned n), []. rewrite app_nil_r. repeat split; [done|simpl; lia|].
    intros m [= <-]. simpl. lia.
  - destruct (load_round F entry rest n docs)
      as [[e ->]|[->|(content & metadata & Hadd & ->)]].
    + exists (Raised e), []. rewrite app_nil_r. repeat split; [done|simpl; lia|done].
    + destruct (IH n docs) as (o & added & -> & Hall & Hlen & Hm).
      exists o, added. repeat split; [done|simpl; lia|done].
    + destruct (IH (n + 1) (docs ++ [(content, metadata)]))
        as (o & added & -> & Hall & Hlen & Hm).
      exists o, ((content, metadata) :: added). rewrite <- app_assoc.
      repeat split; [by constructor|simpl; lia|].
      intros m Ho. rewrite (Hm m Ho). simpl. lia.
Qed.

Lemma load_entries_objects (F : files) (entries : list json) (n : nat) (docs : knowledge) :
  Forall (fun entry => is_object entry = true) entries ->
  Forall (fun doc => add_accepts F doc.1 doc.2 = true) (omap loadable entries) ->
  load_entries F entries n docs
  = (Returned (n + length (omap loadable entries)), docs ++ omap loadable entries).
Proof.
  revert n docs. induction entries as [|entry rest IH]; intros n docs Hobj Hadd.
  - cbn. by rewrite Nat.add_0_r, app_nil_r.
  - apply Forall_cons in Hobj as [Hentry Hrest].
    destruct entry as [| | | | |items]; try discriminate Hentry.
    rewrite load_step. cbn [omap list_omap] in *.
    destruct (loadable (JObject items)) as [[content metadata]|]; [|by apply IH].
    apply Forall_cons in Hadd as [Hfirst Hadd]. cbn [fst snd] in Hfirst.
    rewrite Hfirst, IH by done. cbn [length]. rewrite <- app_assoc.
    f_equal. f_equal. lia.
Qed.

(** X20.  [load_knowledge_from_file] never raises and only appends to the
    knowledge collection, and every document it appends was accepted by the
    collection.  With the status success the count it reports is the number
    of documents it added; with any other status it reports 0, whatever it
    added.  When the file does not exist the status is file_not_found and
    nothing is added. *)
Theorem load_never_raises (F : files) (docs : knowledge) :
  exists report added,
    load_knowledge_from_file F docs = (Returned report, docs ++ added)
    /\ Forall (fun doc => add_accepts F doc.1 doc.2 = true) added
    /\ (load_status report = "success" -> loaded report = length added)
    /\ (load_status report <> "success" -> loaded report = 0)
    /\ (path_exists F = false -> load_status report = "file_not_found" /\ added = []).
Proof.
  unfold load_knowledge_from_file.
  destruct (path_exists F) eqn:Hpath.
  2: { eexists _, []. rewrite app_nil_r. split; [reflexivity|]. by repeat split. }
  destruct (file_data F) as [v|].
  2: { eexists _, []. rewrite app_nil_r. split; [reflexivity|]. by repeat split. }
  assert (Hiter : (exists e, forall d : knowledge, iterate v d = (Raised e, d))
                  \/ (exists entries, forall d : knowledge,
                        iterate v d = (Returned entries, d))).
  { destruct v; try (left; by eexists); right; by eexists. }
  destruct Hiter as [[e He]|[entries He]]; monad_red; rewrite He.
  { eexists _, []. rewrite app_nil_r. split; [reflexivity|]. by repeat split. }
  destruct (load_entries_grows F entries 0 docs) as (o & added & -> & Hall & _ & Hm).
  destruct o as [m|e]; eexists _, added; (split; [reflexivity|]); (split; [done|]);
    cbn [load_status loaded]; [|by repeat split].
  split; [intros _; by rewrite (Hm m eq_refl)|]. by split.
Qed.

(** X21.  A file that holds a JSON array of objects, each taken by the
    collection: the entries that have both keys, content and metadata, are
    added in the order of the file, the others are passed over, and the
    report is the status success with the number of entries added. *)
Theorem load_adds_entries_in_order (F : files) (entries : list json) (docs : knowledge) :
  path_exists F = true ->
  file_data F = Some (JArray entries) ->
  Forall (fun entry => is_object entry = true) entries ->
  Forall (fun doc => add_accepts F doc.1 doc.2 = true) (omap loadable entries) ->
  load_knowledge_from_file F docs
  = (Returned {| load_status := "success"; loaded := length (omap loadable entries);
                 load_error := None |},
     docs ++ omap loadable entries).
Proof.
  intros Hpath Hdata Hobj Hadd. unfold load_knowledge_from_file.
  rewrite Hpath, Hdata. monad_red. unfold iterate. monad_red.
  by rewrite (load_entries_objects F entries 0 docs Hobj Hadd).
Qed.

Lemma load_entries_refused (F : files) (before after : list json)
    (refused content metadata : json) (n : nat) (docs : knowledge) :
  Forall (fun entry => is_object entry = true) before ->
  Forall (fun doc => add_accepts F doc.1 doc.2 = true) (omap loadable before) ->
  loadable refused = Some (content, metadata) ->
  add_accepts F content metadata = false ->
  load_entries F (before ++ refused :: after) n docs
  = (Raised (ServiceError "chromadb"), docs ++ omap loadable before).
Proof.
  intros Hobj Hadd Hload Hno. revert n docs.
  induction before as [|entry rest IH]; intros n docs.
  - destruct refused as [| | | | |items];
      try (exfalso; cbv in Hload; discriminate Hload).
    cbn [app]. rewrite load_step, Hload, Hno. cbn. by rewrite app_nil_r.
  - apply Forall_cons in Hobj as [Hentry Hrest].
    destruct entry as [| | | | |items]; try discriminate Hentry.
    cbn [app]. rewrite load_step. cbn [omap list_omap] in *.
    destruct (loadable (JObject items)) as [[c m]|]; [|by apply IH].
    apply Forall_cons in Hadd as [Hfirst Hadd]. cbn [fst snd] in Hfirst.
    rewrite Hfirst, IH by done. by rewrite <- app_assoc.
Qed.

(** X22.  When the collection refuses an entry in the middle of the file,
    the loading stops with the status error and reports 0 loaded entries,
    although the entries before the refused one have been added and stay in
    the collection. *)
Theorem refused_entry_hides_earlier_ones (F : files) (before after : list json)
    (refused content metadata : json) (docs : knowledge) :
  path_exists F = true ->
  file_data F = Some (JArray (before ++ refused :: after)) ->
  Forall (fun entry => is_object entry = true) before ->
  Forall (fun doc => add_accepts F doc.1 doc.2 = true) (omap loadable before) ->
  loadable refused = Some (content, metadata) ->
  add_accepts F content metadata = false ->
  exists report,
    load_knowledge_from_file F docs = (Returned report, docs ++ omap loadable before)
    /\ load_status report = "error"
    /\ loaded report = 0.
Proof.
  intros Hpath Hdata Hobj Hadd Hload Hno. unfold load_knowledge_from_file.
  rewrite Hpath, Hdata. monad_red. unfold iterate. monad_red.
  rewrite (load_entries_refused F before after refused content metadata 0 docs) by done.
  eexists. split; [reflexivity|]. by split.
Qed.

(** ** Markdown bold *)

Lemma closing_shorter (s inner rest : string) :
  closing s = Some (inner, rest) -> String.length rest + 2 <= String.length s.
Proof.
  revert inner rest. induction s as [|c s IH]; intros inner rest; [done|].
  cbn [closing]. destruct (Text.starts_with "**" (String c s)) eqn:Hstart.
  - apply starts_with_spec in Hstart as [t Ht]. rewrite Ht.
    change ("**" +:+ t) with (String "*" (String "*" t)). intros [= _ <-].
    cbn [skip_chars String.length]. lia.
  - destruct (Ascii.eqb c "010"); [done|].
    destruct (closing s) as [[inner' rest']|]; [|done].
    intros [= _ <-]. specialize (IH _ _ eq_refl). cbn [String.length]. lia.
Qed.

Lemma marked_shorter (s inner rest : string) :
  marked s = Some (inner, rest) -> String.length rest + 4 <= String.length s.
Proof.
  unfold marked. destruct (Text.starts_with "**" s) eqn:Hstart; [|done].
  apply starts_with_spec in Hstart as [t ->].
  change ("**" +:+ t) with (String "*" (String "*" t)). cbn [skip_chars].
  intros Hc%closing_shorter. cbn [String.length]. lia.
Qed.

(** Any fuel that covers the length of the text gives the same result. *)
Lemma sub_bold_fuel (n m : nat) (s : string) :
  String.length s <= n -> String.length s <= m -> sub_bold n s = sub_bold m s.
Proof.
  revert m s. induction n as [|n IH]; intros m s Hn Hm.
  - destruct s; [|cbn in Hn; lia]. by destruct m.
  - destruct m as [|m]; [destruct s; [done|cbn in Hm; lia]|].
    destruct s as [|c s]; [done|]. cbn [sub_bold String.length] in *.
    destruct (marked (String c s)) as [[inner rest]|] eqn:Hmark.
    + apply marked_shorter in Hmark. cbn [String.length] in Hmark.
      by rewrite (IH m rest) by lia.
    + by rewrite (IH m s) by lia.
Qed.

(** The two equations of the substitution: a marked span at the start is
    rewritten and the scan goes on after it; otherwise the first character
    is kept and the scan goes on after it. *)
Lemma bold_marked (s inner rest : string) :
  marked s = Some (inner, rest) ->
  markdown_bold s = "<strong>" +:+ inner +:+ "</strong>" +:+ markdown_bold rest.
Proof.
  intros Hmark. pose proof (marked_shorter _ _ _ Hmark) as Hlen.
  unfold markdown_bold. destruct s as [|c s]; [done|].
  cbn [String.length sub_bold] in *. rewrite Hmark.
  by rewrite (sub_bold_fuel (String.length s) (String.length rest) rest) by lia.
Qed.

Lemma bold_kept (c : ascii) (s : string) :
  marked (String c s) = None ->
  markdown_bold (String c s) = String c (markdown_bold s).
Proof. intros Hmark. unfold markdown_bold. cbn [String.length sub_bold]. by rewrite Hmark. Qed.

Lemma closing_found (inner post : string) :
  all_chars (fun c => negb (Ascii.eqb c "*") && negb (Ascii.eqb c "010")) inner = true ->
  closing (inner +:+ "**" +:+ post) = Some (inner, post).
Proof.
  induction inner as [|c inner IH]; [done|]. cbn [all_chars].
  rewrite !andb_true_iff, !negb_true_iff. intros [[Hstar Hnl] Hrest].
  rewrite app_cons. cbn [closing Text.starts_with]. rewrite Ascii.eqb_sym, Hstar.
  cbn [andb]. by rewrite Hnl, IH.
Qed.

(** X23.  A text that nowhere holds two asterisks in a row comes out of the
    substitution as it went in. *)
Theorem bold_leaves_unmarked_text (s : string) :
  Text.contains "**" s = false -> markdown_bold s = s.
Proof.
  induction s as [|c s IH]; [done|]. cbn [Text.contains].
  rewrite orb_false_iff. intros [Hstart Hrest].
  rewrite bold_kept; [by rewrite IH|]. unfold marked. by rewrite Hstart.
Qed.

(** X24.  The first marked span of a text: when no asterisk stands before
    it and the span holds neither an asterisk nor a line feed, the text
    before it is kept, the span is put between the strong tags without its
    asterisks, and the substitution goes on with the text after it. *)
Theorem bold_converts_span (before inner after : string) :
  all_chars (fun c => negb (Ascii.eqb c "*")) before = true ->
  all_chars (fun c => negb (Ascii.eqb c "*") && negb (Ascii.eqb c "010")) inner = true ->
  markdown_bold (before +:+ "**" +:+ inner +:+ "**" +:+ after)
  = before +:+ "<strong>" +:+ inner +:+ "</strong>" +:+ markdown_bold after.
Proof.
  intros Hbefore Hinner. induction before as [|c before IH].
  - rewrite app_empty_l. apply bold_marked. unfold marked.
    change ("**" +:+ inner +:+ "**" +:+ after)
      with (String "*" (String "*" (inner +:+ "**" +:+ after))).
    cbn [skip_chars]. rewrite (proj2 (starts_with_spec "**" _)); [|by eexists].
    by apply closing_found.
  - cbn [all_chars] in Hbefore. apply andb_true_iff in Hbefore as [Hc Hbefore].
    apply negb_true_iff in Hc. rewrite (app_cons c before), (app_cons c before).
    rewrite bold_kept; [by rewrite IH|].
    unfold marked. cbn [Text.starts_with]. by rewrite Ascii.eqb_sym, Hc.
Qed.

(** ** The further properties on concrete sessions *)

Lemma exchanges_logged_witness :
  let inputs := [(quiet_env, "My invoice amount looks wrong"); (quiet_env, "yes");
                 (quiet_env, "Jane")] in
  completes text_renderer inputs fresh_world
  /\ exists replies : list reply,
       run_returns text_renderer inputs fresh_world replies
       /\ length replies = length inputs
       /\ chat_history (self (feed text_renderer inputs fresh_world))
          = chat_history (self fresh_world)
            ++ concat (zip_with (fun input r => exchange input.1 input.2 (bot_response r))
                         inputs replies).
Proof.
  intros inputs.
  assert (Hrun : completes text_renderer inputs fresh_world)
    by (vm_compute; repeat split; eexists; reflexivity).
  exact (conj Hrun (exchanges_logged text_renderer inputs fresh_world Hrun)).
Defined.

Lemma workflow_turns_stay_local_witness :
  phase_of (self details_world) = Some COLLECTING_DETAILS
  /\ COLLECTING_DETAILS <> NORMAL
  /\ exists posts,
       calls (process_message text_renderer quiet_env "none" details_world).2
       = calls details_world
         ++ compose_call (self (with_details quiet_env "none" details_world)) :: posts
       /\ (posts = []
           \/ exists recipient subject html reply_to,
                posts = [ResendPost recipient subject html reply_to]).
Proof.
  assert (Hne : COLLECTING_DETAILS <> NORMAL) by discriminate.
  pose proof (workflow_turns_stay_local text_renderer quiet_env details_world "none"
                COLLECTING_DETAILS eq_refl Hne) as Hall.
  cbv zeta in Hall. destruct Hall as [_ Hlast].
  destruct (Hlast eq_refl) as (posts & Hcalls & Hshape & _).
  split; [reflexivity|]. split; [exact Hne|]. exists posts. exact (conj Hcalls Hshape).
Defined.

Lemma escaping_exceptions_witness :
  let E := with_classifier (LlmObject ∅) quiet_env in
  let ran := process_message text_renderer E "hello" fresh_world in
  phase_of (self fresh_world) = Some NORMAL
  /\ ran = (Raised (KeyError (VStr "department")), ran.2)
  /\ KeyError (VStr "department")
     ∈ [ServiceError "chromadb"; KeyError (VStr "department");
        KeyError (VStr "confidence"); TypeError].
Proof.
  intros E ran.
  assert (Hcall : ran = (Raised (KeyError (VStr "department")), ran.2))
    by (vm_compute; reflexivity).
  split; [reflexivity|]. split; [exact Hcall|].
  destruct (escaping_exceptions text_renderer E fresh_world "hello" NORMAL _ _
              eq_refl Hcall) as [[_ Hin]|[Hno _]]; [exact Hin|discriminate Hno].
Defined.

Lemma ordinary_message_escapes_witness :
  let E := with_classifier (LlmObject {[ "department" := VStr "Billing" ]}) quiet_env in
  let ran := process_message text_renderer E "hello" fresh_world in
  phase_of (self fresh_world) = Some NORMAL
  /\ ran.1 = Raised (KeyError (VStr "confidence"))
  /\ identified_department (self ran.2) = VStr "Billing"
  /\ phase_of (self ran.2) = Some NORMAL.
Proof.
  intros E ran.
  pose proof (ordinary_message_escapes text_renderer E fresh_world "hello" eq_refl) as Hall.
  cbv zeta in Hall. destruct Hall as [_ Hsaved].
  destruct (Hsaved eq_refl) as (_ & Hconfidence & _).
  destruct (Hconfidence (VStr "Billing")) as (Hraised & _ & Hdept & _ & Hp).
  { vm_compute. reflexivity. }
  { vm_compute. reflexivity. }
  split; [reflexivity|]. split; [exact Hraised|]. split; [exact Hdept|exact Hp].
Defined.

Lemma ordinary_message_calls_witness :
  phase_of (self fresh_world) = Some NORMAL
  /\ exists r,
       (process_message text_renderer quiet_env "hello" fresh_world).1 = Returned r
       /\ calls (process_message text_renderer quiet_env "hello" fresh_world).2
          = calls fresh_world
            ++ [KnowledgeQuery "hello"; ConversationAdd User "hello";
                Classify "hello"
                  (conversation_context
                     (chat_history (self fresh_world) ++ [user_turn quiet_env "hello"]))
                  (knowledge_context quiet_env);
                ConversationAdd Assistant (bot_response r)].
Proof.
  split; [reflexivity|].
  destruct (process_message text_renderer quiet_env "hello" fresh_world)
    as [[r|e] w'] eqn:Hcall.
  - exists r. split; [reflexivity|].
    exact (proj1 (ordinary_message_calls text_renderer quiet_env fresh_world "hello" r w'
                    eq_refl Hcall)).
  - exfalso. vm_compute in Hcall. discriminate Hcall.
Defined.

Lemma composer_non_text_escapes_witness :
  let E := with_composer (LlmObject {[ "paragraph2" := VInt 7 ]}) quiet_env in
  phase_of (self details_world) = Some COLLECTING_DETAILS
  /\ (process_message text_renderer E "none" details_world).1 = Raised AttributeError
  /\ phase_of (self (process_message text_renderer E "none" details_world).2)
     = Some COLLECTING_DETAILS.
Proof.
  intros E.
  assert (Hkey : "paragraph2" ∈ ["paragraph1"; "paragraph2"; "paragraph3"])
    by (apply list_elem_of_In; vm_compute; tauto).
  assert (Hv : ({[ "paragraph2" := VInt 7 ]} : gmap string pyval) !! "paragraph2"
               = Some (VInt 7)) by (vm_compute; reflexivity).
  pose proof (composer_non_text_escapes text_renderer E details_world "none" _
                "paragraph2" (VInt 7) eq_refl eq_refl Hkey Hv eq_refl) as Hall.
  cbv zeta in Hall. destruct Hall as (Hraised & Hp & _).
  split; [reflexivity|]. split; [exact Hraised|exact Hp].
Defined.

Lemma composed_whenever_textual_witness :
  phase_of (self details_world) = Some COLLECTING_DETAILS
  /\ reply_textual quiet_env
  /\ slots_textual (self details_world)
  /\ exists r w',
       process_message text_renderer quiet_env "none" details_world = (Returned r, w')
       /\ status r = "email_complete"
       /\ phase_of (self w') = Some NORMAL.
Proof.
  assert (Hreply : reply_textual quiet_env) by exact I.
  assert (Hslots : slots_textual (self details_world)).
  { intros key v Hkey Hv.
    apply elem_of_cons in Hkey as [->|Hkey];
      [|apply list_elem_of_singleton in Hkey as ->];
      vm_compute in Hv; injection Hv as <-; reflexivity. }
  destruct (composed_whenever_textual text_renderer quiet_env details_world "none"
              eq_refl Hreply Hslots) as (r & w' & up & Hcall & Hs & _ & _ & _ & _ & Hp).
  split; [reflexivity|]. split; [exact Hreply|]. split; [exact Hslots|].
  exists r, w'. exact (conj Hcall (conj Hs Hp)).
Defined.

Lemma dispatch_payload_witness :
  phase_of (self details_world) = Some COLLECTING_DETAILS
  /\ dispatch_configured quiet_env (self details_world) "Billing"
       (VStr "value-of-BILLING_EMAIL")
  /\ exists r w' subject department_email,
       process_message text_renderer quiet_env "none" details_world = (Returned r, w')
       /\ calls w'
          = calls details_world
            ++ [compose_call (self (with_details quiet_env "none" details_world));
                ResendPost (VStr "value-of-BILLING_EMAIL") subject (VStr department_email)
                  (get_opt (email_data (self details_world)) "email")].
Proof.
  assert (Hconf : dispatch_configured quiet_env (self details_world) "Billing"
                    (VStr "value-of-BILLING_EMAIL")).
  { split; [exists "value-of-RESEND_API_KEY"; split; [reflexivity|discriminate]|].
    split; vm_compute; reflexivity. }
  split; [reflexivity|]. split; [exact Hconf|].
  destruct (process_message text_renderer quiet_env "none" details_world)
    as [[r|e] w'] eqn:Hcall.
  - destruct (dispatch_payload text_renderer quiet_env details_world "none" "Billing"
                (VStr "value-of-BILLING_EMAIL") r w' eq_refl Hconf Hcall)
      as (subject & de & up & _ & _ & _ & _ & Hcalls & _).
    exists r, w', subject, de. exact (conj eq_refl Hcalls).
  - exfalso. vm_compute in Hcall. discriminate Hcall.
Defined.

Lemma email_rejects_foreign_characters_witness :
  phase_of (self emailing_world) = Some COLLECTING_EMAIL
  /\ forallb (fun ch => addr_char quiet_env ch || String.eqb ch "@")
       (Text.chars (Text.strip "jane+news@acme.com")) = false
  /\ exists r w',
       process_message text_renderer quiet_env "jane+news@acme.com" emailing_world
       = (Returned r, w')
       /\ bot_response r = email_reprompt
       /\ phase_of (self w') = Some COLLECTING_EMAIL.
Proof.
  assert (Hbad : forallb (fun ch => addr_char quiet_env ch || String.eqb ch "@")
                   (Text.chars (Text.strip "jane+news@acme.com")) = false)
    by (vm_compute; reflexivity).
  destruct (email_rejects_foreign_characters text_renderer quiet_env emailing_world
              "jane+news@acme.com" eq_refl (or_introl Hbad))
    as (r & w' & Hcall & Hr & Hp & _).
  split; [reflexivity|]. split; [exact Hbad|]. exists r, w'.
  exact (conj Hcall (conj Hr Hp)).
Defined.

Lemma workflow_end_to_end_witness :
  let inputs := [(quiet_env, "Sure!"); (quiet_env, nbsp +:+ "Jane Doe ");
                 (quiet_env, "jane@acme.com"); (quiet_env, "Acme"); (quiet_env, "none")] in
  phase_of (self awaiting_world) = Some AWAITING_EMAIL_CONFIRMATION
  /\ holds_affirmative_word quiet_env "Sure!"
  /\ email_shaped quiet_env (Text.strip "jane@acme.com")
  /\ reply_textual quiet_env
  /\ completes text_renderer inputs awaiting_world
  /\ phase_of (self (feed text_renderer inputs awaiting_world)) = Some NORMAL
  /\ slot (self (feed text_renderer inputs awaiting_world)) "name"
     = Some (VStr (Text.strip (nbsp +:+ "Jane Doe "))).
Proof.
  intros inputs.
  assert (Hyes : holds_affirmative_word quiet_env "Sure!").
  { exists "sure". split; [apply list_elem_of_In; vm_compute; tauto|].
    exists "", "!". reflexivity. }
  assert (Hshape : email_shaped quiet_env (Text.strip "jane@acme.com"))
    by (apply email_pattern_spec; vm_compute; reflexivity).
  assert (Hreply : reply_textual quiet_env) by exact I.
  pose proof (workflow_end_to_end text_renderer quiet_env quiet_env quiet_env quiet_env
                quiet_env awaiting_world "Sure!" (nbsp +:+ "Jane Doe ") "jane@acme.com"
                "Acme" "none" eq_refl Hyes Hshape Hreply) as Hall.
  cbv zeta in Hall. destruct Hall as (Hrun & _ & _ & _ & _ & _ & Hp & Hname & _).
  split; [reflexivity|]. split; [exact Hyes|]. split; [exact Hshape|].
  split; [exact Hreply|]. split; [exact Hrun|]. split; [exact Hp|exact Hname].
Defined.

Lemma failed_chat_keeps_turn_witness :
  let E := with_conversation_add (fun _ => false) quiet_env in
  let data := {| req_message := Some " hello ";
                 req_session_id := Some (session_id (self fresh_world)) |} in
  chatbot_sessions new_session !! session_id (self fresh_world) = Some (self fresh_world)
  /\ phase_of (self fresh_world) = Some NORMAL
  /\ conversation_add E User = false
  /\ exists s' c',
       chat text_renderer E data new_session
       = (Returned {| status_code := 500;
                      payload := FailureBody (ServiceError "chromadb") |}, s')
       /\ chatbot_sessions s' !! session_id (self fresh_world) = Some c'
       /\ chat_history c' = chat_history (self fresh_world) ++ [user_turn E "hello"].
Proof.
  intros E data.
  assert (Hold : chatbot_sessions new_session !! session_id (self fresh_world)
                 = Some (self fresh_world)) by (vm_compute; reflexivity).
  assert (Hmsg : Text.strip " hello " <> "") by (vm_compute; discriminate).
  destruct (failed_chat_keeps_turn text_renderer E data new_session " hello "
              (session_id (self fresh_world)) (self fresh_world)
              eq_refl Hmsg eq_refl Hold eq_refl eq_refl)
    as (s' & c' & Hchat & Hc' & Hh & _).
  split; [exact Hold|]. split; [reflexivity|]. split; [reflexivity|].
  exists s', c'. exact (conj Hchat (conj Hc' Hh)).
Defined.

Lemma chat_name_never_blank_witness :
  let data := {| req_message := Some (nbsp +:+ " Jane Doe " +:+ em_space);
                 req_session_id := Some (session_id (self naming_world)) |} in
  chatbot_sessions naming_session !! session_id (self naming_world)
  = Some (self naming_world)
  /\ phase_of (self naming_world) = Some COLLECTING_NAME
  /\ exists resp s',
       chat text_renderer quiet_env data naming_session = (Returned resp, s')
       /\ ((status_code resp = 400 /\ s' = naming_session
            /\ (req_message data = None
                \/ exists raw, req_message data = Some raw /\ blank raw))
           \/ (exists c' raw name,
                 status_code resp = 200
                 /\ req_message data = Some raw
                 /\ trimmed raw name
                 /\ ~ blank raw
                 /\ chatbot_sessions s' !! session_id (self naming_world) = Some c'
                 /\ slot c' "name" = Some (VStr name)
                 /\ name <> "" /\ bare name
                 /\ phase_of c' = Some COLLECTING_EMAIL)).
Proof.
  intros data.
  assert (Hold : chatbot_sessions naming_session !! session_id (self naming_world)
                 = Some (self naming_world)) by (vm_compute; reflexivity).
  split; [exact Hold|]. split; [reflexivity|].
  destruct (chat text_renderer quiet_env data naming_session) as [[resp|e] s'] eqn:Hchat.
  - exists resp, s'. split; [reflexivity|].
    exact (chat_name_never_blank text_renderer quiet_env data naming_session s'
             (session_id (self naming_world)) (self naming_world) resp
             eq_refl Hold eq_refl Hchat).
  - exfalso. vm_compute in Hchat. discriminate Hchat.
Defined.

Lemma api_key_read_for_new_sessions_only_witness :
  let known := {| req_message := Some "yes";
                  req_session_id := Some (session_id (self awaiting_world)) |} in
  let unknown := {| req_message := Some "yes"; req_session_id := Some "no-such-session" |} in
  req_message known = Some "yes"
  /\ Text.strip "yes" <> ""
  /\ getenv bare_env "GEMINI_API_KEY" = None
  /\ (exists resp s', chat text_renderer bare_env known one_session = (Returned resp, s')
                      /\ status_code resp = 200)
  /\ chat text_renderer bare_env unknown one_session
     = (Returned {| status_code := 500;
                    payload := FailureBody
                      (ValueError "GEMINI_API_KEY not found in environment variables") |},
        one_session).
Proof.
  intros known unknown.
  assert (Hmsg : Text.strip "yes" <> "") by (vm_compute; discriminate).
  assert (Hold : chatbot_sessions one_session !! chat_session bare_env known
                 = Some (self awaiting_world)) by (vm_compute; reflexivity).
  assert (Hnew : chatbot_sessions one_session !! chat_session bare_env unknown = None)
    by (vm_compute; reflexivity).
  destruct (api_key_read_for_new_sessions_only text_renderer bare_env known one_session "yes"
              eq_refl Hmsg) as [Hknown _].
  destruct (api_key_read_for_new_sessions_only text_renderer bare_env unknown one_session
              "yes" eq_refl Hmsg) as [_ Hunknown].
  split; [reflexivity|]. split; [exact Hmsg|]. split; [reflexivity|].
  split; [|exact (Hunknown Hnew (or_introl eq_refl))].
  eexists _, _. split; [exact (Hknown _ Hold)|]. vm_compute. reflexivity.
Defined.

Lemma load_adds_entries_in_order_witness :
  path_exists sample_file = true
  /\ file_data sample_file = Some (JArray sample_entries)
  /\ load_knowledge_from_file sample_file []
     = (Returned {| load_status := "success"; loaded := 2; load_error := None |},
        [ (JString "Refunds take five days.", JObject [("department", JString "Billing")]);
          (JString "Offices open at nine.", JObject []) ]).
Proof.
  assert (Hobj : Forall (fun entry => is_object entry = true) sample_entries)
    by (repeat constructor).
  assert (Hadd : Forall (fun doc => add_accepts sample_file doc.1 doc.2 = true)
                   (omap loadable sample_entries)) by (repeat constructor).
  split; [reflexivity|]. split; [reflexivity|].
  exact (load_adds_entries_in_order sample_file sample_entries [] eq_refl eq_refl Hobj Hadd).
Defined.

Lemma refused_entry_hides_earlier_ones_witness :
  add_accepts strict_file (JString "Offices open at nine.") (JObject []) = false
  /\ exists report,
       load_knowledge_from_file strict_file []
       = (Returned report, [] ++ omap loadable (take 2 sample_entries))
       /\ load_status report = "error"
       /\ loaded report = 0.
Proof.
  assert (Hobj : Forall (fun entry => is_object entry = true) (take 2 sample_entries))
    by (repeat constructor).
  assert (Hadd : Forall (fun doc => add_accepts strict_file doc.1 doc.2 = true)
                   (omap loadable (take 2 sample_entries))) by (repeat constructor).
  split; [reflexivity|].
  exact (refused_entry_hides_earlier_ones strict_file (take 2 sample_entries) []
           (JObject [("metadata", JObject []); ("content", JString "Offices open at nine.")])
           (JString "Offices open at nine.") (JObject []) []
           eq_refl eq_refl Hobj Hadd eq_refl eq_refl).
Defined.

Lemma bold_leaves_unmarked_text_witness :
  Text.contains "**" "Order *42* is late" = false
  /\ markdown_bold "Order *42* is late" = "Order *42* is late".
Proof.
  assert (Hno : Text.contains "**" "Order *42* is late" = false) by reflexivity.
  exact (conj Hno (bold_leaves_unmarked_text "Order *42* is late" Hno)).
Defined.

Lemma bold_converts_span_witness :
  markdown_bold "Dear **Billing** Team" = "Dear <strong>Billing</strong> Team".
Proof.
  exact (bold_converts_span "Dear " "Billing" " Team" eq_refl eq_refl).
Defined.

Lemma classifier_failure_falls_back_witness :
  let E := with_classifier (LlmBadJson "Expecting value") quiet_env in
  phase_of (self fresh_world) = Some NORMAL
  /\ classifier_failed E
  /\ exists r w',
       process_message text_renderer E "hello" fresh_world = (Returned r, w')
       /\ analysis_department r = VStr "General Inquiry"
       /\ phase_of (self w') = Some AWAITING_EMAIL_CONFIRMATION.
Proof.
  intros E.
  destruct (classifier_failure_falls_back text_renderer E fresh_world "hello"
              eq_refl eq_refl eq_refl I)
    as (r & w' & answer & Hcall & _ & Hd & _ & _ & _ & _ & _ & _ & Hp).
  split; [reflexivity|]. split; [exact I|]. exists r, w'.
  exact (conj Hcall (conj Hd Hp)).
Defined.

Lemma unlisted_department_not_posted_witness :
  let E := with_classifier
             (LlmObject (list_to_map [("department", VStr "Marketing");
                                      ("confidence", VInt 80)])) quiet_env in
  let w := feed text_renderer [(E, "Do you run campaigns?")] fresh_world in
  identified_department (self w) = VStr "Marketing"
  /\ ("Marketing" ∉ department_variables.*1)
  /\ send_email_to_department quiet_env "<p>hello</p>" w = (Returned false, w).
Proof.
  intros E w.
  assert (Hname : identified_department (self w) = VStr "Marketing")
    by (vm_compute; reflexivity).
  assert (Hnot : "Marketing" ∉ department_variables.*1).
  { intros Hin%list_elem_of_In. vm_compute in Hin. intuition discriminate. }
  assert (Hdepts : departments (self w) = departments (new_chatbot quiet_env))
    by (vm_compute; reflexivity).
  exact (conj Hname (conj Hnot
           (unlisted_department_not_posted quiet_env quiet_env "<p>hello</p>" "Marketing" w
              Hdepts Hname Hnot))).
Defined.
